(** * GenActorUtils: editor scripting helpers over the host engine

    A shallow embedding of [UGenActorUtils]
    (Source/GenerativeAISupportEditor/Private/MCP/GenActorUtils.cpp).

    Every function of the module is a short sequence of calls into the host
    engine.  The development therefore has three layers:

    - the host engine's object graph as an explicit store ([Engine]): a heap
      of objects addressed by [ObjectId] (a C++ pointer; [None] is
      [nullptr]), the table that resolves path names, and the answers of the
      host to requests whose success the object graph does not determine
      ([HostConduct]);
    - a small state monad [M] over [Host] (the engine, the output log written
      by [UE_LOG], and the trace of mutating host calls), in which a
      dereference of a null or dangling pointer does not return ([Crashed]);
    - the functions of the module, transcribed statement by statement. *)

From Stdlib Require Import Floats DecimalString Ascii.
From stdpp Require Import gmap strings list.

Set Default Proof Using "Type".

(** ** Strings of the engine *)

Module FString.

Definition IsEmpty (s : string) : bool :=
  match s with
  | EmptyString => true
  | String _ _ => false
  end.

Definition ToLowerChar (c : ascii) : ascii :=
  let n := nat_of_ascii c in
  if (65 <=? n) && (n <=? 90) then ascii_of_nat (n + 32) else c.

Fixpoint ToLower (s : string) : string :=
  match s with
  | EmptyString => EmptyString
  | String c r => String (ToLowerChar c) (ToLower r)
  end.

(** [operator==] of the engine's strings ignores case. *)
Definition Equals (a b : string) : bool := String.eqb (ToLower a) (ToLower b).

(** [StartsWith], with its default (case-ignoring) comparison. *)
Definition StartsWith (s p : string) : bool := String.prefix (ToLower p) (ToLower s).

(** Index of the last occurrence of [c], if any. *)
Fixpoint FindLastChar (c : ascii) (s : string) : option nat :=
  match s with
  | EmptyString => None
  | String a r =>
      match FindLastChar c r with
      | Some i => Some (S i)
      | None => if Ascii.eqb a c then Some 0 else None
      end
  end.

Definition Left (n : nat) (s : string) : string := String.substring 0 n s.
Definition Mid (n : nat) (s : string) : string :=
  String.substring n (String.length s - n) s.

(** The quotation mark, for the JSON texts the module returns. *)
Definition Quote : string := String (ascii_of_nat 34) EmptyString.
Definition Quoted (s : string) : string := Quote +:+ s +:+ Quote.

Definition FromInt (n : nat) : string := NilZero.string_of_uint (Nat.to_uint n).

End FString.

Module FPackageName.

Definition Slash : ascii := ascii_of_nat 47.

Definition GetLongPackagePath (InLongPackageName : string) : string :=
  match FString.FindLastChar Slash InLongPackageName with
  | Some IndexOfLastSlash => FString.Left IndexOfLastSlash InLongPackageName
  | None => InLongPackageName
  end.

Definition GetShortName (LongName : string) : string :=
  match FString.FindLastChar Slash LongName with
  | Some IndexOfLastSlash => FString.Mid (S IndexOfLastSlash) LongName
  | None => LongName
  end.

Definition GetAssetPackageExtension : string := ".uasset".

(** The mapping of the content root to a directory is the host's; the
    model keeps the long package name and appends the extension. *)
Definition LongPackageNameToFilename (InLongPackageName Extension : string) : string :=
  InLongPackageName +:+ Extension.

End FPackageName.

(** ** Values carried through the module *)

Record FVector := { vecX : float; vecY : float; vecZ : float }.
Record FRotator := { Pitch : float; Yaw : float; Roll : float }.
Record FLinearColor := { colR : float; colG : float; colB : float; colA : float }.

Definition OneVector : FVector := {| vecX := 1; vecY := 1; vecZ := 1 |}.

(** Object flags and save flags of the engine, as bit masks. *)
Definition RF_Public : Z := 0x1.
Definition RF_Standalone : Z := 0x2.
Definition RF_Transactional : Z := 0x8.
Definition SAVE_NoError : Z := 0x1.

Record FSavePackageArgs := {
  TopLevelFlags : Z;
  SaveFlags : Z
}.

Inductive EBlendMode := BLEND_Opaque | BLEND_Masked | BLEND_Translucent.
Inductive EMaterialProperty := MP_EmissiveColor | MP_BaseColor | MP_Metallic.

(** ** Output log *)

Inductive ELogVerbosity := Error | Warning | Log.

Inductive LogArg :=
| ArgText (s : string)
| ArgFloat (f : float).

(** One [UE_LOG(LogTemp, Verbosity, Format, Args...)]. *)
Record LogLine := {
  Verbosity : ELogVerbosity;
  Format : string;
  Args : list LogArg
}.

(** ** The object graph of the host *)

(** An [ObjectId] is the address of a live object. *)
Abbreviation ObjectId := nat.

Record UStaticMesh := {
  (** the material slots of the mesh, with the material the mesh assigns *)
  StaticMaterials : list (option ObjectId)
}.

Record UStaticMeshComponent := {
  StaticMesh : option ObjectId;
  OverrideMaterials : list (option ObjectId)
}.

Record AActor := {
  ActorClass : ObjectId;
  ActorWorld : ObjectId;
  (** the object name, under which the world resolves the actor *)
  ActorName : string;
  ActorLabel : string;
  ActorLocation : FVector;
  ActorRotation : FRotator;
  ActorScale3D : FVector;
  (** whether [RootComponent] is set: the transform of an actor is that of
      its root component *)
  bHasRootComponent : bool;
  (** the static mesh component, when the actor has one; a pointer to the
      component is modelled by the address of its owner *)
  StaticMeshComponent : option UStaticMeshComponent
}.

Record UMaterialExpressionConstant3Vector := {
  ExpressionMaterial : ObjectId;
  NodePosX : Z;
  NodePosY : Z;
  (** [None]: the class default, never read by the module *)
  Constant : option FLinearColor
}.

Record UMaterial := {
  MaterialPackage : ObjectId;
  MaterialFlags : Z;
  bUseEmissiveForDynamicAreaLighting : bool;
  BlendMode : EBlendMode;
  Expressions : list ObjectId;
  (** the expression wired to the base colour input *)
  BaseColor : option ObjectId;
  (** number of recompilations requested *)
  Recompiled : nat
}.

Record UPackage := {
  PackageName : string;
  bDirty : bool;
  (** file the package was last saved to *)
  SavedTo : option string
}.

Record UBlueprint := {
  ParentClass : option ObjectId;
  GeneratedClass : option ObjectId;
  bStructurallyModified : bool
}.

(** The class default object, reduced to the one property the module writes. *)
Record UClassDefaultObject := {
  DefaultPawnClass : option ObjectId
}.

Record UClass := {
  ClassName : string;
  (** the class itself followed by its super classes *)
  StructBaseChain : list ObjectId;
  ClassDefaultObject : option UClassDefaultObject;
  (** whether the world accepts to spawn an instance *)
  bSpawnable : bool;
  (** whether a fresh instance comes with a root component *)
  bDefaultRootComponent : bool;
  (** whether a fresh instance comes with a static mesh component *)
  bHasStaticMeshComponent : bool
}.

Record AWorldSettings := {
  DefaultGameMode : option ObjectId;
  bSettingsDirty : bool
}.

Record ULevel := {
  WorldSettings : AWorldSettings
}.

Record UWorld := {
  (** the actors of the world, in the order [TActorIterator] visits them *)
  WorldActors : list ObjectId;
  (** objects of the world by name, as [FindObject] resolves them *)
  WorldNames : gmap string ObjectId;
  CurrentLevel : option ULevel
}.

Inductive UObject :=
| ObjActor (a : AActor)
| ObjStaticMesh (m : UStaticMesh)
| ObjMaterial (m : UMaterial)
| ObjMaterialInstance (parent : ObjectId)
| ObjExpression (e : UMaterialExpressionConstant3Vector)
| ObjPackage (p : UPackage)
| ObjBlueprint (b : UBlueprint)
| ObjClass (c : UClass)
| ObjWorld (w : UWorld).

Record UEditorEngine := {
  (** [GetEditorWorldContext().World()] *)
  EditorWorld : option ObjectId
}.

(** The native classes the module names through [StaticClass()]. *)
Record NativeClasses := {
  AActor_StaticClass : ObjectId;
  AStaticMeshActor_StaticClass : ObjectId;
  AGameModeBase_StaticClass : ObjectId;
  APawn_StaticClass : ObjectId
}.

(** What [IAssetTools::CreateAsset] with a blueprint factory produces. *)
Inductive CreateAssetAnswer :=
| AssetRefused
| BlueprintWithoutClass
| BlueprintWithoutCDO
| BlueprintReady.

(** Answers of the host that its object graph does not determine. *)
Record HostConduct := {
  canCreatePackage : bool;
  canCreateObject : bool;
  canCreateExpression : bool;
  canConnectProperty : bool;
  canSavePackage : bool;
  onCreateAsset : CreateAssetAnswer
}.

Record Engine := {
  GEditor : option UEditorEngine;
  Objects : gmap nat UObject;
  (** the global table of path names: packages, assets and classes *)
  Names : gmap string ObjectId;
  NextObject : ObjectId;
  Native : NativeClasses;
  Conduct : HostConduct
}.

(** Mutating calls into the host, in the order they are issued.  [CallWrite]
    is a direct assignment to a property of a host object. *)
Inductive HostCall :=
| CallSpawnActor (World Class Actor : ObjectId)
| CallDestroy (Actor : ObjectId)
| CallSetStaticMesh (Actor Mesh : ObjectId)
| CallSetActorScale3D (Actor : ObjectId) (Scale : FVector)
| CallSetActorLabel (Actor : ObjectId) (Label : string)
| CallSetActorLocation (Actor : ObjectId) (Location : FVector)
| CallSetActorRotation (Actor : ObjectId) (Rotation : FRotator)
| CallSetMaterial (Component : ObjectId) (Index : nat) (Material : ObjectId)
| CallCreatePackage (Path : string) (Package : ObjectId)
| CallNewMaterial (Package : ObjectId) (Name : string) (Material : ObjectId)
| CallWrite (Object : ObjectId) (Field : string)
| CallCreateMaterialExpression (Material Expression : ObjectId)
| CallConnectMaterialProperty (Expression : ObjectId) (Property : EMaterialProperty) (Connected : bool)
| CallPreEditChange (Material : ObjectId)
| CallPostEditChange (Material : ObjectId)
| CallRecompileMaterial (Material : ObjectId)
| CallMarkPackageDirty (Package : ObjectId)
| CallSavePackage (Package : ObjectId) (Filename : string) (Saved : bool)
| CallAssetCreated (Asset : ObjectId)
| CallCreateAsset (AssetName PackagePath : string) (Blueprint : ObjectId)
| CallMarkWorldSettingsDirty (World : ObjectId)
| CallModify (Blueprint : ObjectId)
| CallMarkBlueprintAsStructurallyModified (Blueprint : ObjectId).

Record Host := {
  TheEngine : Engine;
  LogTemp : list LogLine;
  Trace : list HostCall
}.

(** ** Field updates *)

Definition with_Objects (f : gmap nat UObject → gmap nat UObject) (e : Engine) : Engine :=
  {| GEditor := GEditor e; Objects := f (Objects e); Names := Names e;
     NextObject := NextObject e; Native := Native e; Conduct := Conduct e |}.

Definition with_Names (f : gmap string nat → gmap string nat) (e : Engine) : Engine :=
  {| GEditor := GEditor e; Objects := Objects e; Names := f (Names e);
     NextObject := NextObject e; Native := Native e; Conduct := Conduct e |}.

Definition with_NextObject (n : nat) (e : Engine) : Engine :=
  {| GEditor := GEditor e; Objects := Objects e; Names := Names e;
     NextObject := n; Native := Native e; Conduct := Conduct e |}.

(** Allocation of a fresh object: stores it and returns its address. *)
Definition allocate (o : UObject) (e : Engine) : ObjectId * Engine :=
  let id := NextObject e in
  (id, with_NextObject (S id) (with_Objects (insert id o) e)).

(** ** The monad of module code *)

Inductive Outcome (A : Type) :=
| Returned (a : A) (h : Host)
| Crashed.
Arguments Returned {A} a h.
Arguments Crashed {A}.

Definition M (A : Type) : Type := Host → Outcome A.

Definition ret {A} (a : A) : M A := fun h => Returned a h.

Definition bind {A B} (m : M A) (k : A → M B) : M B :=
  fun h =>
    match m h with
    | Returned a h' => k a h'
    | Crashed => Crashed
    end.

Notation "'let*' x ':=' m 'in' k" := (bind m (fun x => k))
  (at level 10, x pattern, m at level 100, k at level 200,
   format "'[v' 'let*'  x  ':='  m  'in' '/' k ']'").
Notation "m ';;' k" := (bind m (fun _ => k))
  (at level 100, k at level 200, right associativity).

(** A dereference of a pointer that holds no object of the expected class. *)
Definition crash {A} : M A := fun _ => Crashed.

Definition gets {A} (f : Engine → A) : M A := fun h => Returned (f (TheEngine h)) h.

Definition modify (f : Engine → Engine) : M unit :=
  fun h => Returned tt {| TheEngine := f (TheEngine h); LogTemp := LogTemp h; Trace := Trace h |}.

Definition record (c : HostCall) : M unit :=
  fun h => Returned tt {| TheEngine := TheEngine h; LogTemp := LogTemp h; Trace := Trace h ++ [c] |}.

Definition UE_LOG (v : ELogVerbosity) (fmt : string) (args : list LogArg) : M unit :=
  fun h => Returned tt
    {| TheEngine := TheEngine h;
       LogTemp := LogTemp h ++ [{| Verbosity := v; Format := fmt; Args := args |}];
       Trace := Trace h |}.

(** Runs [body i] for [i] from [start] to [start + count - 1]. *)
Fixpoint for_range (start count : nat) (body : nat → M unit) : M unit :=
  match count with
  | 0 => ret tt
  | S n => body start ;; for_range (S start) n body
  end.

(** ** The host API

    Each function below stands for the engine function of the same name, at
    the level of its documented contract.  A pointer handed in by module code
    is dereferenced: when it holds no object of the expected class the call
    does not return.  A reference stored inside the object graph whose target
    is gone reads as null, as the engine's garbage collector arranges. *)

Inductive UType :=
| TUStaticMesh
| TUMaterial
| TUMaterialInterface
| TUMaterialExpressionConstant3Vector
| TUPackage
| TUBlueprint
| TUClass
| TAActor.

Definition IsA (o : UObject) (T : UType) : bool :=
  match o, T with
  | ObjStaticMesh _, TUStaticMesh => true
  | ObjMaterial _, TUMaterial => true
  | ObjMaterial _, TUMaterialInterface => true
  | ObjMaterialInstance _, TUMaterialInterface => true
  | ObjExpression _, TUMaterialExpressionConstant3Vector => true
  | ObjPackage _, TUPackage => true
  | ObjBlueprint _, TUBlueprint => true
  | ObjClass _, TUClass => true
  | ObjActor _, TAActor => true
  | _, _ => false
  end.

(** [Cast<T>(p)]: [p] itself when it points to a [T], null otherwise. *)
Definition cast_in (e : Engine) (T : UType) (p : option ObjectId) : option ObjectId :=
  match p with
  | Some id =>
      match Objects e !! id with
      | Some o => if IsA o T then Some id else None
      | None => None
      end
  | None => None
  end.

Definition Cast (T : UType) (p : option ObjectId) : M (option ObjectId) :=
  gets (fun e => cast_in e T p).

Definition store (p : ObjectId) (o : UObject) : M unit :=
  modify (with_Objects (insert p o)).

Definition NewAddress (o : UObject) : M ObjectId :=
  let* id := gets NextObject in
  modify (fun e => snd (allocate o e));;
  ret id.

Definition the_actor (p : ObjectId) : M AActor :=
  let* o := gets (fun e => Objects e !! p) in
  match o with
  | Some (ObjActor a) => ret a
  | _ => crash
  end.

Definition the_world (p : ObjectId) : M UWorld :=
  let* o := gets (fun e => Objects e !! p) in
  match o with
  | Some (ObjWorld w) => ret w
  | _ => crash
  end.

Definition the_class (p : ObjectId) : M UClass :=
  let* o := gets (fun e => Objects e !! p) in
  match o with
  | Some (ObjClass c) => ret c
  | _ => crash
  end.

Definition the_material (p : ObjectId) : M UMaterial :=
  let* o := gets (fun e => Objects e !! p) in
  match o with
  | Some (ObjMaterial m) => ret m
  | _ => crash
  end.

Definition the_package (p : ObjectId) : M UPackage :=
  let* o := gets (fun e => Objects e !! p) in
  match o with
  | Some (ObjPackage k) => ret k
  | _ => crash
  end.

Definition the_blueprint (p : ObjectId) : M UBlueprint :=
  let* o := gets (fun e => Objects e !! p) in
  match o with
  | Some (ObjBlueprint b) => ret b
  | _ => crash
  end.

Definition the_expression (p : ObjectId) : M UMaterialExpressionConstant3Vector :=
  let* o := gets (fun e => Objects e !! p) in
  match o with
  | Some (ObjExpression x) => ret x
  | _ => crash
  end.

(** *** Name resolution *)

Definition resolve (e : Engine) (T : UType) (table : gmap string nat) (path : string)
  : option ObjectId :=
  cast_in e T (table !! path).

(** [LoadObject<T>(nullptr, Path)] *)
Definition LoadObject (T : UType) (Path : string) : M (option ObjectId) :=
  gets (fun e => resolve e T (Names e) Path).

(** [FindObject<T>(ANY_PACKAGE, Name)] *)
Definition FindObject_AnyPackage (T : UType) (Name : string) : M (option ObjectId) :=
  gets (fun e => resolve e T (Names e) Name).

(** [FindPackage(nullptr, Path)] *)
Definition FindPackage (Path : string) : M (option ObjectId) :=
  gets (fun e => resolve e TUPackage (Names e) Path).

(** [FindObject<T>(World, Name)] *)
Definition FindObject_In (T : UType) (World : ObjectId) (Name : string) : M (option ObjectId) :=
  let* w := the_world World in
  gets (fun e => resolve e T (WorldNames w) Name).

(** [Class->IsChildOf(Base)] *)
Definition IsChildOf (Class Base : ObjectId) : M bool :=
  let* c := the_class Class in
  ret (bool_decide (Base ∈ StructBaseChain c)).

(** [FSoftClassPath(Path).TryLoadClass<AActor>()] *)
Definition TryLoadClass_AActor (Path : string) : M (option ObjectId) :=
  let* Class := gets (fun e => resolve e TUClass (Names e) Path) in
  match Class with
  | Some c =>
      let* base := gets (fun e => AActor_StaticClass (Native e)) in
      let* ok := IsChildOf c base in
      ret (if ok then Some c else None)
  | None => ret None
  end.

(** [GEditor->GetEditorWorldContext().World()]; [GEditor] is dereferenced
    without a test. *)
Definition GEditor_GetEditorWorldContext_World : M (option ObjectId) :=
  let* ed := gets GEditor in
  match ed with
  | Some ue => ret (EditorWorld ue)
  | None => crash
  end.

(** *** Actors *)

Definition with_ActorLabel (s : string) (a : AActor) : AActor :=
  {| ActorClass := ActorClass a; ActorWorld := ActorWorld a; ActorName := ActorName a;
     bHasRootComponent := bHasRootComponent a;
     ActorLabel := s; ActorLocation := ActorLocation a; ActorRotation := ActorRotation a;
     ActorScale3D := ActorScale3D a; StaticMeshComponent := StaticMeshComponent a |}.

Definition with_ActorLocation (v : FVector) (a : AActor) : AActor :=
  {| ActorClass := ActorClass a; ActorWorld := ActorWorld a; ActorName := ActorName a;
     bHasRootComponent := bHasRootComponent a;
     ActorLabel := ActorLabel a; ActorLocation := v; ActorRotation := ActorRotation a;
     ActorScale3D := ActorScale3D a; StaticMeshComponent := StaticMeshComponent a |}.

Definition with_ActorRotation (r : FRotator) (a : AActor) : AActor :=
  {| ActorClass := ActorClass a; ActorWorld := ActorWorld a; ActorName := ActorName a;
     bHasRootComponent := bHasRootComponent a;
     ActorLabel := ActorLabel a; ActorLocation := ActorLocation a; ActorRotation := r;
     ActorScale3D := ActorScale3D a; StaticMeshComponent := StaticMeshComponent a |}.

Definition with_ActorScale3D (v : FVector) (a : AActor) : AActor :=
  {| ActorClass := ActorClass a; ActorWorld := ActorWorld a; ActorName := ActorName a;
     bHasRootComponent := bHasRootComponent a;
     ActorLabel := ActorLabel a; ActorLocation := ActorLocation a;
     ActorRotation := ActorRotation a; ActorScale3D := v;
     StaticMeshComponent := StaticMeshComponent a |}.

Definition with_StaticMeshComponent (c : option UStaticMeshComponent) (a : AActor) : AActor :=
  {| ActorClass := ActorClass a; ActorWorld := ActorWorld a; ActorName := ActorName a;
     bHasRootComponent := bHasRootComponent a;
     ActorLabel := ActorLabel a; ActorLocation := ActorLocation a;
     ActorRotation := ActorRotation a; ActorScale3D := ActorScale3D a;
     StaticMeshComponent := c |}.

(** [TActorIterator<AActor>(World)]: the actors the iterator yields, in order. *)
Definition TActorIterator_AActor (World : ObjectId) : M (list ObjectId) :=
  let* w := the_world World in
  ret (WorldActors w).

(** [World->SpawnActor(Class, Location, Rotation)]: null when the class is not
    a spawnable actor class. *)
Definition UWorld_SpawnActor (World Class : ObjectId) (Location : FVector) (Rotation : FRotator)
  : M (option ObjectId) :=
  let* w := the_world World in
  let* c := gets (fun e => Objects e !! Class) in
  let* base := gets (fun e => AActor_StaticClass (Native e)) in
  match c with
  | Some (ObjClass k) =>
      if bSpawnable k && bool_decide (base ∈ StructBaseChain k) then
        let* id := gets NextObject in
        let Name := ClassName k +:+ "_" +:+ FString.FromInt id in
        let* Actor := NewAddress (ObjActor
          {| ActorClass := Class; ActorWorld := World; ActorName := Name;
             ActorLabel := Name; ActorLocation := Location; ActorRotation := Rotation;
             ActorScale3D := OneVector;
             bHasRootComponent := bDefaultRootComponent k;
             StaticMeshComponent :=
               if bHasStaticMeshComponent k
               then Some {| StaticMesh := None; OverrideMaterials := [] |}
               else None |}) in
        store World (ObjWorld
          {| WorldActors := WorldActors w ++ [Actor];
             WorldNames := <[Name := Actor]> (WorldNames w);
             CurrentLevel := CurrentLevel w |});;
        record (CallSpawnActor World Class Actor);;
        ret (Some Actor)
      else ret None
  | _ => ret None
  end.

(** [Actor->Destroy()]: the actor leaves its world and the object graph. *)
Definition AActor_Destroy (Actor : ObjectId) : M unit :=
  let* a := the_actor Actor in
  let* w := gets (fun e => Objects e !! ActorWorld a) in
  match w with
  | Some (ObjWorld w) =>
      store (ActorWorld a) (ObjWorld
        {| WorldActors := filter (fun x => x ≠ Actor) (WorldActors w);
           WorldNames := delete (ActorName a) (WorldNames w);
           CurrentLevel := CurrentLevel w |})
  | _ => ret tt
  end;;
  modify (with_Objects (delete Actor));;
  record (CallDestroy Actor).

(** [Actor->GetStaticMeshComponent()] and
    [Actor->FindComponentByClass<UStaticMeshComponent>()] *)
Definition AActor_GetStaticMeshComponent (Actor : ObjectId) : M (option ObjectId) :=
  let* a := the_actor Actor in
  ret (match StaticMeshComponent a with Some _ => Some Actor | None => None end).

Definition AActor_FindComponentByClass_UStaticMeshComponent (Actor : ObjectId)
  : M (option ObjectId) :=
  AActor_GetStaticMeshComponent Actor.

Definition the_component (Component : ObjectId) : M (AActor * UStaticMeshComponent) :=
  let* a := the_actor Component in
  match StaticMeshComponent a with
  | Some c => ret (a, c)
  | None => crash
  end.

(** [Component->SetStaticMesh(Mesh)] *)
Definition UStaticMeshComponent_SetStaticMesh (Component : ObjectId) (Mesh : ObjectId) : M unit :=
  let* (a, c) := the_component Component in
  store Component (ObjActor (with_StaticMeshComponent
    (Some {| StaticMesh := Some Mesh; OverrideMaterials := OverrideMaterials c |}) a));;
  record (CallSetStaticMesh Component Mesh).

(** [Actor->SetActorScale3D(NewScale3D)]: sets the scale of the root
    component, when there is one. *)
Definition AActor_SetActorScale3D (Actor : ObjectId) (NewScale3D : FVector) : M unit :=
  let* a := the_actor Actor in
  (if bHasRootComponent a
   then store Actor (ObjActor (with_ActorScale3D NewScale3D a))
   else ret tt);;
  record (CallSetActorScale3D Actor NewScale3D).

Definition AActor_GetActorLabel (Actor : ObjectId) : M string :=
  let* a := the_actor Actor in
  ret (ActorLabel a).

Definition AActor_SetActorLabel (Actor : ObjectId) (NewActorLabel : string) : M unit :=
  let* a := the_actor Actor in
  store Actor (ObjActor (with_ActorLabel NewActorLabel a));;
  record (CallSetActorLabel Actor NewActorLabel).

(** [Actor->SetActorLocation(NewLocation)]: moves the root component, and
    tells whether the location was set. *)
Definition AActor_SetActorLocation (Actor : ObjectId) (NewLocation : FVector) : M bool :=
  let* a := the_actor Actor in
  (if bHasRootComponent a
   then store Actor (ObjActor (with_ActorLocation NewLocation a))
   else ret tt);;
  record (CallSetActorLocation Actor NewLocation);;
  ret (bHasRootComponent a).

(** [Actor->SetActorRotation(NewRotation)]: turns the root component, and
    tells whether the rotation was set. *)
Definition AActor_SetActorRotation (Actor : ObjectId) (NewRotation : FRotator) : M bool :=
  let* a := the_actor Actor in
  (if bHasRootComponent a
   then store Actor (ObjActor (with_ActorRotation NewRotation a))
   else ret tt);;
  record (CallSetActorRotation Actor NewRotation);;
  ret (bHasRootComponent a).

(** *** Material slots of a static mesh component *)

(** The material slots of the component's mesh; none without a mesh. *)
Definition mesh_slots (e : Engine) (c : UStaticMeshComponent) : list (option ObjectId) :=
  match StaticMesh c with
  | Some mesh =>
      match Objects e !! mesh with
      | Some (ObjStaticMesh m) => StaticMaterials m
      | _ => []
      end
  | None => []
  end.

(** [Component->GetNumMaterials()] *)
Definition UStaticMeshComponent_GetNumMaterials (Component : ObjectId) : M nat :=
  let* (_, c) := the_component Component in
  gets (fun e => length (mesh_slots e c)).

(** The override array after [SetMaterial(ElementIndex, Material)]: grown with
    nulls up to the index when shorter, then written at the index. *)
Definition set_override (ElementIndex : nat) (Material : ObjectId)
    (overrides : list (option ObjectId)) : list (option ObjectId) :=
  <[ElementIndex := Some Material]>
    (overrides ++ replicate (S ElementIndex - length overrides) None).

(** [Component->SetMaterial(ElementIndex, Material)] *)
Definition UStaticMeshComponent_SetMaterial (Component : ObjectId) (ElementIndex : nat)
    (Material : ObjectId) : M unit :=
  let* (a, c) := the_component Component in
  store Component (ObjActor (with_StaticMeshComponent
    (Some {| StaticMesh := StaticMesh c;
             OverrideMaterials := set_override ElementIndex Material (OverrideMaterials c) |}) a));;
  record (CallSetMaterial Component ElementIndex Material).

(** [Component->GetMaterial(ElementIndex)]: the override when there is one,
    the material of the mesh otherwise. *)
Definition material_of_slot (e : Engine) (c : UStaticMeshComponent) (ElementIndex : nat)
  : option ObjectId :=
  match OverrideMaterials c !! ElementIndex with
  | Some (Some m) => Some m
  | _ => mjoin (mesh_slots e c !! ElementIndex)
  end.

Definition GetMaterial (e : Engine) (Component : ObjectId) (ElementIndex : nat)
  : option ObjectId :=
  match Objects e !! Component with
  | Some (ObjActor a) =>
      match StaticMeshComponent a with
      | Some c => material_of_slot e c ElementIndex
      | None => None
      end
  | _ => None
  end.

(** *** Packages and materials *)

Definition with_bDirty (b : bool) (p : UPackage) : UPackage :=
  {| PackageName := PackageName p; bDirty := b; SavedTo := SavedTo p |}.

Definition with_BlendMode (b : EBlendMode) (m : UMaterial) : UMaterial :=
  {| MaterialPackage := MaterialPackage m; MaterialFlags := MaterialFlags m;
     bUseEmissiveForDynamicAreaLighting := bUseEmissiveForDynamicAreaLighting m;
     BlendMode := b; Expressions := Expressions m; BaseColor := BaseColor m;
     Recompiled := Recompiled m |}.

Definition with_bUseEmissive (b : bool) (m : UMaterial) : UMaterial :=
  {| MaterialPackage := MaterialPackage m; MaterialFlags := MaterialFlags m;
     bUseEmissiveForDynamicAreaLighting := b;
     BlendMode := BlendMode m; Expressions := Expressions m; BaseColor := BaseColor m;
     Recompiled := Recompiled m |}.

Definition with_Expressions (l : list ObjectId) (m : UMaterial) : UMaterial :=
  {| MaterialPackage := MaterialPackage m; MaterialFlags := MaterialFlags m;
     bUseEmissiveForDynamicAreaLighting := bUseEmissiveForDynamicAreaLighting m;
     BlendMode := BlendMode m; Expressions := l; BaseColor := BaseColor m;
     Recompiled := Recompiled m |}.

Definition with_BaseColor (x : option ObjectId) (m : UMaterial) : UMaterial :=
  {| MaterialPackage := MaterialPackage m; MaterialFlags := MaterialFlags m;
     bUseEmissiveForDynamicAreaLighting := bUseEmissiveForDynamicAreaLighting m;
     BlendMode := BlendMode m; Expressions := Expressions m; BaseColor := x;
     Recompiled := Recompiled m |}.

Definition with_Recompiled (n : nat) (m : UMaterial) : UMaterial :=
  {| MaterialPackage := MaterialPackage m; MaterialFlags := MaterialFlags m;
     bUseEmissiveForDynamicAreaLighting := bUseEmissiveForDynamicAreaLighting m;
     BlendMode := BlendMode m; Expressions := Expressions m; BaseColor := BaseColor m;
     Recompiled := n |}.

(** [CreatePackage(Path)]: the package of that name when there is one, a new
    one otherwise. *)
Definition CreatePackage (Path : string) : M (option ObjectId) :=
  let* Existing := FindPackage Path in
  match Existing with
  | Some p => ret (Some p)
  | None =>
      let* ok := gets (fun e => canCreatePackage (Conduct e)) in
      if ok then
        let* p := NewAddress (ObjPackage {| PackageName := Path; bDirty := false; SavedTo := None |}) in
        modify (with_Names (insert Path p));;
        record (CallCreatePackage Path p);;
        ret (Some p)
      else ret None
  end.

(** [NewObject<UMaterial>(Package, Name, Flags)] *)
Definition NewObject_UMaterial (Package : ObjectId) (Name : string) (Flags : Z)
  : M (option ObjectId) :=
  let* k := the_package Package in
  let* ok := gets (fun e => canCreateObject (Conduct e)) in
  if ok then
    let* m := NewAddress (ObjMaterial
      {| MaterialPackage := Package; MaterialFlags := Flags;
         bUseEmissiveForDynamicAreaLighting := false;
         BlendMode := BLEND_Opaque; Expressions := []; BaseColor := None;
         Recompiled := 0 |}) in
    modify (with_Names (insert (PackageName k +:+ "." +:+ Name) m));;
    record (CallNewMaterial Package Name m);;
    ret (Some m)
  else ret None.

(** [Material->bUseEmissiveForDynamicAreaLighting = Value] *)
Definition UMaterial_Write_bUseEmissiveForDynamicAreaLighting (Material : ObjectId) (Value : bool)
  : M unit :=
  let* m := the_material Material in
  store Material (ObjMaterial (with_bUseEmissive Value m));;
  record (CallWrite Material "bUseEmissiveForDynamicAreaLighting").

(** [Material->BlendMode = Value] *)
Definition UMaterial_Write_BlendMode (Material : ObjectId) (Value : EBlendMode) : M unit :=
  let* m := the_material Material in
  store Material (ObjMaterial (with_BlendMode Value m));;
  record (CallWrite Material "BlendMode").

(** [UMaterialEditingLibrary::CreateMaterialExpression(Material,
    UMaterialExpressionConstant3Vector::StaticClass(), X, Y)] *)
Definition UMaterialEditingLibrary_CreateMaterialExpression (Material : ObjectId)
    (NodePosX NodePosY : Z) : M (option ObjectId) :=
  let* m := the_material Material in
  let* ok := gets (fun e => canCreateExpression (Conduct e)) in
  if ok then
    let* x := NewAddress (ObjExpression
      {| ExpressionMaterial := Material; NodePosX := NodePosX; NodePosY := NodePosY;
         Constant := None |}) in
    store Material (ObjMaterial (with_Expressions (Expressions m ++ [x]) m));;
    record (CallCreateMaterialExpression Material x);;
    ret (Some x)
  else ret None.

(** [Expression->Constant = Color] *)
Definition UMaterialExpressionConstant3Vector_Write_Constant (Expression : ObjectId)
    (Color : FLinearColor) : M unit :=
  let* x := the_expression Expression in
  store Expression (ObjExpression
    {| ExpressionMaterial := ExpressionMaterial x; NodePosX := NodePosX x;
       NodePosY := NodePosY x; Constant := Some Color |});;
  record (CallWrite Expression "Constant").

(** [UMaterialEditingLibrary::ConnectMaterialProperty(Expression, OutputName,
    Property)]: whether the connection was made. *)
Definition UMaterialEditingLibrary_ConnectMaterialProperty (Expression : ObjectId)
    (OutputName : string) (Property : EMaterialProperty) : M bool :=
  let* x := the_expression Expression in
  let* ok := gets (fun e => canConnectProperty (Conduct e)) in
  let* target := gets (fun e => Objects e !! ExpressionMaterial x) in
  match target with
  | Some (ObjMaterial m) =>
      (if ok then
         match Property with
         | MP_BaseColor =>
             store (ExpressionMaterial x) (ObjMaterial (with_BaseColor (Some Expression) m))
         | _ => ret tt
         end
       else ret tt);;
      record (CallConnectMaterialProperty Expression Property ok);;
      ret ok
  | _ =>
      record (CallConnectMaterialProperty Expression Property false);;
      ret false
  end.

Definition UMaterial_PreEditChange (Material : ObjectId) : M unit :=
  the_material Material;;
  record (CallPreEditChange Material).

Definition UMaterial_PostEditChange (Material : ObjectId) : M unit :=
  the_material Material;;
  record (CallPostEditChange Material).

Definition UMaterialEditingLibrary_RecompileMaterial (Material : ObjectId) : M unit :=
  let* m := the_material Material in
  store Material (ObjMaterial (with_Recompiled (S (Recompiled m)) m));;
  record (CallRecompileMaterial Material).

Definition UPackage_MarkPackageDirty (Package : ObjectId) : M unit :=
  let* k := the_package Package in
  store Package (ObjPackage (with_bDirty true k));;
  record (CallMarkPackageDirty Package).

(** [UPackage::SavePackage(Package, Asset, Filename, SaveArgs)]: whether the
    package was written. *)
Definition UPackage_SavePackage (Package Asset : ObjectId) (Filename : string)
    (SaveArgs : FSavePackageArgs) : M bool :=
  let* k := the_package Package in
  let* ok := gets (fun e => canSavePackage (Conduct e)) in
  (if ok then
     store Package (ObjPackage
       {| PackageName := PackageName k; bDirty := false; SavedTo := Some Filename |})
   else ret tt);;
  record (CallSavePackage Package Filename ok);;
  ret ok.

Definition FAssetRegistryModule_AssetCreated (Asset : ObjectId) : M unit :=
  record (CallAssetCreated Asset).

(** *** Blueprints, classes and the current level *)

(** [NewObject<UBlueprintFactory>()]: a transient object, local to the call. *)
Record UBlueprintFactory := {
  FactoryParentClass : option ObjectId
}.

(** [AssetTools.CreateAsset(AssetName, PackagePath, UBlueprint::StaticClass(),
    Factory)]: the new asset, or null. *)
Definition IAssetTools_CreateAsset (AssetName PackagePath : string) (Factory : UBlueprintFactory)
  : M (option ObjectId) :=
  let* answer := gets (fun e => onCreateAsset (Conduct e)) in
  let* parent := gets (fun e =>
    match FactoryParentClass Factory with
    | Some p => match Objects e !! p with Some (ObjClass c) => Some c | _ => None end
    | None => None
    end) in
  let Path := PackagePath +:+ "/" +:+ AssetName in
  let generate (cdo : bool) : M (option ObjectId) :=
    let* id := gets NextObject in
    let* c := NewAddress (ObjClass
      {| ClassName := AssetName +:+ "_C";
         StructBaseChain := id :: from_option StructBaseChain [] parent;
         ClassDefaultObject :=
           if cdo
           then Some (from_option (fun p => default {| DefaultPawnClass := None |}
                                                    (ClassDefaultObject p))
                                  {| DefaultPawnClass := None |} parent)
           else None;
         bSpawnable := from_option bSpawnable false parent;
         bDefaultRootComponent := from_option bDefaultRootComponent false parent;
         bHasStaticMeshComponent := from_option bHasStaticMeshComponent false parent |}) in
    modify (with_Names (insert (Path +:+ "." +:+ AssetName +:+ "_C") c));;
    ret (Some c) in
  match answer with
  | AssetRefused => ret None
  | _ =>
      let* cls :=
        match answer with
        | BlueprintReady => generate true
        | BlueprintWithoutCDO => generate false
        | _ => ret None
        end in
      let* bp := NewAddress (ObjBlueprint
        {| ParentClass := FactoryParentClass Factory; GeneratedClass := cls;
           bStructurallyModified := false |}) in
      modify (with_Names (insert Path bp));;
      record (CallCreateAsset AssetName PackagePath bp);;
      ret (Some bp)
  end.

(** [Blueprint->GeneratedClass] *)
Definition UBlueprint_GeneratedClass (Blueprint : ObjectId) : M (option ObjectId) :=
  let* b := the_blueprint Blueprint in
  gets (fun e => cast_in e TUClass (GeneratedClass b)).

(** [Cast<AGameModeBase>(Class->ClassDefaultObject)]; a pointer to the default
    object is modelled by the address of its class. *)
Definition Cast_AGameModeBase_ClassDefaultObject (Class : ObjectId) : M (option ObjectId) :=
  let* c := the_class Class in
  let* base := gets (fun e => AGameModeBase_StaticClass (Native e)) in
  ret (match ClassDefaultObject c with
       | Some _ => if bool_decide (base ∈ StructBaseChain c) then Some Class else None
       | None => None
       end).

(** [GameModeCDO->DefaultPawnClass = PawnClass] *)
Definition AGameModeBase_Write_DefaultPawnClass (GameModeCDO : ObjectId)
    (PawnClass : option ObjectId) : M unit :=
  let* c := the_class GameModeCDO in
  match ClassDefaultObject c with
  | Some _ =>
      store GameModeCDO (ObjClass
        {| ClassName := ClassName c; StructBaseChain := StructBaseChain c;
           ClassDefaultObject := Some {| DefaultPawnClass := PawnClass |};
           bSpawnable := bSpawnable c;
           bDefaultRootComponent := bDefaultRootComponent c;
           bHasStaticMeshComponent := bHasStaticMeshComponent c |});;
      record (CallWrite GameModeCDO "DefaultPawnClass")
  | None => crash
  end.

(** [World->GetCurrentLevel()]; a pointer to the level, and to its world
    settings, is modelled by the address of the world. *)
Definition UWorld_GetCurrentLevel (World : ObjectId) : M (option ObjectId) :=
  let* w := the_world World in
  ret (match CurrentLevel w with Some _ => Some World | None => None end).

Definition the_level (Level : ObjectId) : M (UWorld * ULevel) :=
  let* w := the_world Level in
  match CurrentLevel w with
  | Some l => ret (w, l)
  | None => crash
  end.

Definition ULevel_GetWorldSettings (Level : ObjectId) : M ObjectId :=
  the_level Level;;
  ret Level.

Definition with_WorldSettings (s : AWorldSettings) (w : UWorld) : UWorld :=
  {| WorldActors := WorldActors w; WorldNames := WorldNames w;
     CurrentLevel := Some {| WorldSettings := s |} |}.

(** [Settings->DefaultGameMode = Class] *)
Definition AWorldSettings_Write_DefaultGameMode (Settings : ObjectId) (Class : ObjectId) : M unit :=
  let* (w, l) := the_level Settings in
  store Settings (ObjWorld (with_WorldSettings
    {| DefaultGameMode := Some Class; bSettingsDirty := bSettingsDirty (WorldSettings l) |} w));;
  record (CallWrite Settings "DefaultGameMode").

(** [Settings->MarkPackageDirty()] *)
Definition AWorldSettings_MarkPackageDirty (Settings : ObjectId) : M unit :=
  let* (w, l) := the_level Settings in
  store Settings (ObjWorld (with_WorldSettings
    {| DefaultGameMode := DefaultGameMode (WorldSettings l); bSettingsDirty := true |} w));;
  record (CallMarkWorldSettingsDirty Settings).

Definition UBlueprint_Modify (Blueprint : ObjectId) : M unit :=
  the_blueprint Blueprint;;
  record (CallModify Blueprint).

Definition FBlueprintEditorUtils_MarkBlueprintAsStructurallyModified (Blueprint : ObjectId)
  : M unit :=
  let* b := the_blueprint Blueprint in
  store Blueprint (ObjBlueprint
    {| ParentClass := ParentClass b; GeneratedClass := GeneratedClass b;
       bStructurallyModified := true |});;
  record (CallMarkBlueprintAsStructurallyModified Blueprint).

(** ** The module *)

Module UGenActorUtils.

Definition SpawnBasicShape (ShapeName : string) (Location : FVector) (Rotation : FRotator)
    (Scale : FVector) (ActorLabel : string) : M (option ObjectId) :=
  let* World := GEditor_GetEditorWorldContext_World in
  match World with
  | None =>
      UE_LOG Error "Failed to get editor world" [];;
      ret None
  | Some World =>
      let* StaticClass := gets (fun e => AStaticMeshActor_StaticClass (Native e)) in
      let* Actor := UWorld_SpawnActor World StaticClass Location Rotation in
      match Actor with
      | None =>
          UE_LOG Error "Failed to spawn StaticMeshActor" [];;
          ret None
      | Some Actor =>
          let MeshPath := "/Engine/BasicShapes/" +:+ ShapeName +:+ "." +:+ ShapeName in
          let* Mesh := LoadObject TUStaticMesh MeshPath in
          match Mesh with
          | None =>
              UE_LOG Error "Failed to load static mesh at path: %s" [ArgText MeshPath];;
              AActor_Destroy Actor;;
              ret None
          | Some Mesh =>
              let* Component := AActor_GetStaticMeshComponent Actor in
              match Component with
              | Some Component => UStaticMeshComponent_SetStaticMesh Component Mesh
              | None => crash
              end;;
              AActor_SetActorScale3D Actor Scale;;
              (if negb (FString.IsEmpty ActorLabel)
               then AActor_SetActorLabel Actor ActorLabel
               else ret tt);;
              ret (Some Actor)
          end
      end
  end.

Definition SpawnStaticMeshActor (MeshPath : string) (Location : FVector) (Rotation : FRotator)
    (Scale : FVector) (ActorLabel : string) : M (option ObjectId) :=
  let* Mesh := LoadObject TUStaticMesh MeshPath in
  match Mesh with
  | None =>
      UE_LOG Error "Could not load static mesh from: %s" [ArgText MeshPath];;
      ret None
  | Some Mesh =>
      let* World := GEditor_GetEditorWorldContext_World in
      match World with
      | None =>
          UE_LOG Error "Failed to get editor world" [];;
          ret None
      | Some World =>
          let* StaticClass := gets (fun e => AStaticMeshActor_StaticClass (Native e)) in
          let* Actor := UWorld_SpawnActor World StaticClass Location Rotation in
          match Actor with
          | None =>
              UE_LOG Error "Failed to spawn StaticMeshActor" [];;
              ret None
          | Some Actor =>
              let* MeshComponent := AActor_GetStaticMeshComponent Actor in
              match MeshComponent with
              | Some MeshComponent =>
                  UStaticMeshComponent_SetStaticMesh MeshComponent Mesh;;
                  AActor_SetActorScale3D Actor Scale;;
                  (if negb (FString.IsEmpty ActorLabel)
                   then AActor_SetActorLabel Actor ActorLabel
                   else ret tt);;
                  UE_LOG Log "Spawned StaticMeshActor with mesh %s labeled %s"
                    [ArgText MeshPath; ArgText ActorLabel];;
                  ret (Some Actor)
              | None =>
                  UE_LOG Error "No StaticMeshComponent found on spawned actor" [];;
                  AActor_Destroy Actor;;
                  ret None
              end
          end
      end
  end.

Definition SpawnActorFromClass (ActorClassName : string) (Location : FVector)
    (Rotation : FRotator) (Scale : FVector) (ActorLabel : string) : M (option ObjectId) :=
  (* the function from [if (!ActorClass)] on *)
  let from_class (ActorClass : option ObjectId) : M (option ObjectId) :=
    match ActorClass with
    | None =>
        UE_LOG Error "Could not load actor class from: %s" [ArgText ActorClassName];;
        ret None
    | Some ActorClass =>
        let* World := GEditor_GetEditorWorldContext_World in
        match World with
        | None =>
            UE_LOG Error "Failed to get editor world" [];;
            ret None
        | Some World =>
            let* Actor := UWorld_SpawnActor World ActorClass Location Rotation in
            match Actor with
            | None =>
                UE_LOG Error "Failed to spawn actor of class: %s" [ArgText ActorClassName];;
                ret None
            | Some Actor =>
                AActor_SetActorScale3D Actor Scale;;
                (if negb (FString.IsEmpty ActorLabel)
                 then AActor_SetActorLabel Actor ActorLabel
                 else ret tt);;
                ret (Some Actor)
            end
        end
    end in
  if FString.StartsWith ActorClassName "/" then
    let* ActorClass := TryLoadClass_AActor ActorClassName in
    from_class ActorClass
  else
    (* [FullClassName] is computed and not used *)
    let FullClassName := "/Script/Engine." +:+ ActorClassName in
    let* ActorClass := FindObject_AnyPackage TUClass ActorClassName in
    match ActorClass with
    | None =>
        UE_LOG Error "Could not find actor class: %s" [ArgText ActorClassName];;
        ret None
    | Some _ => from_class ActorClass
    end.

(** [for (TActorIterator<AActor> It(World); It; ++It)] of [FindActorByName],
    over the actors left to visit. *)
Fixpoint FindActorByName_loop (ActorName : string) (It : list ObjectId)
  : M (option ObjectId) :=
  match It with
  | [] => ret None
  | Actor :: It =>
      let* Actor := Cast TAActor (Some Actor) in
      match Actor with
      | Some Actor =>
          let* Label := AActor_GetActorLabel Actor in
          if FString.Equals Label ActorName
          then ret (Some Actor)
          else FindActorByName_loop ActorName It
      | None => FindActorByName_loop ActorName It
      end
  end.

Definition FindActorByName (ActorName : string) : M (option ObjectId) :=
  let* World := GEditor_GetEditorWorldContext_World in
  match World with
  | None =>
      UE_LOG Error "Failed to get editor world" [];;
      ret None
  | Some World =>
      let* It := TActorIterator_AActor World in
      let* Actor := FindActorByName_loop ActorName It in
      match Actor with
      | Some Actor => ret (Some Actor)
      | None =>
          let* FoundActor := FindObject_In TAActor World ActorName in
          match FoundActor with
          | Some FoundActor => ret (Some FoundActor)
          | None =>
              UE_LOG Warning "Actor '%s' not found in the level" [ArgText ActorName];;
              ret None
          end
      end
  end.

(** [CreateMaterial] from [CreatePackage] on: no material of that name was
    loaded. *)
Definition CreateMaterial_create (MaterialName : string) (Color : FLinearColor)
  : M (option ObjectId) :=
  let PackagePath := "/Game/Materials" in
  let FullPackagePath := PackagePath +:+ "/" +:+ MaterialName in
  let* Package := CreatePackage FullPackagePath in
  match Package with
  | None =>
      UE_LOG Error "Failed to create package for material '%s'" [ArgText MaterialName];;
      ret None
  | Some Package =>
      let* Material :=
        NewObject_UMaterial Package MaterialName
          (Z.lor (Z.lor RF_Public RF_Standalone) RF_Transactional) in
      match Material with
      | None =>
          UE_LOG Error "Failed to create material '%s'" [ArgText MaterialName];;
          ret None
      | Some Material =>
          UMaterial_Write_bUseEmissiveForDynamicAreaLighting Material false;;
          UMaterial_Write_BlendMode Material BLEND_Opaque;;
          let* Expression :=
            UMaterialEditingLibrary_CreateMaterialExpression Material (-350) 0 in
          let* ConstantColor := Cast TUMaterialExpressionConstant3Vector Expression in
          match ConstantColor with
          | Some ConstantColor =>
              UMaterialExpressionConstant3Vector_Write_Constant ConstantColor Color;;
              let* bSuccess :=
                UMaterialEditingLibrary_ConnectMaterialProperty ConstantColor "" MP_BaseColor in
              if negb bSuccess
              then UE_LOG Error "Failed to connect material property" []
              else ret tt
          | None => ret tt
          end;;
          UMaterial_PreEditChange Material;;
          UMaterial_PostEditChange Material;;
          UMaterialEditingLibrary_RecompileMaterial Material;;
          UPackage_MarkPackageDirty Package;;
          let PackageFileName :=
            FPackageName.LongPackageNameToFilename FullPackagePath
              FPackageName.GetAssetPackageExtension in
          let SaveArgs :=
            {| TopLevelFlags := Z.lor RF_Public RF_Standalone;
               SaveFlags := SAVE_NoError |} in
          let* bSaved := UPackage_SavePackage Package Material PackageFileName SaveArgs in
          (if bSaved then
             FAssetRegistryModule_AssetCreated Material;;
             UE_LOG Log "Successfully created and saved material '%s'" [ArgText MaterialName]
           else
             UE_LOG Error "Failed to save material '%s'" [ArgText MaterialName]);;
          ret (Some Material)
      end
  end.

Definition CreateMaterial (MaterialName : string) (Color : FLinearColor)
  : M (option ObjectId) :=
  let PackagePath := "/Game/Materials" in
  let FullPackagePath := PackagePath +:+ "/" +:+ MaterialName in
  let* ExistingPackage := FindPackage FullPackagePath in
  match ExistingPackage with
  | Some _ =>
      UE_LOG Warning "Material '%s' already exists, trying to load it" [ArgText MaterialName];;
      let* ExistingMaterial :=
        LoadObject TUMaterial (FullPackagePath +:+ "." +:+ MaterialName) in
      match ExistingMaterial with
      | Some ExistingMaterial => ret (Some ExistingMaterial)
      | None => CreateMaterial_create MaterialName Color
      end
  | None => CreateMaterial_create MaterialName Color
  end.

Definition SetActorMaterial (ActorName : string) (Material : option ObjectId) : M bool :=
  match Material with
  | None =>
      UE_LOG Error "Null material provided" [];;
      ret false
  | Some Material =>
      let* Actor := FindActorByName ActorName in
      match Actor with
      | None => ret false
      | Some Actor =>
          let* MeshComponent := AActor_FindComponentByClass_UStaticMeshComponent Actor in
          match MeshComponent with
          | None =>
              UE_LOG Error "No static mesh component found on actor '%s'" [ArgText ActorName];;
              ret false
          | Some MeshComponent =>
              let* MaterialCount := UStaticMeshComponent_GetNumMaterials MeshComponent in
              for_range 0 MaterialCount (fun i =>
                UStaticMeshComponent_SetMaterial MeshComponent i Material);;
              UE_LOG Log "Set material for actor '%s'" [ArgText ActorName];;
              ret true
          end
      end
  end.

Definition SetActorMaterialByPath (ActorName MaterialPath : string) : M bool :=
  let* Material := LoadObject TUMaterialInterface MaterialPath in
  match Material with
  | None =>
      UE_LOG Error "Failed to load material at path '%s'" [ArgText MaterialPath];;
      ret false
  | Some _ => SetActorMaterial ActorName Material
  end.

Definition SetActorPosition (ActorName : string) (Position : FVector) : M bool :=
  let* Actor := FindActorByName ActorName in
  match Actor with
  | None => ret false
  | Some Actor =>
      AActor_SetActorLocation Actor Position;;
      UE_LOG Log "Set position of actor '%s' to (%f, %f, %f)"
        [ArgText ActorName; ArgFloat (vecX Position); ArgFloat (vecY Position);
         ArgFloat (vecZ Position)];;
      ret true
  end.

Definition SetActorRotation (ActorName : string) (Rotation : FRotator) : M bool :=
  let* Actor := FindActorByName ActorName in
  match Actor with
  | None => ret false
  | Some Actor =>
      AActor_SetActorRotation Actor Rotation;;
      UE_LOG Log "Set rotation of actor '%s' to (%f, %f, %f)"
        [ArgText ActorName; ArgFloat (Pitch Rotation); ArgFloat (Yaw Rotation);
         ArgFloat (Roll Rotation)];;
      ret true
  end.

Definition SetActorScale (ActorName : string) (Scale : FVector) : M bool :=
  let* Actor := FindActorByName ActorName in
  match Actor with
  | None => ret false
  | Some Actor =>
      AActor_SetActorScale3D Actor Scale;;
      UE_LOG Log "Set scale of actor '%s' to (%f, %f, %f)"
        [ArgText ActorName; ArgFloat (vecX Scale); ArgFloat (vecY Scale);
         ArgFloat (vecZ Scale)];;
      ret true
  end.

(** The JSON texts [CreateGameModeWithPawn] returns. *)
Definition ErrorJson (message : string) : string :=
  "{" +:+ FString.Quoted "success" +:+ ": false, " +:+ FString.Quoted "error" +:+ ": "
      +:+ FString.Quoted message +:+ "}".

Definition SuccessJson (GameModePath PawnBlueprintPath : string) : string :=
  "{" +:+ FString.Quoted "success" +:+ ": true, " +:+ FString.Quoted "message" +:+ ": "
      +:+ FString.Quoted ("Created game mode " +:+ GameModePath +:+ " with pawn "
                          +:+ PawnBlueprintPath +:+ " and set as scene default")
      +:+ "}".

(** [CreateGameModeWithPawn] from "Create the new game mode Blueprint" on:
    every guard has passed. *)
Definition CreateGameModeWithPawn_create (GameModePath PawnBlueprintPath : string)
    (BaseClass PawnClass : option ObjectId) : M string :=
  let PackageName := FPackageName.GetLongPackagePath GameModePath in
  let AssetName := FPackageName.GetShortName GameModePath in
  let BlueprintFactory := {| FactoryParentClass := BaseClass |} in
  let* NewAsset := IAssetTools_CreateAsset AssetName PackageName BlueprintFactory in
  let* GameModeBP := Cast TUBlueprint NewAsset in
  match GameModeBP with
  | None =>
      UE_LOG Error "Failed to create game mode blueprint at %s" [ArgText GameModePath];;
      ret (ErrorJson "Failed to create game mode")
  | Some GameModeBP =>
  let* GameModeClass := UBlueprint_GeneratedClass GameModeBP in
  match GameModeClass with
  | None =>
      UE_LOG Error "Generated class not found for %s" [ArgText GameModePath];;
      ret (ErrorJson "No generated class")
  | Some GameModeClass =>
  let* GameModeCDO := Cast_AGameModeBase_ClassDefaultObject GameModeClass in
  match GameModeCDO with
  | Some GameModeCDO => AGameModeBase_Write_DefaultPawnClass GameModeCDO PawnClass
  | None => ret tt
  end;;
  let* Editor := gets GEditor in
  match Editor with
  | Some _ =>
      let* CurrentWorld := GEditor_GetEditorWorldContext_World in
      match CurrentWorld with
      | Some CurrentWorld =>
          let* CurrentLevel := UWorld_GetCurrentLevel CurrentWorld in
          match CurrentLevel with
          | Some CurrentLevel =>
              let* Settings := ULevel_GetWorldSettings CurrentLevel in
              AWorldSettings_Write_DefaultGameMode Settings GameModeClass;;
              let* Settings := ULevel_GetWorldSettings CurrentLevel in
              AWorldSettings_MarkPackageDirty Settings;;
              UE_LOG Log "Set %s as default game mode for current scene" [ArgText GameModePath]
          | None =>
              UE_LOG Warning "No current level found to set game mode" []
          end
      | None =>
          UE_LOG Warning "No current world found to set game mode" []
      end
  | None => ret tt
  end;;
  UBlueprint_Modify GameModeBP;;
  FBlueprintEditorUtils_MarkBlueprintAsStructurallyModified GameModeBP;;
  UE_LOG Log "Created game mode %s with pawn %s and set as scene default"
    [ArgText GameModePath; ArgText PawnBlueprintPath];;
  ret (SuccessJson GameModePath PawnBlueprintPath)
  end
  end.

Definition CreateGameModeWithPawn (GameModePath PawnBlueprintPath BaseClassName : string)
  : M string :=
  if FString.IsEmpty GameModePath || FString.IsEmpty PawnBlueprintPath then
    UE_LOG Error "GameModePath or PawnBlueprintPath is empty" [];;
    ret (ErrorJson "Empty path provided")
  else
  let* Existing := LoadObject TUBlueprint GameModePath in
  match Existing with
  | Some _ =>
      UE_LOG Warning "Game mode already exists at %s" [ArgText GameModePath];;
      ret (ErrorJson "Game mode already exists")
  | None =>
  let BaseClassToUse :=
    if FString.IsEmpty BaseClassName then "GameModeBase" else BaseClassName in
  let* BaseClass := FindObject_AnyPackage TUClass BaseClassToUse in
  let* AGameModeBase := gets (fun e => AGameModeBase_StaticClass (Native e)) in
  let* bBaseClassValid :=
    match BaseClass with
    | Some BaseClass => IsChildOf BaseClass AGameModeBase
    | None => ret false
    end in
  if negb bBaseClassValid then
    UE_LOG Error "Invalid base class %s for game mode" [ArgText BaseClassToUse];;
    ret (ErrorJson "Invalid base class")
  else
  let* PawnBP := LoadObject TUBlueprint PawnBlueprintPath in
  let* PawnClass :=
    match PawnBP with
    | Some PawnBP => UBlueprint_GeneratedClass PawnBP
    | None => ret None
    end in
  let* APawn := gets (fun e => APawn_StaticClass (Native e)) in
  let* bPawnValid :=
    match PawnClass with
    | Some PawnClass => IsChildOf PawnClass APawn
    | None => ret false
    end in
  if negb bPawnValid then
    UE_LOG Error "Invalid pawn blueprint: %s" [ArgText PawnBlueprintPath];;
    ret (ErrorJson "Invalid pawn blueprint")
  else
  CreateGameModeWithPawn_create GameModePath PawnBlueprintPath BaseClass PawnClass
  end.

End UGenActorUtils.

(** ** Calls of the module as data *)

Inductive Operation :=
| OpSpawnBasicShape (ShapeName : string) (Location : FVector) (Rotation : FRotator)
    (Scale : FVector) (ActorLabel : string)
| OpSpawnStaticMeshActor (MeshPath : string) (Location : FVector) (Rotation : FRotator)
    (Scale : FVector) (ActorLabel : string)
| OpSpawnActorFromClass (ActorClassName : string) (Location : FVector) (Rotation : FRotator)
    (Scale : FVector) (ActorLabel : string)
| OpFindActorByName (ActorName : string)
| OpCreateMaterial (MaterialName : string) (Color : FLinearColor)
| OpSetActorMaterial (ActorName : string) (Material : option ObjectId)
| OpSetActorMaterialByPath (ActorName MaterialPath : string)
| OpSetActorPosition (ActorName : string) (Position : FVector)
| OpSetActorRotation (ActorName : string) (Rotation : FRotator)
| OpSetActorScale (ActorName : string) (Scale : FVector)
| OpCreateGameModeWithPawn (GameModePath PawnBlueprintPath BaseClassName : string).

(** What a call hands back: a pointer, a flag or a JSON text. *)
Inductive Answer :=
| Pointer (p : option ObjectId)
| Flag (b : bool)
| Json (s : string).

Definition invoke (op : Operation) : M Answer :=
  match op with
  | OpSpawnBasicShape n l r s a =>
      let* p := UGenActorUtils.SpawnBasicShape n l r s a in ret (Pointer p)
  | OpSpawnStaticMeshActor n l r s a =>
      let* p := UGenActorUtils.SpawnStaticMeshActor n l r s a in ret (Pointer p)
  | OpSpawnActorFromClass n l r s a =>
      let* p := UGenActorUtils.SpawnActorFromClass n l r s a in ret (Pointer p)
  | OpFindActorByName n =>
      let* p := UGenActorUtils.FindActorByName n in ret (Pointer p)
  | OpCreateMaterial n c =>
      let* p := UGenActorUtils.CreateMaterial n c in ret (Pointer p)
  | OpSetActorMaterial n m =>
      let* b := UGenActorUtils.SetActorMaterial n m in ret (Flag b)
  | OpSetActorMaterialByPath n p =>
      let* b := UGenActorUtils.SetActorMaterialByPath n p in ret (Flag b)
  | OpSetActorPosition n v =>
      let* b := UGenActorUtils.SetActorPosition n v in ret (Flag b)
  | OpSetActorRotation n r =>
      let* b := UGenActorUtils.SetActorRotation n r in ret (Flag b)
  | OpSetActorScale n v =>
      let* b := UGenActorUtils.SetActorScale n v in ret (Flag b)
  | OpCreateGameModeWithPawn g p b =>
      let* s := UGenActorUtils.CreateGameModeWithPawn g p b in ret (Json s)
  end.

(** The failure sentinels: null, false, or a JSON text reporting an error. *)
Definition is_sentinel (a : Answer) : Prop :=
  match a with
  | Pointer p => p = None
  | Flag b => b = false
  | Json s => ∃ message, s = UGenActorUtils.ErrorJson message
  end.

(** ** Programs over the host

    [Built P m]: the computation [m] is put together from reads and updates
    of the engine, lines appended to the log, and host calls satisfying [P]
    appended to the trace, and from nothing else. *)

Inductive Built (P : HostCall → Prop) : ∀ A : Type, M A → Prop :=
| Built_ret A (a : A) : Built P A (ret a)
| Built_bind A B (m : M A) (k : A → M B) :
    Built P A m → (∀ a, Built P B (k a)) → Built P B (bind m k)
| Built_crash A : Built P A crash
| Built_gets A (f : Engine → A) : Built P A (gets f)
| Built_modify f : Built P unit (modify f)
| Built_record c : P c → Built P unit (record c)
| Built_UE_LOG v fmt args : Built P unit (UE_LOG v fmt args).
Arguments Built P {A} m.

(** The output of a run started with an empty log and trace, replayed after
    the log [l] and the trace [t]. *)
Definition replay {A} (l : list LogLine) (t : list HostCall) (o : Outcome A) : Outcome A :=
  match o with
  | Returned a h =>
      Returned a {| TheEngine := TheEngine h; LogTemp := l ++ LogTemp h; Trace := t ++ Trace h |}
  | Crashed => Crashed
  end.

Definition fresh_history (e : Engine) : Host :=
  {| TheEngine := e; LogTemp := []; Trace := [] |}.

(** [m] neither reads the log nor the trace, and only appends to them. *)
Definition history_independent {A} (m : M A) : Prop :=
  ∀ h, m h = replay (LogTemp h) (Trace h) (m (fresh_history (TheEngine h))).

(** Two outcomes that agree on the result, on the engine left behind, and on
    the lines and calls added to the histories [h1] and [h2] they began with. *)
Definition same_outcome {A} (h1 h2 : Host) (o1 o2 : Outcome A) : Prop :=
  match o1, o2 with
  | Returned a1 h1', Returned a2 h2' =>
      a1 = a2 ∧ TheEngine h1' = TheEngine h2' ∧
      ∃ lines calls,
        LogTemp h1' = LogTemp h1 ++ lines ∧ LogTemp h2' = LogTemp h2 ++ lines ∧
        Trace h1' = Trace h1 ++ calls ∧ Trace h2' = Trace h2 ++ calls
  | Crashed, Crashed => True
  | _, _ => False
  end.

(** ** Pure readings of the engine *)

(** The first actor in [It] whose label equals [ActorName]. *)
Fixpoint find_by_label (e : Engine) (ActorName : string) (It : list ObjectId)
  : option ObjectId :=
  match It with
  | [] => None
  | Actor :: It =>
      match Objects e !! Actor with
      | Some (ObjActor a) =>
          if FString.Equals (ActorLabel a) ActorName then Some Actor
          else find_by_label e ActorName It
      | _ => find_by_label e ActorName It
      end
  end.

(** [Actor] is a live actor labelled [ActorName]. *)
Definition labelled (e : Engine) (ActorName : string) (Actor : ObjectId) : Prop :=
  ∃ a, Objects e !! Actor = Some (ObjActor a) ∧ FString.Equals (ActorLabel a) ActorName = true.

(** The editor world, when [GEditor] is set and has a live world. *)
Definition editor_world (e : Engine) : option (ObjectId * UWorld) :=
  match GEditor e with
  | Some ue =>
      match EditorWorld ue with
      | Some World =>
          match Objects e !! World with
          | Some (ObjWorld w) => Some (World, w)
          | _ => None
          end
      | None => None
      end
  | None => None
  end.

Definition add_log (v : ELogVerbosity) (fmt : string) (args : list LogArg) (h : Host) : Host :=
  {| TheEngine := TheEngine h;
     LogTemp := LogTemp h ++ [{| Verbosity := v; Format := fmt; Args := args |}];
     Trace := Trace h |}.

(** Addresses from [NextObject] on are free. *)
Definition heap_fresh (e : Engine) : Prop :=
  ∀ id, NextObject e ≤ id → Objects e !! id = None.

(** What [FindActorByName] finds: the label search, then the path lookup. *)
Definition find_actor (e : Engine) (ActorName : string) : option ObjectId :=
  match editor_world e with
  | Some (World, w) =>
      match find_by_label e ActorName (WorldActors w) with
      | Some Actor => Some Actor
      | None => resolve e TAActor (WorldNames w) ActorName
      end
  | None => None
  end.

(** [GEditor] is set, and its world pointer is null or points to a world. *)
Definition editor_ok (e : Engine) : Prop :=
  match GEditor e with
  | Some ue =>
      match EditorWorld ue with
      | Some World => ∃ w, Objects e !! World = Some (ObjWorld w)
      | None => True
      end
  | None => False
  end.

(** Every field of the engine but the object store is the same. *)
Definition same_but_objects (e e' : Engine) : Prop :=
  GEditor e' = GEditor e ∧ Names e' = Names e ∧ NextObject e' = NextObject e ∧
  Native e' = Native e ∧ Conduct e' = Conduct e.

(** Every object but the one at [Actor] is the same. *)
Definition others_untouched (Actor : ObjectId) (e e' : Engine) : Prop :=
  ∀ p, p ≠ Actor → Objects e' !! p = Objects e !! p.

(** The parts of an actor's transform. *)
Inductive TransformPart := PartLocation | PartRotation | PartScale.

(** [a'] is [a] but for the part [part] of its transform. *)
Definition same_actor_but (part : TransformPart) (a a' : AActor) : Prop :=
  ActorClass a' = ActorClass a ∧ ActorWorld a' = ActorWorld a ∧
  ActorName a' = ActorName a ∧ ActorLabel a' = ActorLabel a ∧
  bHasRootComponent a' = bHasRootComponent a ∧
  StaticMeshComponent a' = StaticMeshComponent a ∧
  (part ≠ PartLocation → ActorLocation a' = ActorLocation a) ∧
  (part ≠ PartRotation → ActorRotation a' = ActorRotation a) ∧
  (part ≠ PartScale → ActorScale3D a' = ActorScale3D a).

(** The host [h'] is [h] with the actor at [Actor] replaced by [a']. *)
Definition actor_replaced (Actor : ObjectId) (a' : AActor) (h h' : Host) : Prop :=
  Objects (TheEngine h') !! Actor = Some (ObjActor a') ∧
  others_untouched Actor (TheEngine h) (TheEngine h') ∧
  same_but_objects (TheEngine h) (TheEngine h').

Fixpoint set_overrides_from (start count : nat) (Material : ObjectId)
    (overrides : list (option ObjectId)) : list (option ObjectId) :=
  match count with
  | 0 => overrides
  | S n => set_overrides_from (S start) n Material (set_override start Material overrides)
  end.

(** ** Guards of [CreateGameModeWithPawn], read off the engine *)

Definition BaseClassToUse (BaseClassName : string) : string :=
  if FString.IsEmpty BaseClassName then "GameModeBase" else BaseClassName.

(** [Class] is a live class with [Base] among its super classes. *)
Definition descends_from (e : Engine) (Class Base : ObjectId) : bool :=
  match Objects e !! Class with
  | Some (ObjClass c) => bool_decide (Base ∈ StructBaseChain c)
  | _ => false
  end.

(** The base class the name resolves to, when it is a game mode class. *)
Definition game_mode_base (e : Engine) (BaseClassName : string) : option ObjectId :=
  match resolve e TUClass (Names e) (BaseClassToUse BaseClassName) with
  | Some BaseClass =>
      if descends_from e BaseClass (AGameModeBase_StaticClass (Native e))
      then Some BaseClass else None
  | None => None
  end.

(** The generated class of the blueprint at the path, when it is a pawn class. *)
Definition pawn_class (e : Engine) (PawnBlueprintPath : string) : option ObjectId :=
  match resolve e TUBlueprint (Names e) PawnBlueprintPath with
  | Some PawnBP =>
      match Objects e !! PawnBP with
      | Some (ObjBlueprint b) =>
          match cast_in e TUClass (GeneratedClass b) with
          | Some PawnClass =>
              if descends_from e PawnClass (APawn_StaticClass (Native e))
              then Some PawnClass else None
          | None => None
          end
      | _ => None
      end
  | None => None
  end.

(** [GEditor] is null, or its world pointer is null or points to a world. *)
Definition world_ok (e : Engine) : Prop :=
  match GEditor e with
  | Some ue =>
      match EditorWorld ue with
      | Some World => ∃ w, Objects e !! World = Some (ObjWorld w)
      | None => True
      end
  | None => True
  end.

(** The calls [CreateGameModeWithPawn] issues on the current level. *)
Definition level_calls (e : Engine) : list HostCall :=
  match editor_world e with
  | Some (World, w) =>
      match CurrentLevel w with
      | Some _ => [CallWrite World "DefaultGameMode"; CallMarkWorldSettingsDirty World]
      | None => []
      end
  | None => []
  end.

Definition is_property_write (c : HostCall) : bool :=
  match c with
  | CallWrite _ _ => true
  | _ => false
  end.

Definition property_writes (calls : list HostCall) : list HostCall :=
  filter (fun c => is_property_write c = true) calls.

Definition not_destroy (c : HostCall) : Prop := ∀ Actor, c ≠ CallDestroy Actor.

(** ** Materials by name *)

Definition MaterialPackagePath (MaterialName : string) : string :=
  "/Game/Materials" +:+ "/" +:+ MaterialName.

Definition MaterialObjectPath (MaterialName : string) : string :=
  MaterialPackagePath MaterialName +:+ "." +:+ MaterialName.

(** The name table files every package under the name the package carries. *)
Definition packages_filed (e : Engine) : Prop :=
  ∀ path p k, Names e !! path = Some p → Objects e !! p = Some (ObjPackage k) →
              PackageName k = path.

Definition line (v : ELogVerbosity) (fmt : string) (args : list LogArg) : LogLine :=
  {| Verbosity := v; Format := fmt; Args := args |}.

(** A package for the material is there or can be created. *)
Definition package_at_hand (e : Engine) (MaterialName : string) : Prop :=
  is_Some (resolve e TUPackage (Names e) (MaterialPackagePath MaterialName)) ∨
  canCreatePackage (Conduct e) = true.

(** What [CreateMaterial_create] leaves behind, by its result. *)
Definition created (MaterialName : string) (h : Host) (r : option ObjectId) (h' : Host) : Prop :=
  let e := TheEngine h in
  let e' := TheEngine h' in
  match r with
  | None =>
      (¬ package_at_hand e MaterialName ∧
       h' = add_log Error "Failed to create package for material '%s'"
              [ArgText MaterialName] h) ∨
      (package_at_hand e MaterialName ∧ canCreateObject (Conduct e) = false ∧
       LogTemp h' = LogTemp h ++
         [line Error "Failed to create material '%s'" [ArgText MaterialName]])
  | Some Material =>
      package_at_hand e MaterialName ∧ canCreateObject (Conduct e) = true ∧
      (packages_filed e →
       is_Some (resolve e' TUPackage (Names e') (MaterialPackagePath MaterialName)) ∧
       resolve e' TUMaterial (Names e') (MaterialObjectPath MaterialName) = Some Material) ∧
      (canCreateExpression (Conduct e) = true → canConnectProperty (Conduct e) = false →
       line Error "Failed to connect material property" [] ∈ LogTemp h') ∧
      (canSavePackage (Conduct e) = false →
       line Error "Failed to save material '%s'" [ArgText MaterialName] ∈ LogTemp h')
  end.

(** ** Readings of an outcome *)

Definition answer {A} (o : Outcome A) : option A :=
  match o with
  | Returned a _ => Some a
  | Crashed => None
  end.

Definition calls_of {A} (o : Outcome A) : list HostCall :=
  match o with
  | Returned _ h => Trace h
  | Crashed => []
  end.

Definition log_of {A} (o : Outcome A) : list LogLine :=
  match o with
  | Returned _ h => LogTemp h
  | Crashed => []
  end.

Definition engine_of {A} (o : Outcome A) : option Engine :=
  match o with
  | Returned _ h => Some (TheEngine h)
  | Crashed => None
  end.

(** ** A small level, for running the module *)

Module Sample.

Definition natives : NativeClasses :=
  {| AActor_StaticClass := 0; AStaticMeshActor_StaticClass := 1;
     AGameModeBase_StaticClass := 2; APawn_StaticClass := 3 |}.

Definition class (name : string) (chain : list ObjectId)
    (cdo : option UClassDefaultObject) (mesh : bool) : UObject :=
  ObjClass {| ClassName := name; StructBaseChain := chain; ClassDefaultObject := cdo;
              bSpawnable := true; bDefaultRootComponent := true;
              bHasStaticMeshComponent := mesh |}.

Definition origin : FVector := {| vecX := 0; vecY := 0; vecZ := 0 |}.
Definition upright : FRotator := {| Pitch := 0; Yaw := 0; Roll := 0 |}.
Definition red : FLinearColor := {| colR := 1; colG := 0; colB := 0; colA := 1 |}.
Definition blue : FLinearColor := {| colR := 0; colG := 0; colB := 1; colA := 1 |}.

(** A crate placed in the level: a static mesh actor showing the cube. *)
Definition crate : AActor :=
  {| ActorClass := 1; ActorWorld := 4; ActorName := "StaticMeshActor_8";
     ActorLabel := "Crate"; ActorLocation := origin; ActorRotation := upright;
     ActorScale3D := OneVector; bHasRootComponent := true;
     StaticMeshComponent := Some {| StaticMesh := Some 5; OverrideMaterials := [] |} |}.

Definition level : UWorld :=
  {| WorldActors := [8];
     WorldNames := {["StaticMeshActor_8" := 8]};
     CurrentLevel :=
       Some {| WorldSettings := {| DefaultGameMode := None; bSettingsDirty := false |} |} |}.

Definition objects : gmap nat UObject :=
  list_to_map
    [(0, class "Actor" [0] None false);
     (1, class "StaticMeshActor" [1; 0] None true);
     (2, class "GameModeBase" [2; 0] (Some {| DefaultPawnClass := None |}) false);
     (3, class "Pawn" [3; 0] None false);
     (4, ObjWorld level);
     (5, ObjStaticMesh {| StaticMaterials := [None; None] |});
     (6, ObjBlueprint {| ParentClass := Some 3; GeneratedClass := Some 7;
                         bStructurallyModified := false |});
     (7, class "BP_Pawn_C" [7; 3; 0] None false);
     (8, ObjActor crate);
     (9, ObjBlueprint {| ParentClass := Some 2; GeneratedClass := None;
                         bStructurallyModified := false |})].

Definition names : gmap string nat :=
  list_to_map
    [("Actor", 0); ("StaticMeshActor", 1); ("GameModeBase", 2); ("Pawn", 3);
     ("/Engine/BasicShapes/Cube.Cube", 5); ("/Game/BP_Pawn", 6);
     ("/Game/Modes/Arena", 9)].

(** A host that grants every request. *)
Definition willing : HostConduct :=
  {| canCreatePackage := true; canCreateObject := true; canCreateExpression := true;
     canConnectProperty := true; canSavePackage := true; onCreateAsset := BlueprintReady |}.

(** A host on which connecting a material property and saving a package fail. *)
Definition failing : HostConduct :=
  {| canCreatePackage := true; canCreateObject := true; canCreateExpression := true;
     canConnectProperty := false; canSavePackage := false; onCreateAsset := BlueprintReady |}.

Definition engine (conduct : HostConduct) : Engine :=
  {| GEditor := Some {| EditorWorld := Some 4 |};
     Objects := objects; Names := names; NextObject := 10;
     Native := natives; Conduct := conduct |}.

Definition host : Host := fresh_history (engine willing).
Definition failing_host : Host := fresh_history (engine failing).

(** The same engine, after the module has been at work. *)
Definition later_host : Host :=
  {| TheEngine := engine willing;
     LogTemp := [line Warning "Actor '%s' not found in the level" [ArgText "Barrel"]];
     Trace := [CallSetActorLabel 8 "Crate"] |}.

End Sample.

(** The material [CreateMaterial] finds instead of creating one. *)
Definition existing_material (e : Engine) (MaterialName : string) : option ObjectId :=
  match resolve e TUPackage (Names e) (MaterialPackagePath MaterialName) with
  | Some _ => resolve e TUMaterial (Names e) (MaterialObjectPath MaterialName)
  | None => None
  end.

Definition already_exists (MaterialName : string) (h : Host) : Host :=
  add_log Warning "Material '%s' already exists, trying to load it" [ArgText MaterialName] h.

(** ** Calls a function of the module may issue *)

(** Only the two functions that spawn a static mesh actor destroy an actor. *)
Definition may_issue (op : Operation) (c : HostCall) : Prop :=
  match op with
  | OpSpawnBasicShape _ _ _ _ _ | OpSpawnStaticMeshActor _ _ _ _ _ => True
  | _ => not_destroy c
  end.

(** ** Lookups of named host objects *)

Definition BasicShapePath (ShapeName : string) : string :=
  "/Engine/BasicShapes/" +:+ ShapeName +:+ "." +:+ ShapeName.

(** The class [SpawnActorFromClass] resolves its argument to. *)
Definition actor_class (e : Engine) (ActorClassName : string) : option ObjectId :=
  match resolve e TUClass (Names e) ActorClassName with
  | Some Class =>
      if FString.StartsWith ActorClassName "/"
      then if descends_from e Class (AActor_StaticClass (Native e)) then Some Class else None
      else Some Class
  | None => None
  end.

(** A named object the call needs is not found (for the calls that go
    through [GEditor], on an editor with a sound world pointer). *)
Definition lookup_fails (op : Operation) (e : Engine) : Prop :=
  match op with
  | OpSpawnBasicShape ShapeName _ _ _ _ =>
      editor_ok e ∧ heap_fresh e ∧
      resolve e TUStaticMesh (Names e) (BasicShapePath ShapeName) = None
  | OpSpawnStaticMeshActor MeshPath _ _ _ _ =>
      resolve e TUStaticMesh (Names e) MeshPath = None
  | OpSpawnActorFromClass ActorClassName _ _ _ _ =>
      actor_class e ActorClassName = None
  | OpFindActorByName ActorName
  | OpSetActorMaterial ActorName _
  | OpSetActorPosition ActorName _
  | OpSetActorRotation ActorName _
  | OpSetActorScale ActorName _ =>
      editor_ok e ∧ find_actor e ActorName = None
  | OpSetActorMaterialByPath ActorName MaterialPath =>
      resolve e TUMaterialInterface (Names e) MaterialPath = None ∨
      (editor_ok e ∧ find_actor e ActorName = None)
  | OpCreateMaterial _ _ => False
  | OpCreateGameModeWithPawn _ PawnBlueprintPath BaseClassName =>
      resolve e TUClass (Names e) (BaseClassToUse BaseClassName) = None ∨
      resolve e TUBlueprint (Names e) PawnBlueprintPath = None
  end.

(** The call reported a failure: a sentinel, and a line added to the log. *)
Definition reports_failure (h : Host) (o : Outcome Answer) : Prop :=
  ∃ a h' lines,
    o = Returned a h' ∧ is_sentinel a ∧ lines ≠ [] ∧ LogTemp h' = LogTemp h ++ lines.

(** The world [World] accepts to spawn a static mesh actor. *)
Definition static_mesh_actor_class (e : Engine) (k : UClass) : Prop :=
  Objects e !! AStaticMeshActor_StaticClass (Native e) = Some (ObjClass k) ∧
  bSpawnable k = true ∧
  AActor_StaticClass (Native e) ∈ StructBaseChain k.

(** The actor spawned at [Actor] was destroyed again: the trace shows both
    calls, and the actor is neither an object nor in a world any more. *)
Definition rolled_back (World Actor : ObjectId) (h h' : Host) : Prop :=
  Trace h' = Trace h ++
    [CallSpawnActor World (AStaticMeshActor_StaticClass (Native (TheEngine h))) Actor;
     CallDestroy Actor] ∧
  Objects (TheEngine h') !! Actor = None ∧
  ∃ w', Objects (TheEngine h') !! World = Some (ObjWorld w') ∧ Actor ∉ WorldActors w'.
(** ** Spawning, by its result *)

(** The class at [Class] is an actor class the world accepts to spawn. *)
Definition spawnable_class (e : Engine) (Class : ObjectId) (k : UClass) : Prop :=
  Objects e !! Class = Some (ObjClass k) ∧ bSpawnable k = true ∧
  AActor_StaticClass (Native e) ∈ StructBaseChain k.

(** The calls that place a spawned actor: its scale, and its label when one
    is given. *)
Definition placing_calls (Actor : ObjectId) (Scale : FVector) (ActorLabel : string)
  : list HostCall :=
  CallSetActorScale3D Actor Scale ::
  (if FString.IsEmpty ActorLabel then [] else [CallSetActorLabel Actor ActorLabel]).

(** [h'] is [h] after the world at [World], which was [w], has spawned an
    actor of the class [k] at the free address [Actor], and the actor was
    given the scale, the label and the component. *)
Definition spawned (World Class Actor : ObjectId) (k : UClass) (w : UWorld)
    (Location : FVector) (Rotation : FRotator) (Scale : FVector) (Label : string)
    (Component : option UStaticMeshComponent) (h h' : Host) : Prop :=
  let e := TheEngine h in
  let e' := TheEngine h' in
  ∃ a w',
    Objects e' !! Actor = Some (ObjActor a) ∧
    ActorClass a = Class ∧ ActorWorld a = World ∧
    ActorLocation a = Location ∧ ActorRotation a = Rotation ∧
    ActorScale3D a = (if bDefaultRootComponent k then Scale else OneVector) ∧
    ActorLabel a = (if FString.IsEmpty Label then ActorName a else Label) ∧
    StaticMeshComponent a = Component ∧
    Objects e' !! World = Some (ObjWorld w') ∧
    WorldActors w' = WorldActors w ++ [Actor] ∧
    CurrentLevel w' = CurrentLevel w ∧
    GEditor e' = GEditor e ∧ Names e' = Names e ∧
    ∀ p, p ≠ Actor → p ≠ World → Objects e' !! p = Objects e !! p.

(** What a spawning call needs of the engine to succeed, its label, and
    whether the call is one of the three that spawn. *)
Definition can_spawn (op : Operation) (e : Engine) : Prop :=
  match op with
  | OpSpawnBasicShape ShapeName _ _ _ _ =>
      ∃ k Mesh,
        spawnable_class e (AStaticMeshActor_StaticClass (Native e)) k ∧
        bHasStaticMeshComponent k = true ∧
        resolve e TUStaticMesh (Names e) (BasicShapePath ShapeName) = Some Mesh
  | OpSpawnStaticMeshActor MeshPath _ _ _ _ =>
      ∃ k Mesh,
        spawnable_class e (AStaticMeshActor_StaticClass (Native e)) k ∧
        bHasStaticMeshComponent k = true ∧
        resolve e TUStaticMesh (Names e) MeshPath = Some Mesh
  | OpSpawnActorFromClass ActorClassName _ _ _ _ =>
      ∃ k Class,
        resolve e TUClass (Names e) ActorClassName = Some Class ∧
        spawnable_class e Class k
  | _ => False
  end.

Definition label_of (op : Operation) : string :=
  match op with
  | OpSpawnBasicShape _ _ _ _ ActorLabel
  | OpSpawnStaticMeshActor _ _ _ _ ActorLabel
  | OpSpawnActorFromClass _ _ _ _ ActorLabel => ActorLabel
  | _ => ""
  end.

(** ** The transform setters as data *)

(** The part of the transform a call sets, when the call is a setter. *)
Definition part_of (op : Operation) : option TransformPart :=
  match op with
  | OpSetActorPosition _ _ => Some PartLocation
  | OpSetActorRotation _ _ => Some PartRotation
  | OpSetActorScale _ _ => Some PartScale
  | _ => None
  end.

(** The actor name a setter looks up. *)
Definition name_of (op : Operation) : string :=
  match op with
  | OpSetActorPosition ActorName _
  | OpSetActorRotation ActorName _
  | OpSetActorScale ActorName _ => ActorName
  | _ => ""
  end.

(** The actor as the engine's setter leaves it. *)
Definition set_part (op : Operation) (a : AActor) : AActor :=
  match op with
  | OpSetActorPosition _ Position => with_ActorLocation Position a
  | OpSetActorRotation _ Rotation => with_ActorRotation Rotation a
  | OpSetActorScale _ Scale => with_ActorScale3D Scale a
  | _ => a
  end.

(** The one call into the engine a setter issues, and the line it logs. *)
Definition setter_call (op : Operation) (Actor : ObjectId) : list HostCall :=
  match op with
  | OpSetActorPosition _ Position => [CallSetActorLocation Actor Position]
  | OpSetActorRotation _ Rotation => [CallSetActorRotation Actor Rotation]
  | OpSetActorScale _ Scale => [CallSetActorScale3D Actor Scale]
  | _ => []
  end.

Definition setter_line (op : Operation) : list LogLine :=
  match op with
  | OpSetActorPosition ActorName Position =>
      [line Log "Set position of actor '%s' to (%f, %f, %f)"
         [ArgText ActorName; ArgFloat (vecX Position); ArgFloat (vecY Position);
          ArgFloat (vecZ Position)]]
  | OpSetActorRotation ActorName Rotation =>
      [line Log "Set rotation of actor '%s' to (%f, %f, %f)"
         [ArgText ActorName; ArgFloat (Pitch Rotation); ArgFloat (Yaw Rotation);
          ArgFloat (Roll Rotation)]]
  | OpSetActorScale ActorName Scale =>
      [line Log "Set scale of actor '%s' to (%f, %f, %f)"
         [ArgText ActorName; ArgFloat (vecX Scale); ArgFloat (vecY Scale);
          ArgFloat (vecZ Scale)]]
  | _ => []
  end.

(** The engine after the setter [op] has run on the actor [a] at [Actor]. *)
Definition after_setter (op : Operation) (Actor : ObjectId) (a : AActor) (e : Engine) : Engine :=
  if bHasRootComponent a
  then with_Objects (insert Actor (ObjActor (set_part op a))) e
  else e.

(** What [FindActorByName] comes to on an engine: an actor, a null pointer
    after one line of log, or no return at all. *)
Inductive Found :=
| AnActor (Actor : ObjectId)
| NoActor (l : LogLine)
| NoReturn.

Definition find_result (e : Engine) (ActorName : string) : Found :=
  match GEditor e with
  | None => NoReturn
  | Some ue =>
      match EditorWorld ue with
      | None => NoActor (line Error "Failed to get editor world" [])
      | Some World =>
          match Objects e !! World with
          | Some (ObjWorld w) =>
              match find_by_label e ActorName (WorldActors w) with
              | Some Actor => AnActor Actor
              | None =>
                  match resolve e TAActor (WorldNames w) ActorName with
                  | Some FoundByPath => AnActor FoundByPath
                  | None =>
                      NoActor (line Warning "Actor '%s' not found in the level"
                                  [ArgText ActorName])
                  end
              end
          | _ => NoReturn
          end
      end
  end.

Definition logged (l : LogLine) (h : Host) : Host :=
  {| TheEngine := TheEngine h; LogTemp := LogTemp h ++ [l]; Trace := Trace h |}.

(** ** Material overrides *)

(** The override list after the material was set on the first [count] slots. *)
Definition overridden (count : nat) (Material : ObjectId) (overrides : list (option ObjectId))
  : list (option ObjectId) :=
  replicate count (Some Material) ++ drop count overrides.

(** The actor [a], its component [c] showing [Material] on every slot of its
    mesh. *)
Definition with_material (e : Engine) (Material : ObjectId) (a : AActor)
    (c : UStaticMeshComponent) : AActor :=
  with_StaticMeshComponent
    (Some {| StaticMesh := StaticMesh c;
             OverrideMaterials :=
               overridden (length (mesh_slots e c)) Material (OverrideMaterials c) |}) a.

(** ** The steps of [CreateMaterial] *)

(** The calls [CreateMaterial] issues when it creates the material at
    [Material] in the package at [Package], which it creates as well unless it
    is [existing]; the colour expression goes to [Expression]. *)
Definition CreateMaterial_calls (e : Engine) (MaterialName : string) (existing : bool)
    (Package Material Expression : ObjectId) : list HostCall :=
  (if existing then [] else [CallCreatePackage (MaterialPackagePath MaterialName) Package]) ++
  [CallNewMaterial Package MaterialName Material;
   CallWrite Material "bUseEmissiveForDynamicAreaLighting";
   CallWrite Material "BlendMode"] ++
  (if canCreateExpression (Conduct e)
   then [CallCreateMaterialExpression Material Expression;
         CallWrite Expression "Constant";
         CallConnectMaterialProperty Expression MP_BaseColor (canConnectProperty (Conduct e))]
   else []) ++
  [CallPreEditChange Material; CallPostEditChange Material; CallRecompileMaterial Material;
   CallMarkPackageDirty Package;
   CallSavePackage Package (MaterialPackagePath MaterialName +:+ ".uasset")
     (canSavePackage (Conduct e))] ++
  (if canSavePackage (Conduct e) then [CallAssetCreated Material] else []).

(** The material as [CreateMaterial] leaves it. *)
Definition created_material (e : Engine) (Package Expression : ObjectId) : UMaterial :=
  {| MaterialPackage := Package;
     MaterialFlags := Z.lor (Z.lor RF_Public RF_Standalone) RF_Transactional;
     bUseEmissiveForDynamicAreaLighting := false;
     BlendMode := BLEND_Opaque;
     Expressions := if canCreateExpression (Conduct e) then [Expression] else [];
     BaseColor :=
       if canCreateExpression (Conduct e) && canConnectProperty (Conduct e)
       then Some Expression else None;
     Recompiled := 1 |}.

(** The colour expression as [CreateMaterial] leaves it. *)
Definition colour_expression (Material : ObjectId) (Color : FLinearColor)
  : UMaterialExpressionConstant3Vector :=
  {| ExpressionMaterial := Material; NodePosX := -350; NodePosY := 0;
     Constant := Some Color |}.

(** ** [CreateGameModeWithPawn], past its guards *)

(** The path under which the asset tools file the new blueprint. *)
Definition AssetPath (GameModePath : string) : string :=
  FPackageName.GetLongPackagePath GameModePath +:+ "/" +:+
  FPackageName.GetShortName GameModePath.

(** The guards of [CreateGameModeWithPawn] pass, with these classes. *)
Definition guards_pass (e : Engine) (GameModePath PawnBlueprintPath BaseClassName : string)
    (BaseClass PawnClass : ObjectId) : Prop :=
  FString.IsEmpty GameModePath || FString.IsEmpty PawnBlueprintPath = false ∧
  resolve e TUBlueprint (Names e) GameModePath = None ∧
  game_mode_base e BaseClassName = Some BaseClass ∧
  pawn_class e PawnBlueprintPath = Some PawnClass.

(** What [CreateGameModeWithPawn] logs about the current level. *)
Definition level_log (e : Engine) (GameModePath : string) : list LogLine :=
  match GEditor e with
  | Some ue =>
      match EditorWorld ue with
      | Some World =>
          match Objects e !! World with
          | Some (ObjWorld w) =>
              match CurrentLevel w with
              | Some _ =>
                  [line Log "Set %s as default game mode for current scene"
                     [ArgText GameModePath]]
              | None => [line Warning "No current level found to set game mode" []]
              end
          | _ => []
          end
      | None => [line Warning "No current world found to set game mode" []]
      end
  | None => []
  end.

(** The error texts [CreateGameModeWithPawn] can return. *)
Definition error_messages : list string :=
  ["Empty path provided"; "Game mode already exists"; "Invalid base class";
   "Invalid pawn blueprint"; "Failed to create game mode"; "No generated class"].

(** Every value [m] returns satisfies [P]. *)
Definition returns_in {A} (m : M A) (P : A → Prop) : Prop :=
  ∀ h a h', m h = Returned a h' → P a.

(** ** More scenes, for running the module *)

Module Scenes.

Definition static_mesh_actor : UClass :=
  {| ClassName := "StaticMeshActor"; StructBaseChain := [1; 0]; ClassDefaultObject := None;
     bSpawnable := true; bDefaultRootComponent := true; bHasStaticMeshComponent := true |}.

Definition game_mode_base : UClass :=
  {| ClassName := "GameModeBase"; StructBaseChain := [2; 0];
     ClassDefaultObject := Some {| DefaultPawnClass := None |};
     bSpawnable := true; bDefaultRootComponent := true; bHasStaticMeshComponent := false |}.

Definition with_GEditor (ed : option UEditorEngine) (e : Engine) : Engine :=
  {| GEditor := ed; Objects := Objects e; Names := Names e;
     NextObject := NextObject e; Native := Native e; Conduct := Conduct e |}.

(** The sample level without an editor (as in a commandlet), and with an
    editor that has no world. *)
Definition no_editor : Host :=
  fresh_history (with_GEditor None (Sample.engine Sample.willing)).

Definition no_world : Host :=
  fresh_history (with_GEditor (Some {| EditorWorld := None |}) (Sample.engine Sample.willing)).

(** A class that is no actor class, filed under its name. *)
Definition material_class : UClass :=
  {| ClassName := "Material"; StructBaseChain := [10]; ClassDefaultObject := None;
     bSpawnable := false; bDefaultRootComponent := false; bHasStaticMeshComponent := false |}.

Definition with_material_class : Host :=
  fresh_history
    {| GEditor := Some {| EditorWorld := Some 4 |};
       Objects := <[10 := ObjClass material_class]> Sample.objects;
       Names := <["Material" := 10]> Sample.names;
       NextObject := 11; Native := Sample.natives; Conduct := Sample.willing |}.

(** The crate without a root component. *)
Definition rootless_crate : AActor :=
  {| ActorClass := 1; ActorWorld := 4; ActorName := "StaticMeshActor_8";
     ActorLabel := "Crate"; ActorLocation := Sample.origin; ActorRotation := Sample.upright;
     ActorScale3D := OneVector; bHasRootComponent := false;
     StaticMeshComponent := Some {| StaticMesh := Some 5; OverrideMaterials := [] |} |}.

Definition rootless : Host :=
  fresh_history
    {| GEditor := Some {| EditorWorld := Some 4 |};
       Objects := <[8 := ObjActor rootless_crate]> Sample.objects;
       Names := Sample.names; NextObject := 10;
       Native := Sample.natives; Conduct := Sample.willing |}.

(** Hosts whose asset tools refuse the asset, and hand out a blueprint
    without a generated class, or with a class that has no default object. *)
Definition asset_tools (answer : CreateAssetAnswer) : Host :=
  fresh_history
    (Sample.engine
       {| canCreatePackage := true; canCreateObject := true; canCreateExpression := true;
          canConnectProperty := true; canSavePackage := true; onCreateAsset := answer |}).

(** A level with four static mesh actors, in the order the actor iterator
    visits them: two crates whose labels differ in case only, and two boxes
    that share their label. *)
Definition placed (name label : string) : AActor :=
  {| ActorClass := 1; ActorWorld := 4; ActorName := name; ActorLabel := label;
     ActorLocation := Sample.origin; ActorRotation := Sample.upright;
     ActorScale3D := OneVector; bHasRootComponent := true;
     StaticMeshComponent := Some {| StaticMesh := Some 5; OverrideMaterials := [] |} |}.

Definition crowded_level : UWorld :=
  {| WorldActors := [8; 10; 11; 12];
     WorldNames :=
       list_to_map
         [("StaticMeshActor_8", 8); ("StaticMeshActor_10", 10);
          ("StaticMeshActor_11", 11); ("StaticMeshActor_12", 12)];
     CurrentLevel := CurrentLevel Sample.level |}.

Definition crowded : Host :=
  fresh_history
    {| GEditor := Some {| EditorWorld := Some 4 |};
       Objects :=
         <[12 := ObjActor (placed "StaticMeshActor_12" "Box")]>
           (<[11 := ObjActor (placed "StaticMeshActor_11" "Box")]>
              (<[10 := ObjActor (placed "StaticMeshActor_10" "crate")]>
                 (<[4 := ObjWorld crowded_level]> Sample.objects)));
       Names := Sample.names; NextObject := 13;
       Native := Sample.natives; Conduct := Sample.willing |}.

End Scenes.

(** ** The calls of each function, and failures that are heard *)

(** The calls into the engine a function of the module may issue. *)
Definition allowed (op : Operation) (c : HostCall) : bool :=
  match op, c with
  | (OpSpawnBasicShape _ _ _ _ _ | OpSpawnStaticMeshActor _ _ _ _ _),
    (CallSpawnActor _ _ _ | CallDestroy _ | CallSetStaticMesh _ _
     | CallSetActorScale3D _ _ | CallSetActorLabel _ _) => true
  | OpSpawnActorFromClass _ _ _ _ _,
    (CallSpawnActor _ _ _ | CallSetActorScale3D _ _ | CallSetActorLabel _ _) => true
  | OpCreateMaterial _ _,
    (CallCreatePackage _ _ | CallNewMaterial _ _ _ | CallWrite _ _
     | CallCreateMaterialExpression _ _ | CallConnectMaterialProperty _ _ _
     | CallPreEditChange _ | CallPostEditChange _ | CallRecompileMaterial _
     | CallMarkPackageDirty _ | CallSavePackage _ _ _ | CallAssetCreated _) => true
  | (OpSetActorMaterial _ _ | OpSetActorMaterialByPath _ _), CallSetMaterial _ _ _ => true
  | OpSetActorPosition _ _, CallSetActorLocation _ _ => true
  | OpSetActorRotation _ _, CallSetActorRotation _ _ => true
  | OpSetActorScale _ _, CallSetActorScale3D _ _ => true
  | OpCreateGameModeWithPawn _ _ _,
    (CallCreateAsset _ _ _ | CallWrite _ _ | CallMarkWorldSettingsDirty _
     | CallModify _ | CallMarkBlueprintAsStructurallyModified _) => true
  | _, _ => false
  end.

(** The log of [h'] is that of [h] with lines added. *)
Definition log_grown (h h' : Host) : Prop :=
  ∃ lines, LogTemp h' = LogTemp h ++ lines.

(** Among the lines added is an error or a warning. *)
Definition heard (h h' : Host) : Prop :=
  ∃ before l after,
    LogTemp h' = LogTemp h ++ before ++ l :: after ∧ Verbosity l ≠ Log.

(** Whenever [m] returns a value that is [bad], an error or a warning was
    logged on the way. *)
Definition loud {A} (bad : A → Prop) (m : M A) : Prop :=
  ∀ h a h', m h = Returned a h' → log_grown h h' ∧ (bad a → heard h h').

(** * Properties *)

(** ** Outcomes and histories *)

Lemma replay_replay {A} l1 t1 l2 t2 (o : Outcome A) :
  replay l1 t1 (replay l2 t2 o) = replay (l1 ++ l2) (t1 ++ t2) o.
Proof. destruct o as [a h|]; simpl; [|done]. by rewrite !app_assoc. Qed.

Lemma history_independent_alt {A} (m : M A) :
  history_independent m ↔
  ∀ e l t, m {| TheEngine := e; LogTemp := l; Trace := t |} = replay l t (m (fresh_history e)).
Proof.
  split.
  - intros H e l t. apply (H {| TheEngine := e; LogTemp := l; Trace := t |}).
  - intros H [e l t]. apply H.
Qed.

(** A program put together from the primitives does not depend on the log
    and the trace it starts with. *)
Lemma Built_history_independent P : ∀ A (m : M A), Built P m → history_independent m.
Proof.
  induction 1 as [A a|A B m k _ IHm _ IHk|A|A f|f|c _|v fmt args];
    apply history_independent_alt; intros e l t;
    try (cbv [ret gets modify record UE_LOG crash replay fresh_history]; simpl;
         by rewrite ?app_nil_r).
  unfold bind. rewrite (proj1 (history_independent_alt m) IHm e l t).
  destruct (m (fresh_history e)) as [a [e' l' t']|]; simpl; [|done].
  rewrite (proj1 (history_independent_alt (k a)) (IHk a) e' (l ++ l') (t ++ t')).
  rewrite (proj1 (history_independent_alt (k a)) (IHk a) e' l' t').
  by rewrite replay_replay.
Qed.

(** Its calls are appended to the trace, and all satisfy [P]. *)
Lemma Built_emits P : ∀ A (m : M A),
  Built P m → ∀ h a h', m h = Returned a h' → ∃ t, Trace h' = Trace h ++ t ∧ Forall P t.
Proof.
  induction 1 as [A a|A B m k _ IHm _ IHk|A|A f|f|c Hc|v fmt args]; intros h r h' Hrun.
  - injection Hrun as <- <-. exists []. split; [by rewrite app_nil_r|constructor].
  - unfold bind in Hrun. destruct (m h) as [a h1|] eqn:Hm; [|done].
    destruct (IHm _ _ _ Hm) as (t1 & E1 & F1).
    destruct (IHk _ _ _ _ Hrun) as (t2 & E2 & F2).
    exists (t1 ++ t2). split; [by rewrite E2, E1, app_assoc|by apply Forall_app_2].
  - done.
  - injection Hrun as <- <-. exists []. split; [by rewrite app_nil_r|constructor].
  - injection Hrun as <- <-. exists []. split; [by rewrite app_nil_r|constructor].
  - injection Hrun as <- <-. exists [c]. split; [done|by repeat constructor].
  - injection Hrun as <- <-. exists []. split; [by rewrite app_nil_r|constructor].
Qed.

Ltac built_prim side :=
  first
    [ apply Built_ret | apply Built_crash | apply Built_UE_LOG
    | apply Built_record; side
    | apply Built_modify | apply Built_gets
    | apply Built_bind; [|intros ?]
    | match goal with
      | |- Built _ (match ?x with _ => _ end) => destruct x
      | |- Built _ (if ?b then _ else _) => destruct b
      | |- Built _ (let (_, _) := ?x in _) => destruct x
      end ].

Lemma Built_for_range P s n body :
  (∀ i, Built P (body i)) → Built P (for_range s n body).
Proof. intros Hb. revert s. induction n; intros s; simpl; repeat built_prim idtac; auto. Qed.

Lemma Built_FindActorByName_loop P n l : Built P (UGenActorUtils.FindActorByName_loop n l).
Proof. induction l; simpl; repeat built_prim idtac; auto. Qed.

(** Decomposes a function of the module into the primitives; [side] proves
    that a recorded call is permitted. *)
Ltac built side :=
  repeat first
    [ apply Built_FindActorByName_loop
    | apply Built_for_range; intros ?
    | built_prim side
    | progress unfold invoke, UGenActorUtils.SpawnBasicShape,
        UGenActorUtils.SpawnStaticMeshActor, UGenActorUtils.SpawnActorFromClass,
        UGenActorUtils.FindActorByName, UGenActorUtils.CreateMaterial,
        UGenActorUtils.CreateMaterial_create, UGenActorUtils.CreateGameModeWithPawn_create,
        UGenActorUtils.SetActorMaterial, UGenActorUtils.SetActorMaterialByPath,
        UGenActorUtils.SetActorPosition, UGenActorUtils.SetActorRotation,
        UGenActorUtils.SetActorScale, UGenActorUtils.CreateGameModeWithPawn ].

(** ** Running host calls on a symbolic engine *)

Lemma cast_in_Some e T p id :
  cast_in e T p = Some id → p = Some id ∧ ∃ o, Objects e !! id = Some o ∧ IsA o T = true.
Proof.
  unfold cast_in. destruct p as [x|]; [|done].
  destruct (Objects e !! x) as [o|] eqn:Ho; [|done].
  destruct (IsA o T) eqn:HT; [|done]. intros [= <-]. eauto.
Qed.

Lemma fresh_lt e p o : heap_fresh e → Objects e !! p = Some o → p < NextObject e.
Proof.
  intros Hf Ho. destruct (decide (p < NextObject e)) as [|Hn]; [done|].
  rewrite Hf in Ho by lia. done.
Qed.

Lemma length_append (a b : string) :
  String.length (a +:+ b) = String.length a + String.length b.
Proof. induction a as [|c a IH]; simpl; [done|by rewrite IH]. Qed.

Lemma append_dot_ne (a b : string) : a +:+ "." +:+ b ≠ a.
Proof.
  intros H. apply (f_equal String.length) in H.
  rewrite !length_append in H. simpl in H. lia.
Qed.

(** Evaluates the goal, rewriting lookups in updated stores and the facts at
    hand about the engine. *)
Ltac exec :=
  repeat (cbn;
          first [ rewrite lookup_insert_eq
                | rewrite lookup_insert_ne by first [lia | apply append_dot_ne | done]
                | match goal with
                  | H : ?x = _ |- context [?x] => first [is_var x; fail 1 | rewrite H]
                  end
                | progress unfold cast_in ]).

Ltac unfold_host :=
  unfold IAssetTools_CreateAsset, UBlueprint_GeneratedClass,
    Cast_AGameModeBase_ClassDefaultObject, AGameModeBase_Write_DefaultPawnClass,
    GEditor_GetEditorWorldContext_World,
    UWorld_GetCurrentLevel, ULevel_GetWorldSettings,
    AWorldSettings_Write_DefaultGameMode, AWorldSettings_MarkPackageDirty,
    UBlueprint_Modify, FBlueprintEditorUtils_MarkBlueprintAsStructurallyModified,
    CreatePackage, FindPackage, NewObject_UMaterial,
    UMaterial_Write_bUseEmissiveForDynamicAreaLighting, UMaterial_Write_BlendMode,
    UMaterialEditingLibrary_CreateMaterialExpression,
    UMaterialExpressionConstant3Vector_Write_Constant,
    UMaterialEditingLibrary_ConnectMaterialProperty,
    UMaterial_PreEditChange, UMaterial_PostEditChange,
    UMaterialEditingLibrary_RecompileMaterial, UPackage_MarkPackageDirty,
    UPackage_SavePackage, FAssetRegistryModule_AssetCreated,
    UWorld_SpawnActor, AActor_Destroy, AActor_GetStaticMeshComponent,
    UStaticMeshComponent_SetStaticMesh, AActor_SetActorScale3D, AActor_SetActorLabel,
    AActor_GetActorLabel,
    LoadObject, FindObject_AnyPackage, FindObject_In, TryLoadClass_AActor, IsChildOf,
    NewAddress, Cast, the_level, the_world, the_blueprint, the_class, the_actor,
    the_component, the_material, the_package, the_expression, store, allocate, resolve,
    bind, gets, modify, record, ret, UE_LOG.


(** ** Finding an actor *)

Section FindActor.
Import UGenActorUtils.

Lemma FindActorByName_loop_eq ActorName It h :
  FindActorByName_loop ActorName It h
  = Returned (find_by_label (TheEngine h) ActorName It) h.
Proof.
  induction It as [|Actor It IH]; [done|].
  cbn [FindActorByName_loop find_by_label].
  unfold bind, Cast, gets, cast_in, AActor_GetActorLabel, bind, the_actor, gets, ret. cbn.
  destruct (Objects (TheEngine h) !! Actor) as [[a| | | | | | | |]|] eqn:Hx;
    cbn; rewrite ?Hx; cbn; try apply IH.
  destruct (FString.Equals (ActorLabel a) ActorName); [done|apply IH].
Qed.

Lemma find_by_label_Some e ActorName It Actor :
  find_by_label e ActorName It = Some Actor →
  Actor ∈ It ∧ labelled e ActorName Actor.
Proof.
  induction It as [|x It IH]; [done|]. cbn.
  destruct (Objects e !! x) as [[a| | | | | | | |]|] eqn:Hx;
    try (intros H; destruct (IH H); split; [by right|done]).
  destruct (FString.Equals (ActorLabel a) ActorName) eqn:Hl.
  - intros [= <-]. split; [by left|]. by exists a.
  - intros H; destruct (IH H); split; [by right|done].
Qed.

Lemma find_by_label_None e ActorName It :
  find_by_label e ActorName It = None ↔
  ∀ Actor, Actor ∈ It → ¬ labelled e ActorName Actor.
Proof.
  induction It as [|x It IH]; cbn.
  - split; [|done]. intros _ a Ha. by apply elem_of_nil in Ha.
  - split.
    + intros H a Ha (b & Hb & Hl).
      apply elem_of_cons in Ha as [->|Ha].
      * rewrite Hb, Hl in H. done.
      * assert (find_by_label e ActorName It = None) as Hn.
        { destruct (Objects e !! x) as [[c| | | | | | | |]|]; try done.
          by destruct (FString.Equals (ActorLabel c) ActorName). }
        apply (proj1 IH Hn a Ha). by exists b.
    + intros H.
      assert (find_by_label e ActorName It = None) as Hn.
      { apply IH. intros a Ha. apply H. by right. }
      destruct (Objects e !! x) as [[c| | | | | | | |]|] eqn:Hx; try done.
      destruct (FString.Equals (ActorLabel c) ActorName) eqn:Hl; [|done].
      exfalso. apply (H x); [by left|by exists c].
Qed.

(** [FindActorByName], case by case. *)
Lemma FindActorByName_eq ActorName h :
  FindActorByName ActorName h =
  match GEditor (TheEngine h) with
  | None => Crashed
  | Some ue =>
      match EditorWorld ue with
      | None => Returned None (add_log Error "Failed to get editor world" [] h)
      | Some World =>
          match Objects (TheEngine h) !! World with
          | Some (ObjWorld w) =>
              match find_by_label (TheEngine h) ActorName (WorldActors w) with
              | Some Actor => Returned (Some Actor) h
              | None =>
                  match resolve (TheEngine h) TAActor (WorldNames w) ActorName with
                  | Some FoundActor => Returned (Some FoundActor) h
                  | None =>
                      Returned None
                        (add_log Warning "Actor '%s' not found in the level"
                           [ArgText ActorName] h)
                  end
              end
          | _ => Crashed
          end
      end
  end.
Proof.
  unfold FindActorByName, GEditor_GetEditorWorldContext_World, bind at 1 2, gets.
  destruct (GEditor (TheEngine h)) as [[[World|]]|]; cbn; [|done|done].
  unfold bind at 1, TActorIterator_AActor, bind at 1, the_world, bind at 1, gets.
  destruct (Objects (TheEngine h) !! World) as [[| | | | | | | |w]|] eqn:HW; cbn; try done.
  unfold bind at 1. rewrite FindActorByName_loop_eq.
  destruct (find_by_label (TheEngine h) ActorName (WorldActors w)); [done|].
  unfold bind at 1, FindObject_In, bind at 1, the_world, bind at 1, gets. rewrite HW. cbn.
  by destruct (resolve (TheEngine h) TAActor (WorldNames w) ActorName).
Qed.

Lemma FindActorByName_find_actor ActorName h r h' :
  FindActorByName ActorName h = Returned r h' →
  r = find_actor (TheEngine h) ActorName ∧ TheEngine h' = TheEngine h ∧ Trace h' = Trace h.
Proof.
  rewrite FindActorByName_eq. unfold find_actor, editor_world.
  destruct (GEditor (TheEngine h)) as [[[World|]]|]; cbn; [| by intros [= <- <-] |done].
  destruct (Objects (TheEngine h) !! World) as [[| | | | | | | |w]|]; try done.
  destruct (find_by_label (TheEngine h) ActorName (WorldActors w)); [by intros [= <- <-]|].
  destruct (resolve (TheEngine h) TAActor (WorldNames w) ActorName); by intros [= <- <-].
Qed.

Lemma FindActorByName_Some ActorName h Actor h' :
  FindActorByName ActorName h = Returned (Some Actor) h' →
  h' = h ∧ ∃ a, Objects (TheEngine h) !! Actor = Some (ObjActor a).
Proof.
  rewrite FindActorByName_eq.
  destruct (GEditor (TheEngine h)) as [[[World|]]|]; cbn; [|done|done].
  destruct (Objects (TheEngine h) !! World) as [[| | | | | | | |w]|]; try done.
  destruct (find_by_label (TheEngine h) ActorName (WorldActors w)) as [x|] eqn:Hl.
  - intros [= <- <-]. split; [done|].
    apply find_by_label_Some in Hl as (_ & a & Ha & _). by exists a.
  - unfold resolve, cast_in.
    destruct (WorldNames w !! ActorName) as [x|]; [|done].
    destruct (Objects (TheEngine h) !! x) as [[a| | | | | | | |]|] eqn:Hx; try done.
    cbn. intros [= <- <-]. split; [done|by exists a].
Qed.

Lemma FindActorByName_None ActorName h h' :
  FindActorByName ActorName h = Returned None h' →
  TheEngine h' = TheEngine h ∧ Trace h' = Trace h ∧
  ∃ line, LogTemp h' = LogTemp h ++ [line].
Proof.
  rewrite FindActorByName_eq.
  destruct (GEditor (TheEngine h)) as [[[World|]]|]; cbn; [| |done].
  - destruct (Objects (TheEngine h) !! World) as [[| | | | | | | |w]|]; try done.
    destruct (find_by_label (TheEngine h) ActorName (WorldActors w)); [done|].
    destruct (resolve (TheEngine h) TAActor (WorldNames w) ActorName); [done|].
    intros [= <-]. cbn. eauto.
  - intros [= <-]. cbn. eauto.
Qed.

End FindActor.

(** ** Transform setters and material by path *)

Section Setters.
Import UGenActorUtils.

Lemma same_but_objects_with_Objects f e : same_but_objects e (with_Objects f e).
Proof. by repeat split. Qed.

Lemma actor_replaced_store Actor a' e l t l' t' :
  actor_replaced Actor a'
    {| TheEngine := e; LogTemp := l; Trace := t |}
    {| TheEngine := with_Objects (insert Actor (ObjActor a')) e; LogTemp := l'; Trace := t' |}.
Proof.
  split; [|split]; cbn.
  - apply lookup_insert_eq.
  - intros p Hp. by apply lookup_insert_ne.
  - apply same_but_objects_with_Objects.
Qed.

Lemma SetActorMaterialByPath_eq ActorName MaterialPath h :
  SetActorMaterialByPath ActorName MaterialPath h =
  match resolve (TheEngine h) TUMaterialInterface (Names (TheEngine h)) MaterialPath with
  | Some Material => SetActorMaterial ActorName (Some Material) h
  | None =>
      Returned false
        (add_log Error "Failed to load material at path '%s'" [ArgText MaterialPath] h)
  end.
Proof.
  unfold SetActorMaterialByPath, LoadObject, bind at 1, gets.
  by destruct (resolve (TheEngine h) TUMaterialInterface (Names (TheEngine h)) MaterialPath).
Qed.

(** C5.  When [FindActorByName] finds no actor, [SetActorPosition],
    [SetActorRotation] and [SetActorScale] return false and leave the host as
    the lookup left it: engine and trace unchanged.  When it finds an actor,
    each returns true and replaces that actor by one that differs at most in
    the location, the rotation, respectively the scale, which is the value
    given when the actor has a root component (the engine's setters do
    nothing on an actor without one); every other object and every other
    field of the engine is unchanged. *)
Theorem setters_change_their_part_only ActorName h :
  (∀ hf, FindActorByName ActorName h = Returned None hf →
     TheEngine hf = TheEngine h ∧ Trace hf = Trace h ∧
     (∀ Position, SetActorPosition ActorName Position h = Returned false hf) ∧
     (∀ Rotation, SetActorRotation ActorName Rotation h = Returned false hf) ∧
     (∀ Scale, SetActorScale ActorName Scale h = Returned false hf)) ∧
  (∀ Actor hf, FindActorByName ActorName h = Returned (Some Actor) hf →
     ∃ a, Objects (TheEngine h) !! Actor = Some (ObjActor a) ∧
       (∀ Position, ∃ a' h',
          SetActorPosition ActorName Position h = Returned true h' ∧
          actor_replaced Actor a' h h' ∧ same_actor_but PartLocation a a' ∧
          (bHasRootComponent a = true → ActorLocation a' = Position)) ∧
       (∀ Rotation, ∃ a' h',
          SetActorRotation ActorName Rotation h = Returned true h' ∧
          actor_replaced Actor a' h h' ∧ same_actor_but PartRotation a a' ∧
          (bHasRootComponent a = true → ActorRotation a' = Rotation)) ∧
       (∀ Scale, ∃ a' h',
          SetActorScale ActorName Scale h = Returned true h' ∧
          actor_replaced Actor a' h h' ∧ same_actor_but PartScale a a' ∧
          (bHasRootComponent a = true → ActorScale3D a' = Scale))).
Proof.
  split.
  - intros hf Hf. destruct (FindActorByName_None _ _ _ Hf) as (He & Ht & _).
    repeat split; try done; intros ?;
      unfold SetActorPosition, SetActorRotation, SetActorScale, bind at 1; by rewrite Hf.
  - intros Actor hf Hf. destruct (FindActorByName_Some _ _ _ _ Hf) as (-> & a & Ha).
    exists a. split; [done|]. destruct h as [e l t]. cbn in Ha.
    assert (actor_replaced Actor a {| TheEngine := e; LogTemp := l; Trace := t |}
              {| TheEngine := e; LogTemp := l; Trace := t |}) as Hsame
      by (by repeat split).
    repeat split; intros v;
      unfold SetActorPosition, SetActorRotation, SetActorScale, bind at 1; rewrite Hf;
      unfold AActor_SetActorLocation, AActor_SetActorRotation, AActor_SetActorScale3D,
        the_actor, store, bind, gets, modify, record, UE_LOG, ret; cbn; rewrite Ha; cbn;
      (destruct (bHasRootComponent a) eqn:Hroot; cbn;
       [ eexists _, _; (split; [reflexivity|]); (split; [apply actor_replaced_store|]);
         by repeat split
       | exists a; eexists; (split; [reflexivity|]); (split; [exact Hsame|]);
         by repeat split ]).
Qed.

Lemma setters_change_their_part_only_witness :
  ∃ a' h',
    SetActorPosition "Crate" OneVector Sample.host = Returned true h' ∧
    actor_replaced 8 a' Sample.host h' ∧
    same_actor_but PartLocation Sample.crate a' ∧
    (bHasRootComponent Sample.crate = true → ActorLocation a' = OneVector).
Proof.
  destruct (proj2 (setters_change_their_part_only "Crate" Sample.host) 8 Sample.host)
    as (a & Ha & Hposition & _).
  { by vm_compute. }
  assert (Some (ObjActor Sample.crate) = Some (ObjActor a)) as [= <-]
    by (rewrite <- Ha; by vm_compute).
  apply (Hposition OneVector).
Defined.
End Setters.

(** ** Label first, then path *)

Section FindActorByName.
Import UGenActorUtils.

(** C6 (as amended).  With an editor but no editor world, [FindActorByName]
    returns null.  With a world: when some actor of the world carries the label (equality of
    the engine's strings, which ignores case), it returns an actor of the
    world that carries it; when none does, it returns what the lookup of the
    name as an object of the world returns; and it returns null exactly when
    no actor carries the label and that lookup finds nothing. *)
Theorem FindActorByName_label_then_path ActorName h ue :
  GEditor (TheEngine h) = Some ue →
  (EditorWorld ue = None → ∃ h', FindActorByName ActorName h = Returned None h') ∧
  (∀ World w,
     EditorWorld ue = Some World →
     Objects (TheEngine h) !! World = Some (ObjWorld w) →
     let e := TheEngine h in
     let by_path := resolve e TAActor (WorldNames w) ActorName in
     let no_label := ∀ Actor, Actor ∈ WorldActors w → ¬ labelled e ActorName Actor in
     ((∃ Actor, Actor ∈ WorldActors w ∧ labelled e ActorName Actor) →
      ∃ Actor, FindActorByName ActorName h = Returned (Some Actor) h ∧
               Actor ∈ WorldActors w ∧ labelled e ActorName Actor) ∧
     (no_label → ∃ h', FindActorByName ActorName h = Returned by_path h') ∧
     (∃ r h', FindActorByName ActorName h = Returned r h' ∧
              (r = None ↔ no_label ∧ by_path = None))).
Proof.
  intros Hed. split.
  - intros Hw. rewrite FindActorByName_eq, Hed. cbv beta iota. rewrite Hw. eauto.
  - intros World w Hw HW e by_path no_label.
    assert (FindActorByName ActorName h =
      match find_by_label e ActorName (WorldActors w) with
      | Some Actor => Returned (Some Actor) h
      | None =>
          match by_path with
          | Some FoundActor => Returned (Some FoundActor) h
          | None => Returned None (add_log Warning "Actor '%s' not found in the level"
                                     [ArgText ActorName] h)
          end
      end) as Heq.
    { rewrite FindActorByName_eq, Hed. cbv beta iota. rewrite Hw. cbv beta iota.
      by rewrite HW. }
    destruct (find_by_label e ActorName (WorldActors w)) as [x|] eqn:Hl.
    + destruct (find_by_label_Some _ _ _ _ Hl) as [Hin Hlab].
      split; [|split].
      * intros _. by exists x.
      * intros Hno. destruct (Hno x Hin Hlab).
      * exists (Some x), h. split; [done|]. split; [done|].
        intros [Hno _]. destruct (Hno x Hin Hlab).
    + pose proof (proj1 (find_by_label_None _ _ _) Hl) as Hno.
      split; [|split].
      * intros (x & Hin & Hlab). destruct (Hno x Hin Hlab).
      * intros _. rewrite Heq. destruct by_path; eauto.
      * rewrite Heq. destruct by_path as [y|] eqn:Hp.
        -- exists (Some y), h. split; [done|]. split; [done|]. by intros [_ ?].
        -- eexists None, _. split; [done|]. done.
Qed.

Lemma FindActorByName_label_then_path_witness :
  ∃ Actor, FindActorByName "crate" Sample.host = Returned (Some Actor) Sample.host ∧
           Actor ∈ WorldActors Sample.level ∧
           labelled (TheEngine Sample.host) "crate" Actor.
Proof.
  destruct (FindActorByName_label_then_path "crate" Sample.host
              {| EditorWorld := Some 4 |} eq_refl) as [_ Hworld].
  destruct (Hworld 4 Sample.level eq_refl eq_refl) as (Hlabel & _).
  apply Hlabel. exists 8. split; [by left|].
  exists Sample.crate. split; reflexivity.
Defined.

(** In a level with a crate labelled "Crate" and, after it, one labelled
    "crate", [FindActorByName] on "crate" returns the former: an actor of the
    world has the name given as its label, and the actor returned is another
    one, whose label is not the name given. *)
Lemma FindActorByName_returns_other_case :
  10 ∈ WorldActors Scenes.crowded_level ∧
  Objects (TheEngine Scenes.crowded) !! 10
  = Some (ObjActor (Scenes.placed "StaticMeshActor_10" "crate")) ∧
  ActorLabel (Scenes.placed "StaticMeshActor_10" "crate") = "crate" ∧
  FindActorByName "crate" Scenes.crowded = Returned (Some 8) Scenes.crowded ∧
  Objects (TheEngine Scenes.crowded) !! 8 = Some (ObjActor Sample.crate) ∧
  ActorLabel Sample.crate = "Crate" ∧
  ActorLabel Sample.crate ≠ "crate".
Proof.
  split; [by right; left|]. repeat split; try by vm_compute.
Qed.
End FindActorByName.

(** ** Assigning a material *)

Section SetActorMaterial.
Import UGenActorUtils.

Lemma set_override_eq i m l : set_override i m l !! i = Some (Some m).
Proof.
  unfold set_override. apply list_lookup_insert_eq.
  rewrite length_app, length_replicate. lia.
Qed.

Lemma set_override_ne i j m l x :
  i ≠ j → l !! j = Some x → set_override i m l !! j = Some x.
Proof.
  intros Hne Hj. unfold set_override.
  rewrite list_lookup_insert_ne by done.
  by apply lookup_app_l_Some.
Qed.

Lemma set_overrides_from_lookup m i : ∀ count start l,
  (start ≤ i < start + count ∨ l !! i = Some (Some m)) →
  set_overrides_from start count m l !! i = Some (Some m).
Proof.
  induction count as [|n IH]; intros start l H; cbn.
  - destruct H as [?|?]; [lia|done].
  - apply IH. destruct (decide (i = start)) as [->|Hne].
    + right. apply set_override_eq.
    + destruct H as [?|?]; [left; lia|right]. by apply set_override_ne.
Qed.

Lemma actor_replaced_trans Actor a1 a2 h h1 h2 :
  actor_replaced Actor a1 h h1 → actor_replaced Actor a2 h1 h2 →
  actor_replaced Actor a2 h h2.
Proof.
  intros (_ & Ho1 & S1) (Ha2 & Ho2 & S2). split; [done|]. split.
  - intros p Hp. rewrite Ho2, Ho1; done.
  - destruct S1 as (?&?&?&?&?), S2 as (?&?&?&?&?). repeat split; congruence.
Qed.

(** The loop of [SetActorMaterial] over the slots [start], ..., [start + count - 1]. *)
Lemma SetMaterial_loop Actor Material : ∀ count start a c h,
  Objects (TheEngine h) !! Actor = Some (ObjActor a) →
  StaticMeshComponent a = Some c →
  ∃ h',
    for_range start count
      (fun i => UStaticMeshComponent_SetMaterial Actor i Material) h = Returned tt h' ∧
    LogTemp h' = LogTemp h ∧
    Trace h' = Trace h ++ map (fun i => CallSetMaterial Actor i Material) (seq start count) ∧
    actor_replaced Actor
      (with_StaticMeshComponent
         (Some {| StaticMesh := StaticMesh c;
                  OverrideMaterials :=
                    set_overrides_from start count Material (OverrideMaterials c) |}) a)
      h h'.
Proof.
  induction count as [|n IH]; intros start a c h Ha Hc.
  - exists h. split; [done|]. split; [done|]. split; [by rewrite app_nil_r|]. cbn.
    split; [|split; [done|by repeat split]].
    rewrite Ha. destruct a, c; cbn in *. by rewrite Hc.
  - cbn [for_range set_overrides_from].
    unfold bind at 1.
    unfold UStaticMeshComponent_SetMaterial at 1.
    unfold the_component, the_actor, store, bind, gets, modify, record, ret.
    rewrite Ha. cbn. rewrite Hc. cbn.
    set (a1 := with_StaticMeshComponent _ a).
    set (h1 := Build_Host _ _ _).
    destruct (IH (S start) a1 {| StaticMesh := StaticMesh c;
                 OverrideMaterials := set_override start Material (OverrideMaterials c) |}
                h1) as (h' & Hrun & Hlog & Htrace & Hrep).
    { subst h1. cbn. apply lookup_insert_eq. }
    { done. }
    exists h'. split; [done|]. split; [done|].
    split; [by rewrite Htrace; subst h1; cbn; rewrite <- app_assoc|].
    apply (actor_replaced_trans Actor a1 _ h h1 h'); [|exact Hrep].
    destruct h as [e l t]. apply actor_replaced_store.
Qed.

(** C7.  [SetActorMaterial] returns false and changes neither engine nor
    trace when the material is null, when the actor is not found, and when
    the found actor has no static mesh component.  Otherwise it returns true,
    having called [SetMaterial] for each index below the component's material
    count, after which every such slot holds the material. *)
Theorem SetActorMaterial_assigns_every_slot ActorName h :
  SetActorMaterial ActorName None h
    = Returned false (add_log Error "Null material provided" [] h) ∧
  (∀ Material hf,
     FindActorByName ActorName h = Returned None hf →
     SetActorMaterial ActorName (Some Material) h = Returned false hf ∧
     TheEngine hf = TheEngine h ∧ Trace hf = Trace h) ∧
  (∀ Material Actor hf,
     FindActorByName ActorName h = Returned (Some Actor) hf →
     ∃ a, Objects (TheEngine h) !! Actor = Some (ObjActor a) ∧
       match StaticMeshComponent a with
       | None =>
           SetActorMaterial ActorName (Some Material) h
           = Returned false
               (add_log Error "No static mesh component found on actor '%s'"
                  [ArgText ActorName] h)
       | Some c =>
           ∃ h', SetActorMaterial ActorName (Some Material) h = Returned true h' ∧
             Trace h' = Trace h ++ map (fun i => CallSetMaterial Actor i Material)
                                       (seq 0 (length (mesh_slots (TheEngine h) c))) ∧
             ∀ i, i < length (mesh_slots (TheEngine h) c) →
                  GetMaterial (TheEngine h') Actor i = Some Material
       end).
Proof.
  split; [done|]. split.
  - intros Material hf Hf. destruct (FindActorByName_None _ _ _ Hf) as (He & Ht & _).
    split; [|done]. unfold SetActorMaterial, bind at 1. by rewrite Hf.
  - intros Material Actor hf Hf.
    destruct (FindActorByName_Some _ _ _ _ Hf) as (-> & a & Ha).
    exists a. split; [done|].
    assert (∀ c, StaticMeshComponent a = c →
      SetActorMaterial ActorName (Some Material) h =
      match c with
      | Some c =>
          (for_range 0 (length (mesh_slots (TheEngine h) c))
             (fun i => UStaticMeshComponent_SetMaterial Actor i Material);;
           UE_LOG Log "Set material for actor '%s'" [ArgText ActorName];;
           ret true) h
      | None =>
          Returned false
            (add_log Error "No static mesh component found on actor '%s'"
               [ArgText ActorName] h)
      end) as Heq.
    { intros c Hc. unfold SetActorMaterial, bind at 1. rewrite Hf.
      unfold AActor_FindComponentByClass_UStaticMeshComponent,
        AActor_GetStaticMeshComponent, the_actor, bind at 1 2 3, gets, ret.
      rewrite Ha, Hc. destruct c as [c|]; [|done].
      unfold UStaticMeshComponent_GetNumMaterials, the_component, the_actor,
        bind at 1 2 3 4, gets, ret.
      by rewrite Ha, Hc. }
    rewrite (Heq _ eq_refl).
    destruct (StaticMeshComponent a) as [c|] eqn:Hc; [|done].
    destruct (SetMaterial_loop Actor Material (length (mesh_slots (TheEngine h) c)) 0 a c h
                Ha Hc) as (h' & Hrun & Hlog & Htrace & Ha' & _).
    unfold bind at 1. rewrite Hrun.
    eexists. split; [reflexivity|]. split; [done|].
    intros i Hi. unfold GetMaterial. cbn. rewrite Ha'. cbn.
    unfold material_of_slot. cbn.
    rewrite set_overrides_from_lookup; [done|]. left. lia.
Qed.

Lemma SetActorMaterial_assigns_every_slot_witness :
  ∃ h', SetActorMaterial "Crate" (Some 6) Sample.host = Returned true h' ∧
        ∀ i, i < 2 → GetMaterial (TheEngine h') 8 i = Some 6.
Proof.
  destruct (proj2 (proj2 (SetActorMaterial_assigns_every_slot "Crate" Sample.host))
              6 8 Sample.host) as (a & Ha & Hslots).
  { by vm_compute. }
  assert (Some (ObjActor Sample.crate) = Some (ObjActor a)) as [= <-]
    by (rewrite <- Ha; by vm_compute).
  destruct Hslots as (h' & Hrun & _ & Hall).
  exists h'. split; [exact Hrun|exact Hall].
Defined.
End SetActorMaterial.

(** ** The sample level is well formed *)

Module SampleFacts.
Import Sample.

Lemma objects_above id : 10 ≤ id → objects !! id = None.
Proof.
  intros Hid. unfold objects. cbn.
  repeat (rewrite lookup_insert_ne by lia). apply lookup_empty.
Qed.

Lemma heap_fresh_engine conduct : heap_fresh (engine conduct).
Proof. intros id Hid. by apply objects_above. Qed.

Lemma no_package p k : objects !! p ≠ Some (ObjPackage k).
Proof.
  destruct (decide (10 ≤ p)) as [Hp|Hp]; [by rewrite objects_above|].
  do 10 (destruct p as [|p]; [by vm_compute|]). lia.
Qed.

Lemma packages_filed_engine conduct : packages_filed (engine conduct).
Proof. intros path p k _ Hp. by destruct (no_package p k). Qed.
End SampleFacts.

(** ** Creating a material *)

Section Material.
Import UGenActorUtils.

Ltac log_member :=
  cbn; repeat (apply elem_of_app; first [right; solve [repeat constructor] | left]);
  solve [repeat constructor].

Ltac created_post :=
  unfold created, package_at_hand, resolve, MaterialObjectPath, line; cbn;
  repeat match goal with
    | |- _ ∧ _ => split
    | |- is_Some _ => eexists
    | |- _ → _ => intros ?
    end;
  try match goal with
    | Hf : packages_filed _, HN : Names _ !! _ = Some _, Ho : Objects _ !! _ = Some _ |- _ =>
        pose proof (Hf _ _ _ HN Ho)
    end;
  exec; try done; try congruence; try (by left); try (by right; eauto); try log_member.

Lemma CreateMaterial_create_run MaterialName Color h :
  heap_fresh (TheEngine h) →
  ∃ r h', CreateMaterial_create MaterialName Color h = Returned r h' ∧
          created MaterialName h r h'.
Proof.
  destruct h as [e l t]. cbn. intros Hfresh.
  unfold CreateMaterial_create. fold (MaterialPackagePath MaterialName).
  destruct (resolve e TUPackage (Names e) (MaterialPackagePath MaterialName))
    as [p|] eqn:Hp.
  - destruct (cast_in_Some _ _ _ _ Hp) as (HN & o & Ho & HT).
    destruct o as [| | | | |k| | |]; try done.
    pose proof (fresh_lt _ _ _ Hfresh Ho) as Hlt.
    unfold_host. unfold resolve in Hp.
    destruct (canCreateObject (Conduct e)) eqn:H2.
    2:{ exec. eexists _, _. split; [reflexivity|].
        unfold created, package_at_hand, resolve. cbn. rewrite Hp. right. eauto. }
    destruct (canCreateExpression (Conduct e)) eqn:H3;
    destruct (canConnectProperty (Conduct e)) eqn:H4;
    destruct (canSavePackage (Conduct e)) eqn:H5;
    exec; (eexists _, _; split; [reflexivity|]). all: created_post.
  - unfold_host. unfold resolve in Hp.
    destruct (canCreatePackage (Conduct e)) eqn:H1.
    2:{ exec. eexists _, _. split; [reflexivity|].
        unfold created, package_at_hand, resolve. cbn. rewrite Hp, H1. left.
        split; [|done]. intros [[? ?]|?]; done. }
    destruct (canCreateObject (Conduct e)) eqn:H2.
    2:{ exec. eexists _, _. split; [reflexivity|].
        unfold created, package_at_hand, resolve. cbn. rewrite Hp, H1, H2. right. eauto. }
    destruct (canCreateExpression (Conduct e)) eqn:H3;
    destruct (canConnectProperty (Conduct e)) eqn:H4;
    destruct (canSavePackage (Conduct e)) eqn:H5;
    exec; (eexists _, _; split; [reflexivity|]). all: created_post.
Qed.

(** [CreateMaterial]: the probe for an existing material, then the creation. *)
Lemma CreateMaterial_eq MaterialName Color h :
  let e := TheEngine h in
  let warned :=
    add_log Warning "Material '%s' already exists, trying to load it"
      [ArgText MaterialName] h in
  CreateMaterial MaterialName Color h =
  match resolve e TUPackage (Names e) (MaterialPackagePath MaterialName) with
  | Some _ =>
      match resolve e TUMaterial (Names e) (MaterialObjectPath MaterialName) with
      | Some ExistingMaterial => Returned (Some ExistingMaterial) warned
      | None => CreateMaterial_create MaterialName Color warned
      end
  | None => CreateMaterial_create MaterialName Color h
  end.
Proof.
  intros e warned. unfold CreateMaterial.
  fold (MaterialPackagePath MaterialName). fold (MaterialObjectPath MaterialName).
  unfold bind at 1, FindPackage, gets at 1. fold e.
  destruct (resolve e TUPackage (Names e) (MaterialPackagePath MaterialName)); [|done].
  unfold bind at 1, UE_LOG at 1. fold warned.
  unfold bind at 1, LoadObject, gets at 1. cbn [TheEngine warned add_log]. fold e.
  by destruct (resolve e TUMaterial (Names e) (MaterialObjectPath MaterialName)).
Qed.

(** When [CreateMaterial] returns null, and what it logs when it does not. *)
Lemma CreateMaterial_null_exactly MaterialName Color h :
  let e := TheEngine h in
  heap_fresh e →
  existing_material e MaterialName = None →
  ∃ r h', CreateMaterial MaterialName Color h = Returned r h' ∧
    (r = None ↔ ¬ package_at_hand e MaterialName ∨ canCreateObject (Conduct e) = false) ∧
    (r = None → ∃ l, Verbosity l = Error ∧ l ∈ LogTemp h') ∧
    (r ≠ None → canCreateExpression (Conduct e) = true →
     canConnectProperty (Conduct e) = false →
     line Error "Failed to connect material property" [] ∈ LogTemp h') ∧
    (r ≠ None → canSavePackage (Conduct e) = false →
     line Error "Failed to save material '%s'" [ArgText MaterialName] ∈ LogTemp h').
Proof.
  intros e Hfresh Hnone.
  assert (∃ h0, TheEngine h0 = e ∧
                CreateMaterial MaterialName Color h
                = CreateMaterial_create MaterialName Color h0) as (h0 & He & ->).
  { rewrite CreateMaterial_eq. fold e. unfold existing_material in Hnone. fold e in Hnone.
    destruct (resolve e TUPackage (Names e) (MaterialPackagePath MaterialName)).
    - rewrite Hnone. eexists. split; [|reflexivity]. done.
    - eexists. split; [|reflexivity]. done. }
  destruct (CreateMaterial_create_run MaterialName Color h0) as (r & h' & Hrun & Hpost).
  { by rewrite He. }
  exists r, h'. split; [done|]. unfold created in Hpost. rewrite He in Hpost.
  destruct r as [m|].
  - destruct Hpost as (Hpkg & Hobj & _ & Hconnect & Hsave).
    split; [|split; [done|split; [by intros _|by intros _]]].
    split; [done|]. intros [Hn|Hn]; [by destruct Hn|congruence].
  - split; [|split; [|split; [done|done]]].
    + split; [|done]. intros _. destruct Hpost as [[? _]|(_ & ? & _)]; [by left|by right].
    + intros _. destruct Hpost as [[_ ->]|(_ & _ & ->)].
      * eexists. split; [|apply elem_of_app; right; apply list_elem_of_singleton; reflexivity].
        done.
      * eexists. split; [|apply elem_of_app; right; apply list_elem_of_singleton; reflexivity].
        done.
Qed.

(** On a host that refuses to connect a material property and to save a
    package, [CreateMaterial] logs both failures and returns the material. *)
Lemma CreateMaterial_not_null_when_save_fails :
  canSavePackage (Conduct (TheEngine Sample.failing_host)) = false ∧
  canConnectProperty (Conduct (TheEngine Sample.failing_host)) = false ∧
  answer (CreateMaterial "Red" Sample.red Sample.failing_host) = Some (Some 11) ∧
  calls_of (CreateMaterial "Red" Sample.red Sample.failing_host) =
    [CallCreatePackage "/Game/Materials/Red" 10; CallNewMaterial 10 "Red" 11;
     CallWrite 11 "bUseEmissiveForDynamicAreaLighting"; CallWrite 11 "BlendMode";
     CallCreateMaterialExpression 11 12; CallWrite 12 "Constant";
     CallConnectMaterialProperty 12 MP_BaseColor false;
     CallPreEditChange 11; CallPostEditChange 11; CallRecompileMaterial 11;
     CallMarkPackageDirty 10;
     CallSavePackage 10 "/Game/Materials/Red.uasset" false] ∧
  log_of (CreateMaterial "Red" Sample.red Sample.failing_host) =
    [line Error "Failed to connect material property" [];
     line Error "Failed to save material '%s'" [ArgText "Red"]].
Proof. repeat split; by vm_compute. Qed.

(** C9.  When a package exists for the name and a material loads from it,
    [CreateMaterial] returns that material and touches neither engine nor
    trace: no package, material or expression is created.  Hence on a well
    formed host, once [CreateMaterial] has returned a material, calling it
    again with the same name and any colour returns that same material. *)
Theorem CreateMaterial_idempotent MaterialName h :
  let e := TheEngine h in
  (∀ Color ExistingMaterial,
     existing_material e MaterialName = Some ExistingMaterial →
     CreateMaterial MaterialName Color h
     = Returned (Some ExistingMaterial) (already_exists MaterialName h)) ∧
  (heap_fresh e → packages_filed e →
   ∀ Color Material h1,
     CreateMaterial MaterialName Color h = Returned (Some Material) h1 →
     ∀ Color', CreateMaterial MaterialName Color' h1
               = Returned (Some Material) (already_exists MaterialName h1)).
Proof.
  intros e.
  assert (∀ h Color m, existing_material (TheEngine h) MaterialName = Some m →
            CreateMaterial MaterialName Color h
            = Returned (Some m) (already_exists MaterialName h)) as Hexisting.
  { intros h0 Color m. rewrite CreateMaterial_eq. unfold existing_material.
    destruct (resolve (TheEngine h0) TUPackage _ _); [|done]. by intros ->. }
  split; [intros; by apply Hexisting|].
  intros Hfresh Hfiled Color Material h1 Hrun Color'.
  apply Hexisting. clear Color'.
  rewrite CreateMaterial_eq in Hrun. fold e in Hrun.
  assert (∀ h0, TheEngine h0 = e →
            CreateMaterial_create MaterialName Color h0 = Returned (Some Material) h1 →
            existing_material (TheEngine h1) MaterialName = Some Material) as Hcreate.
  { intros h0 He Hrun0.
    destruct (CreateMaterial_create_run MaterialName Color h0) as (r & h' & Hrun' & Hpost).
    { by rewrite He. }
    rewrite Hrun0 in Hrun'. injection Hrun' as <- <-.
    unfold created in Hpost. rewrite He in Hpost.
    destruct Hpost as (_ & _ & Hres & _). destruct (Hres Hfiled) as [[p Hp] Hm].
    unfold existing_material. by rewrite Hp. }
  destruct (resolve e TUPackage (Names e) (MaterialPackagePath MaterialName)) eqn:Hp.
  - destruct (resolve e TUMaterial (Names e) (MaterialObjectPath MaterialName)) eqn:Hm.
    + injection Hrun as <- <-. unfold existing_material. cbn. fold e. by rewrite Hp.
    + eapply Hcreate; [|exact Hrun]. done.
  - eapply Hcreate; [|exact Hrun]. done.
Qed.

Lemma CreateMaterial_idempotent_witness :
  ∃ h1, CreateMaterial "Red" Sample.red Sample.host = Returned (Some 11) h1 ∧
        CreateMaterial "Red" Sample.blue h1
        = Returned (Some 11) (already_exists "Red" h1).
Proof.
  eexists. split; [by vm_compute|].
  apply (proj2 (CreateMaterial_idempotent "Red" Sample.host)
           (SampleFacts.heap_fresh_engine _) (SampleFacts.packages_filed_engine _)
           Sample.red).
  by vm_compute.
Defined.
End Material.

(** ** Creating a game mode *)

Section GameMode.
Import UGenActorUtils.

Lemma IsChildOf_eq Class Base h c :
  Objects (TheEngine h) !! Class = Some (ObjClass c) →
  IsChildOf Class Base h = Returned (descends_from (TheEngine h) Class Base) h.
Proof.
  intros Hc. unfold IsChildOf, the_class, descends_from, bind, gets, ret. by rewrite Hc.
Qed.

(** [CreateGameModeWithPawn], guard by guard. *)
Lemma CreateGameModeWithPawn_eq GameModePath PawnBlueprintPath BaseClassName h :
  let e := TheEngine h in
  CreateGameModeWithPawn GameModePath PawnBlueprintPath BaseClassName h =
  if FString.IsEmpty GameModePath || FString.IsEmpty PawnBlueprintPath then
    Returned (ErrorJson "Empty path provided")
      (add_log Error "GameModePath or PawnBlueprintPath is empty" [] h)
  else
    match resolve e TUBlueprint (Names e) GameModePath with
    | Some _ =>
        Returned (ErrorJson "Game mode already exists")
          (add_log Warning "Game mode already exists at %s" [ArgText GameModePath] h)
    | None =>
        match game_mode_base e BaseClassName with
        | None =>
            Returned (ErrorJson "Invalid base class")
              (add_log Error "Invalid base class %s for game mode"
                 [ArgText (BaseClassToUse BaseClassName)] h)
        | Some BaseClass =>
            match pawn_class e PawnBlueprintPath with
            | None =>
                Returned (ErrorJson "Invalid pawn blueprint")
                  (add_log Error "Invalid pawn blueprint: %s" [ArgText PawnBlueprintPath] h)
            | Some PawnClass =>
                CreateGameModeWithPawn_create GameModePath PawnBlueprintPath
                  (Some BaseClass) (Some PawnClass) h
            end
        end
    end.
Proof.
  intros e. unfold CreateGameModeWithPawn.
  destruct (FString.IsEmpty GameModePath || FString.IsEmpty PawnBlueprintPath); [done|].
  unfold bind at 1, LoadObject at 1, gets at 1. fold e.
  destruct (resolve e TUBlueprint (Names e) GameModePath); [done|].
  unfold bind at 1, FindObject_AnyPackage, gets at 1. fold e.
  unfold game_mode_base. fold (BaseClassToUse BaseClassName).
  unfold bind at 1, gets at 1. fold e.
  destruct (resolve e TUClass (Names e) (BaseClassToUse BaseClassName)) as [B|] eqn:HB.
  2:{ done. }
  destruct (cast_in_Some _ _ _ _ HB) as (HN & o & Ho & HT).
  destruct o; try done.
  unfold bind at 1. rewrite (IsChildOf_eq _ _ _ _ Ho). fold e.
  destruct (descends_from e B (AGameModeBase_StaticClass (Native e))); [|done].
  cbn [negb].
  unfold bind at 1, LoadObject at 1, gets at 1. fold e.
  unfold pawn_class.
  destruct (resolve e TUBlueprint (Names e) PawnBlueprintPath) as [PBP|] eqn:HP.
  2:{ done. }
  destruct (cast_in_Some _ _ _ _ HP) as (HPN & o & Hob & HTb).
  destruct o; try done. fold e in Hob. rewrite Hob.
  unfold bind at 1, UBlueprint_GeneratedClass, the_blueprint, bind at 1 2, gets at 1 2.
  fold e. rewrite Hob. cbv beta iota. unfold ret at 1. cbv beta iota. fold e.
  destruct (cast_in e TUClass (GeneratedClass b)) as [PC|] eqn:HPC.
  2:{ done. }
  destruct (cast_in_Some _ _ _ _ HPC) as (HG & o & Hoc & HTc).
  destruct o; try done.
  unfold bind at 1, gets at 1. unfold bind at 1. rewrite (IsChildOf_eq _ _ _ _ Hoc). fold e.
  by destruct (descends_from e PC (APawn_StaticClass (Native e))).
Qed.

Lemma game_mode_base_Some e BaseClassName BaseClass :
  game_mode_base e BaseClassName = Some BaseClass →
  ∃ B, Objects e !! BaseClass = Some (ObjClass B) ∧
       AGameModeBase_StaticClass (Native e) ∈ StructBaseChain B.
Proof.
  unfold game_mode_base, descends_from.
  destruct (resolve e TUClass (Names e) (BaseClassToUse BaseClassName)) as [x|]; [|done].
  destruct (Objects e !! x) as [[| | | | | | |B|]|] eqn:Hx; try done.
  destruct (bool_decide _) eqn:Hd; [|done]. intros [= <-].
  exists B. split; [done|]. by apply bool_decide_eq_true in Hd.
Qed.

(** The creation, on a host that hands out a compiled blueprint. *)
Lemma CreateGameModeWithPawn_create_ready g p BaseClass PawnClass B h :
  let e := TheEngine h in
  let cls := NextObject e in
  let bp := S (NextObject e) in
  onCreateAsset (Conduct e) = BlueprintReady →
  Objects e !! BaseClass = Some (ObjClass B) →
  AGameModeBase_StaticClass (Native e) ∈ StructBaseChain B →
  heap_fresh e → world_ok e →
  ∃ h',
    CreateGameModeWithPawn_create g p (Some BaseClass) PawnClass h
    = Returned (SuccessJson g p) h' ∧
    Trace h' = Trace h ++
      [CallCreateAsset (FPackageName.GetShortName g) (FPackageName.GetLongPackagePath g) bp;
       CallWrite cls "DefaultPawnClass"] ++ level_calls e ++
      [CallModify bp; CallMarkBlueprintAsStructurallyModified bp] ∧
    Objects (TheEngine h') !! bp
    = Some (ObjBlueprint {| ParentClass := Some BaseClass; GeneratedClass := Some cls;
                            bStructurallyModified := true |}) ∧
    (∃ c, Objects (TheEngine h') !! cls = Some (ObjClass c) ∧
          ClassDefaultObject c = Some {| DefaultPawnClass := PawnClass |}) ∧
    (∀ World w lv, editor_world e = Some (World, w) → CurrentLevel w = Some lv →
       ∃ w', Objects (TheEngine h') !! World = Some (ObjWorld w') ∧
             CurrentLevel w' =
             Some {| WorldSettings :=
                       {| DefaultGameMode := Some cls; bSettingsDirty := true |} |}).
Proof.
  intros e cls bp Hans HB Hgm Hfresh Hworld.
  destruct h as [e0 l t]. cbn in e. subst e.
  assert (bool_decide (AGameModeBase_StaticClass (Native e0)
                       ∈ NextObject e0 :: StructBaseChain B) = true) as Hdec.
  { apply bool_decide_eq_true_2. by right. }
  unfold CreateGameModeWithPawn_create, world_ok, level_calls, editor_world in *.
  unfold_host.
  destruct (GEditor e0) as [[[W|]]|] eqn:Hed.
  - destruct Hworld as [w Hw].
    pose proof (fresh_lt _ _ _ Hfresh Hw) as HW.
    destruct (CurrentLevel w) as [lv|] eqn:Hlv; exec;
      (eexists; split; [reflexivity|]; cbn; split; [by rewrite <- !app_assoc|]);
      exec; (split; [done|]); (split; [eexists; split; reflexivity|]);
      intros ? ? ? [= <- <-] ?; exec; try congruence; (eexists; split; reflexivity).
  - exec. eexists. split; [reflexivity|]. cbn. split; [by rewrite <- !app_assoc|].
    exec. split; [done|]. split; [eexists; split; reflexivity|]. done.
  - exec. eexists. split; [reflexivity|]. cbn. split; [by rewrite <- !app_assoc|].
    exec. split; [done|]. split; [eexists; split; reflexivity|]. done.
Qed.
(** C3 (as amended).  [CreateGameModeWithPawn] runs its guards in order
    (an empty path, a blueprint that already loads at the game mode path, a
    base class that is no game mode class, a pawn blueprint without a pawn
    class); a failed guard returns its error JSON with the engine and the
    trace untouched.  Past the guards, on a host that hands out a compiled
    blueprint, it creates the asset, writes the default pawn class of the new
    class, and - when the editor has a world with a current level - also
    writes the default game mode of that level's world settings and marks
    them dirty; it then marks the blueprint modified and returns the success
    JSON. *)
Theorem CreateGameModeWithPawn_guards_then_creation
    GameModePath PawnBlueprintPath BaseClassName h :
  let e := TheEngine h in
  let run := CreateGameModeWithPawn GameModePath PawnBlueprintPath BaseClassName h in
  let cls := NextObject e in
  let bp := S (NextObject e) in
  (FString.IsEmpty GameModePath || FString.IsEmpty PawnBlueprintPath = true →
   run = Returned (ErrorJson "Empty path provided")
           (add_log Error "GameModePath or PawnBlueprintPath is empty" [] h)) ∧
  (FString.IsEmpty GameModePath || FString.IsEmpty PawnBlueprintPath = false →
   (is_Some (resolve e TUBlueprint (Names e) GameModePath) →
    run = Returned (ErrorJson "Game mode already exists")
            (add_log Warning "Game mode already exists at %s" [ArgText GameModePath] h)) ∧
   (resolve e TUBlueprint (Names e) GameModePath = None →
    (game_mode_base e BaseClassName = None →
     run = Returned (ErrorJson "Invalid base class")
             (add_log Error "Invalid base class %s for game mode"
                [ArgText (BaseClassToUse BaseClassName)] h)) ∧
    (is_Some (game_mode_base e BaseClassName) →
     pawn_class e PawnBlueprintPath = None →
     run = Returned (ErrorJson "Invalid pawn blueprint")
             (add_log Error "Invalid pawn blueprint: %s" [ArgText PawnBlueprintPath] h)) ∧
    (∀ BaseClass PawnClass,
       game_mode_base e BaseClassName = Some BaseClass →
       pawn_class e PawnBlueprintPath = Some PawnClass →
       onCreateAsset (Conduct e) = BlueprintReady →
       heap_fresh e → world_ok e →
       ∃ h',
         run = Returned (SuccessJson GameModePath PawnBlueprintPath) h' ∧
         Trace h' = Trace h ++
           [CallCreateAsset (FPackageName.GetShortName GameModePath)
              (FPackageName.GetLongPackagePath GameModePath) bp;
            CallWrite cls "DefaultPawnClass"] ++ level_calls e ++
           [CallModify bp; CallMarkBlueprintAsStructurallyModified bp] ∧
         Objects (TheEngine h') !! bp
         = Some (ObjBlueprint {| ParentClass := Some BaseClass; GeneratedClass := Some cls;
                                 bStructurallyModified := true |}) ∧
         (∃ c, Objects (TheEngine h') !! cls = Some (ObjClass c) ∧
               ClassDefaultObject c = Some {| DefaultPawnClass := Some PawnClass |}) ∧
         (∀ World w lv, editor_world e = Some (World, w) → CurrentLevel w = Some lv →
            ∃ w', Objects (TheEngine h') !! World = Some (ObjWorld w') ∧
                  CurrentLevel w' =
                  Some {| WorldSettings :=
                            {| DefaultGameMode := Some cls; bSettingsDirty := true |} |})))).
Proof.
  intros e run cls bp. subst run. rewrite CreateGameModeWithPawn_eq. fold e.
  split; [by intros ->|]. intros ->. split.
  { by intros [x ->]. }
  intros ->. split; [by intros ->|]. split.
  { by intros [x ->] ->. }
  intros BaseClass PawnClass Hbase Hpawn Hans Hfresh Hworld. rewrite Hbase, Hpawn.
  destruct (game_mode_base_Some e BaseClassName BaseClass Hbase) as (B & HB & Hgm).
  by apply (CreateGameModeWithPawn_create_ready _ _ _ _ B).
Qed.

Lemma CreateGameModeWithPawn_guards_then_creation_witness :
  ∃ h',
    CreateGameModeWithPawn "/Game/Modes/Duel" "/Game/BP_Pawn" "" Sample.host
    = Returned (SuccessJson "/Game/Modes/Duel" "/Game/BP_Pawn") h' ∧
    Trace h' =
      [CallCreateAsset "Duel" "/Game/Modes" 11; CallWrite 10 "DefaultPawnClass";
       CallWrite 4 "DefaultGameMode"; CallMarkWorldSettingsDirty 4;
       CallModify 11; CallMarkBlueprintAsStructurallyModified 11].
Proof.
  destruct (proj2 (CreateGameModeWithPawn_guards_then_creation
                     "/Game/Modes/Duel" "/Game/BP_Pawn" "" Sample.host) eq_refl)
    as [_ Hnew].
  destruct (Hnew eq_refl) as (_ & _ & Hcreate).
  destruct (Hcreate 2 7 eq_refl eq_refl eq_refl (SampleFacts.heap_fresh_engine _))
    as (h' & Hrun & Htrace & _).
  { exists Sample.level. reflexivity. }
  exists h'. split; [exact Hrun|exact Htrace].
Defined.

(** In a level, a successful [CreateGameModeWithPawn] writes two properties:
    the default pawn class and the default game mode. *)
Lemma CreateGameModeWithPawn_writes_two_properties :
  answer (CreateGameModeWithPawn "/Game/Modes/Duel" "/Game/BP_Pawn" "" Sample.host)
  = Some (SuccessJson "/Game/Modes/Duel" "/Game/BP_Pawn") ∧
  property_writes
    (calls_of (CreateGameModeWithPawn "/Game/Modes/Duel" "/Game/BP_Pawn" "" Sample.host))
  = [CallWrite 10 "DefaultPawnClass"; CallWrite 4 "DefaultGameMode"] ∧
  length (property_writes
    (calls_of (CreateGameModeWithPawn "/Game/Modes/Duel" "/Game/BP_Pawn" "" Sample.host)))
  ≠ 1.
Proof. repeat split; by vm_compute. Qed.

(** C10 (as amended).  Whenever a blueprint already loads at the game mode
    path, [CreateGameModeWithPawn] leaves the engine and the trace as they
    are - no asset is created, no default pawn assigned, no world settings
    changed - and returns an error JSON: "Game mode already exists" when
    both paths are given, and "Empty path provided" otherwise, since the
    test for empty paths comes first. *)
Theorem CreateGameModeWithPawn_keeps_existing
    GameModePath PawnBlueprintPath BaseClassName h :
  let e := TheEngine h in
  is_Some (resolve e TUBlueprint (Names e) GameModePath) →
  ∃ h',
    CreateGameModeWithPawn GameModePath PawnBlueprintPath BaseClassName h
    = Returned
        (if FString.IsEmpty GameModePath || FString.IsEmpty PawnBlueprintPath
         then ErrorJson "Empty path provided"
         else ErrorJson "Game mode already exists") h' ∧
    TheEngine h' = TheEngine h ∧ Trace h' = Trace h.
Proof.
  intros e [x Hx]. rewrite CreateGameModeWithPawn_eq. fold e. rewrite Hx.
  destruct (FString.IsEmpty GameModePath || FString.IsEmpty PawnBlueprintPath);
    by eexists.
Qed.

Lemma CreateGameModeWithPawn_keeps_existing_witness :
  ∃ h',
    CreateGameModeWithPawn "/Game/Modes/Arena" "/Game/BP_Pawn" "" Sample.host
    = Returned (ErrorJson "Game mode already exists") h' ∧
    TheEngine h' = TheEngine Sample.host ∧ Trace h' = Trace Sample.host.
Proof.
  apply (CreateGameModeWithPawn_keeps_existing
           "/Game/Modes/Arena" "/Game/BP_Pawn" "" Sample.host).
  exists 9. reflexivity.
Defined.

(** With an existing game mode and an empty pawn path, the error returned is
    the one about empty paths. *)
Lemma CreateGameModeWithPawn_empty_pawn_path_first :
  resolve (TheEngine Sample.host) TUBlueprint (Names (TheEngine Sample.host))
    "/Game/Modes/Arena" = Some 9 ∧
  answer (CreateGameModeWithPawn "/Game/Modes/Arena" "" "" Sample.host)
  = Some (ErrorJson "Empty path provided") ∧
  ErrorJson "Empty path provided" ≠ ErrorJson "Game mode already exists".
Proof. repeat split; by vm_compute. Qed.
End GameMode.

(** ** No state of the module's own *)

Section Statelessness.

Lemma Built_invoke op : Built (may_issue op) (invoke op).
Proof. destruct op; built ltac:(first [exact I | by intros ?]). Qed.

(** C8.  The outcome of a call depends on its arguments and on the engine
    alone: run on two hosts with the same engine, whatever the module logged
    and did before on each, a function returns the same result, leaves the
    same engine, and adds the same lines to the log and the same calls to the
    trace. *)
Theorem operations_depend_on_engine_only op h1 h2 :
  TheEngine h1 = TheEngine h2 →
  same_outcome h1 h2 (invoke op h1) (invoke op h2).
Proof.
  intros He.
  pose proof (Built_history_independent _ _ _ (Built_invoke op)) as Hind.
  rewrite (Hind h1), (Hind h2), He.
  destruct (invoke op (fresh_history (TheEngine h2))) as [a h'|]; cbn; [|done].
  split; [done|]. split; [done|]. by exists (LogTemp h'), (Trace h').
Qed.

Lemma operations_depend_on_engine_only_witness :
  same_outcome Sample.host Sample.later_host
    (invoke (OpSetActorPosition "Crate" OneVector) Sample.host)
    (invoke (OpSetActorPosition "Crate" OneVector) Sample.later_host).
Proof.
  apply (operations_depend_on_engine_only
           (OpSetActorPosition "Crate" OneVector) Sample.host Sample.later_host).
  reflexivity.
Defined.
End Statelessness.

(** ** Failed lookups, and what is undone *)

Section Spawning.
Import UGenActorUtils.

Lemma editor_world_Some e World w :
  editor_world e = Some (World, w) →
  GEditor e = Some {| EditorWorld := Some World |} ∧ Objects e !! World = Some (ObjWorld w).
Proof.
  unfold editor_world. destruct (GEditor e) as [[[W|]]|]; [|done|done]. cbn.
  destruct (Objects e !! W) as [[| | | | | | | |w0]|] eqn:HW; try done.
  by intros [= <- <-].
Qed.

Lemma not_elem_of_filter_ne (x : nat) (l : list nat) : x ∉ filter (λ y, y ≠ x) l.
Proof. intros H. apply list_elem_of_filter in H as [H _]. by apply H. Qed.

Ltac finish_rollback :=
  eexists; split; [reflexivity|]; cbn; split; [reflexivity|];
  split; [by rewrite <- app_assoc|];
  split; [apply lookup_delete_eq|];
  rewrite lookup_delete_ne by lia; rewrite lookup_insert_eq;
  eexists; split; [reflexivity|]; cbn; apply not_elem_of_filter_ne.

Lemma SpawnBasicShape_rolls_back ShapeName Location Rotation Scale ActorLabel h World w k :
  let e := TheEngine h in
  editor_world e = Some (World, w) → heap_fresh e → static_mesh_actor_class e k →
  resolve e TUStaticMesh (Names e) (BasicShapePath ShapeName) = None →
  ∃ h',
    SpawnBasicShape ShapeName Location Rotation Scale ActorLabel h = Returned None h' ∧
    LogTemp h' = LogTemp h ++
      [line Error "Failed to load static mesh at path: %s"
         [ArgText (BasicShapePath ShapeName)]] ∧
    rolled_back World (NextObject e) h h'.
Proof.
  intros e Hworld Hfresh (Hk & Hspawn & Hactor) Hmesh.
  destruct h as [e0 l t]. cbn in e. subst e.
  destruct (editor_world_Some _ _ _ Hworld) as [Hed HW].
  pose proof (fresh_lt _ _ _ Hfresh HW) as HWlt.
  pose proof (fresh_lt _ _ _ Hfresh Hk) as Hklt.
  assert (bool_decide (AActor_StaticClass (Native e0) ∈ StructBaseChain k) = true) as Hdec
    by (by apply bool_decide_eq_true_2).
  unfold SpawnBasicShape, rolled_back. fold (BasicShapePath ShapeName).
  unfold resolve, cast_in in Hmesh.
  unfold_host.
  destruct (Names e0 !! BasicShapePath ShapeName) as [id|] eqn:HN.
  - destruct (decide (id = NextObject e0)) as [->|Hne1];
      [|destruct (decide (id = World)) as [->|Hne2]].
    + exec. finish_rollback.
    + exec. finish_rollback.
    + assert (NextObject e0 ≠ id) as Hne1' by congruence.
      assert (World ≠ id) as Hne2' by congruence.
      destruct (Objects e0 !! id) as [o|] eqn:Ho;
        [destruct (IsA o TUStaticMesh) eqn:HT; [done|]|]; exec; finish_rollback.
  - exec. finish_rollback.
Qed.

Lemma SpawnStaticMeshActor_rolls_back MeshPath Location Rotation Scale ActorLabel h
    World w k Mesh :
  let e := TheEngine h in
  editor_world e = Some (World, w) → heap_fresh e → static_mesh_actor_class e k →
  bHasStaticMeshComponent k = false →
  resolve e TUStaticMesh (Names e) MeshPath = Some Mesh →
  ∃ h',
    SpawnStaticMeshActor MeshPath Location Rotation Scale ActorLabel h = Returned None h' ∧
    LogTemp h' = LogTemp h ++
      [line Error "No StaticMeshComponent found on spawned actor" []] ∧
    rolled_back World (NextObject e) h h'.
Proof.
  intros e Hworld Hfresh (Hk & Hspawn & Hactor) Hcomp Hmesh.
  destruct h as [e0 l t]. cbn in e. subst e.
  destruct (editor_world_Some _ _ _ Hworld) as [Hed HW].
  pose proof (fresh_lt _ _ _ Hfresh HW) as HWlt.
  pose proof (fresh_lt _ _ _ Hfresh Hk) as Hklt.
  assert (bool_decide (AActor_StaticClass (Native e0) ∈ StructBaseChain k) = true) as Hdec
    by (by apply bool_decide_eq_true_2).
  unfold SpawnStaticMeshActor, rolled_back.
  unfold resolve in Hmesh.
  unfold_host. exec. finish_rollback.
Qed.
End Spawning.

Section Failures.
Import UGenActorUtils.

Lemma reports_failure_intro h a h' ls :
  is_sentinel a → LogTemp h' = LogTemp h ++ ls → ls ≠ [] →
  reports_failure h (Returned a h').
Proof. intros. by exists a, h', ls. Qed.

(** Closes a goal [reports_failure h (Returned a h')] in which [h'] is [h]
    with one more line. *)
Ltac reported :=
  eapply reports_failure_intro;
  [ first [reflexivity | by eexists] | cbn; reflexivity | done ].

Lemma FindActorByName_fails ActorName h :
  editor_ok (TheEngine h) → find_actor (TheEngine h) ActorName = None →
  ∃ l, FindActorByName ActorName h
       = Returned None {| TheEngine := TheEngine h; LogTemp := LogTemp h ++ [l];
                          Trace := Trace h |}.
Proof.
  unfold editor_ok, find_actor, editor_world. rewrite FindActorByName_eq.
  destruct (GEditor (TheEngine h)) as [[[World|]]|]; cbn; [| |done].
  - intros [w ->].
    destruct (find_by_label (TheEngine h) ActorName (WorldActors w)); [done|].
    intros ->. by eexists.
  - intros _ _. by eexists.
Qed.

Lemma find_then_fails ActorName (k : ObjectId → M bool) h :
  editor_ok (TheEngine h) → find_actor (TheEngine h) ActorName = None →
  reports_failure h
    ((let* b := (let* Actor := FindActorByName ActorName in
                 match Actor with
                 | None => ret false
                 | Some Actor => k Actor
                 end) in ret (Flag b)) h).
Proof.
  intros Hed Hnone. destruct (FindActorByName_fails ActorName h Hed Hnone) as [l Hl].
  unfold bind. rewrite Hl. cbn. reported.
Qed.

Lemma lookup_failure_reported op h :
  lookup_fails op (TheEngine h) → reports_failure h (invoke op h).
Proof.
  destruct op as [ShapeName Location Rotation Scale ActorLabel
                 |MeshPath Location Rotation Scale ActorLabel
                 |ActorClassName Location Rotation Scale ActorLabel
                 |ActorName|MaterialName Color|ActorName Material
                 |ActorName MaterialPath|ActorName Position|ActorName Rotation
                 |ActorName Scale|GameModePath PawnBlueprintPath BaseClassName];
    cbn [lookup_fails invoke].
  - (* SpawnBasicShape *)
    intros (Hed & Hfresh & Hmesh). destruct h as [e l t]. cbn in Hed, Hfresh, Hmesh.
    unfold editor_ok in Hed.
    destruct (GEditor e) as [[[World|]]|] eqn:HG; [| |done].
    + destruct Hed as [w HW].
      destruct (Objects e !! AStaticMeshActor_StaticClass (Native e)) as [o|] eqn:Hk.
      * destruct o as [| | | | | | |k|];
          try (unfold SpawnBasicShape; unfold_host; exec; reported).
        destruct (bSpawnable k) eqn:Hs;
          [|unfold SpawnBasicShape; unfold_host; exec; reported].
        destruct (bool_decide (AActor_StaticClass (Native e) ∈ StructBaseChain k)) eqn:Hd;
          [|unfold SpawnBasicShape; unfold_host; exec; reported].
        apply bool_decide_eq_true in Hd.
        destruct (SpawnBasicShape_rolls_back ShapeName Location Rotation Scale ActorLabel
                    {| TheEngine := e; LogTemp := l; Trace := t |} World w k)
          as (h' & Hrun & Hlog & _); try done.
        { unfold editor_world. cbn. rewrite HG. cbn. by rewrite HW. }
        unfold bind. rewrite Hrun. by eapply reports_failure_intro.
      * unfold SpawnBasicShape. unfold_host. exec. reported.
    + unfold SpawnBasicShape. unfold_host. exec. reported.
  - (* SpawnStaticMeshActor *)
    intros Hmesh. unfold SpawnStaticMeshActor, LoadObject, bind, gets.
    rewrite Hmesh. cbn. reported.
  - (* SpawnActorFromClass *)
    unfold actor_class, descends_from, resolve. intros Hnone.
    destruct h as [e l t]. cbn in Hnone.
    unfold SpawnActorFromClass. unfold_host.
    destruct (cast_in e TUClass (Names e !! ActorClassName)) as [c|] eqn:Hres.
    + destruct (cast_in_Some _ _ _ _ Hres) as (HN & o & Ho & HT).
      destruct o as [| | | | | | |kc|]; try done.
      rewrite Ho in Hnone.
      destruct (FString.StartsWith ActorClassName "/") eqn:Hs; [|done].
      destruct (bool_decide (AActor_StaticClass (Native e) ∈ StructBaseChain kc)) eqn:Hd;
        [done|].
      unfold resolve. exec. reported.
    + destruct (FString.StartsWith ActorClassName "/") eqn:Hs;
        unfold resolve; exec; reported.
  - (* FindActorByName *)
    intros [Hed Hnone]. destruct (FindActorByName_fails ActorName h Hed Hnone) as [l Hl].
    unfold bind. rewrite Hl. cbn. reported.
  - done.
  - (* SetActorMaterial *)
    intros [Hed Hnone]. destruct Material as [Material|].
    + destruct (FindActorByName_fails ActorName h Hed Hnone) as [l Hl].
      unfold SetActorMaterial, bind. rewrite Hl. cbn. reported.
    + cbn. reported.
  - (* SetActorMaterialByPath *)
    intros Hfail. unfold bind at 1. rewrite SetActorMaterialByPath_eq.
    destruct (resolve (TheEngine h) TUMaterialInterface (Names (TheEngine h)) MaterialPath)
      as [Material|] eqn:Hm.
    + destruct Hfail as [?|[Hed Hnone]]; [done|].
      destruct (FindActorByName_fails ActorName h Hed Hnone) as [l Hl].
      unfold SetActorMaterial, bind. rewrite Hl. cbn. reported.
    + cbn. reported.
  - intros [Hed Hnone]. by apply find_then_fails.
  - intros [Hed Hnone]. by apply find_then_fails.
  - intros [Hed Hnone]. by apply find_then_fails.
  - (* CreateGameModeWithPawn *)
    intros Hfail. unfold bind at 1. rewrite CreateGameModeWithPawn_eq.
    destruct (FString.IsEmpty GameModePath || FString.IsEmpty PawnBlueprintPath);
      [cbn; reported|].
    destruct (resolve (TheEngine h) TUBlueprint (Names (TheEngine h)) GameModePath);
      [cbn; reported|].
    destruct (game_mode_base (TheEngine h) BaseClassName) as [BaseClass|] eqn:Hbase;
      [|cbn; reported].
    destruct (pawn_class (TheEngine h) PawnBlueprintPath) as [PawnClass|] eqn:Hpawn;
      [|cbn; reported].
    exfalso. unfold game_mode_base in Hbase. unfold pawn_class in Hpawn.
    destruct Hfail as [Hf|Hf]; rewrite Hf in *; done.
Qed.
(** C2 (as amended).  Every function of the module, when the lookup of a
    named host object it needs fails, returns its failure sentinel after
    adding a line to the log.  [SpawnBasicShape] destroys the actor it has
    just spawned when the mesh of the shape does not load, and
    [SpawnStaticMeshActor] does so when the spawned actor has no static mesh
    component: the trace ends with the spawn and the destroy of that actor,
    which is left in no world.  No other function ever destroys an actor. *)
Theorem failed_lookups_abort_and_spawns_roll_back :
  (∀ op h, lookup_fails op (TheEngine h) → reports_failure h (invoke op h)) ∧
  (∀ ShapeName Location Rotation Scale ActorLabel h World w k,
     editor_world (TheEngine h) = Some (World, w) → heap_fresh (TheEngine h) →
     static_mesh_actor_class (TheEngine h) k →
     resolve (TheEngine h) TUStaticMesh (Names (TheEngine h)) (BasicShapePath ShapeName)
     = None →
     ∃ h', SpawnBasicShape ShapeName Location Rotation Scale ActorLabel h
           = Returned None h' ∧
           rolled_back World (NextObject (TheEngine h)) h h') ∧
  (∀ MeshPath Location Rotation Scale ActorLabel h World w k,
     editor_world (TheEngine h) = Some (World, w) → heap_fresh (TheEngine h) →
     static_mesh_actor_class (TheEngine h) k → bHasStaticMeshComponent k = false →
     is_Some (resolve (TheEngine h) TUStaticMesh (Names (TheEngine h)) MeshPath) →
     ∃ h', SpawnStaticMeshActor MeshPath Location Rotation Scale ActorLabel h
           = Returned None h' ∧
           rolled_back World (NextObject (TheEngine h)) h h') ∧
  (∀ op h a h', invoke op h = Returned a h' →
     ∃ calls, Trace h' = Trace h ++ calls ∧ Forall (may_issue op) calls).
Proof.
  split; [exact lookup_failure_reported|]. split; [|split].
  - intros ShapeName Location Rotation Scale ActorLabel h World w k Hw Hf Hk Hm.
    destruct (SpawnBasicShape_rolls_back ShapeName Location Rotation Scale ActorLabel
                h World w k Hw Hf Hk Hm) as (h' & Hrun & _ & Hback).
    by exists h'.
  - intros MeshPath Location Rotation Scale ActorLabel h World w k Hw Hf Hk Hc [Mesh Hm].
    destruct (SpawnStaticMeshActor_rolls_back MeshPath Location Rotation Scale ActorLabel
                h World w k Mesh Hw Hf Hk Hc Hm) as (h' & Hrun & _ & Hback).
    by exists h'.
  - intros op h a h'. apply Built_emits, Built_invoke.
Qed.

Lemma failed_lookups_abort_and_spawns_roll_back_witness :
  ∃ h', SpawnBasicShape "Blob" Sample.origin Sample.upright OneVector "" Sample.host
        = Returned None h' ∧
        rolled_back 4 10 Sample.host h'.
Proof.
  destruct failed_lookups_abort_and_spawns_roll_back as (_ & Hshape & _).
  apply (Hshape "Blob" Sample.origin Sample.upright OneVector "" Sample.host 4
           Sample.level
           {| ClassName := "StaticMeshActor"; StructBaseChain := [1; 0];
              ClassDefaultObject := None; bSpawnable := true;
              bDefaultRootComponent := true; bHasStaticMeshComponent := true |}).
  - reflexivity.
  - apply SampleFacts.heap_fresh_engine.
  - split; [reflexivity|]. split; [reflexivity|]. by vm_compute; right; left.
  - reflexivity.
Defined.

(** For a shape whose mesh does not load, [SpawnBasicShape] spawns an actor,
    destroys it, and returns null. *)
Lemma SpawnBasicShape_undoes_its_spawn :
  resolve (TheEngine Sample.host) TUStaticMesh (Names (TheEngine Sample.host))
    (BasicShapePath "Blob") = None ∧
  answer (SpawnBasicShape "Blob" Sample.origin Sample.upright OneVector "" Sample.host)
  = Some None ∧
  calls_of (SpawnBasicShape "Blob" Sample.origin Sample.upright OneVector "" Sample.host)
  = [CallSpawnActor 4 1 10; CallDestroy 10] ∧
  log_of (SpawnBasicShape "Blob" Sample.origin Sample.upright OneVector "" Sample.host)
  = [line Error "Failed to load static mesh at path: %s"
       [ArgText "/Engine/BasicShapes/Blob.Blob"]].
Proof. repeat split; by vm_compute. Qed.
End Failures.

Section Delegation.
Import UGenActorUtils.

(** C4.  [SetActorMaterialByPath] loads the material; when none loads it
    logs the failure and returns false, and otherwise its whole outcome -
    result, engine, log and trace - is that of [SetActorMaterial] on the
    same actor name and the loaded material. *)
Theorem SetActorMaterialByPath_delegates ActorName MaterialPath h :
  let loaded :=
    resolve (TheEngine h) TUMaterialInterface (Names (TheEngine h)) MaterialPath in
  LoadObject TUMaterialInterface MaterialPath h = Returned loaded h ∧
  match loaded with
  | Some Material =>
      SetActorMaterialByPath ActorName MaterialPath h
      = SetActorMaterial ActorName (Some Material) h
  | None =>
      SetActorMaterialByPath ActorName MaterialPath h
      = Returned false
          (add_log Error "Failed to load material at path '%s'" [ArgText MaterialPath] h)
  end.
Proof.
  intros loaded. split; [done|]. subst loaded. rewrite SetActorMaterialByPath_eq.
  by destruct (resolve (TheEngine h) TUMaterialInterface (Names (TheEngine h)) MaterialPath).
Qed.
End Delegation.

(** ** Failures are reported, not always by a sentinel *)

Section ErrorHandling.
Import UGenActorUtils.

(** C1 (as amended).  In every function of the module, a failed lookup of a
    named host object the function needs is answered by the failure sentinel,
    after a line is added to the log.  [CreateMaterial] checks the creation of
    the package and of the material object at once: when no material of that
    name is loaded, it returns null exactly when no package can be had or the
    material object cannot be created, and it has then logged an error.  When
    the colour expression cannot be connected to the base colour, or the
    package cannot be saved, it logs an error and returns the new material
    all the same: a material that is returned says nothing about these two
    steps.  (For [CreateMaterial], the free addresses of the host are free.) *)
Theorem failures_reported_and_CreateMaterial_keeps_its_material :
  (∀ op h, lookup_fails op (TheEngine h) → reports_failure h (invoke op h)) ∧
  (∀ MaterialName Color h,
     let e := TheEngine h in
     heap_fresh e →
     existing_material e MaterialName = None →
     ∃ r h', CreateMaterial MaterialName Color h = Returned r h' ∧
       (r = None ↔ ¬ package_at_hand e MaterialName ∨ canCreateObject (Conduct e) = false) ∧
       (r = None → ∃ l, Verbosity l = Error ∧ l ∈ LogTemp h') ∧
       (r ≠ None → canCreateExpression (Conduct e) = true →
        canConnectProperty (Conduct e) = false →
        line Error "Failed to connect material property" [] ∈ LogTemp h') ∧
       (r ≠ None → canSavePackage (Conduct e) = false →
        line Error "Failed to save material '%s'" [ArgText MaterialName] ∈ LogTemp h')).
Proof.
  split; [exact lookup_failure_reported|].
  intros MaterialName Color h e Hfresh Hnone. by apply CreateMaterial_null_exactly.
Qed.

Lemma failures_reported_and_CreateMaterial_keeps_its_material_witness :
  ∃ r h', CreateMaterial "Red" Sample.red Sample.failing_host = Returned r h' ∧
    r ≠ None ∧
    line Error "Failed to save material '%s'" [ArgText "Red"] ∈ LogTemp h'.
Proof.
  destruct (proj2 failures_reported_and_CreateMaterial_keeps_its_material
              "Red" Sample.red Sample.failing_host
              (SampleFacts.heap_fresh_engine _) eq_refl)
    as (r & h' & Hrun & Hnull & _ & _ & Hsave).
  exists r, h'. split; [exact Hrun|].
  assert (r ≠ None) as Hr.
  { intros Hn. apply Hnull in Hn. destruct Hn as [Hn|Hn]; [|discriminate Hn].
    apply Hn. by right. }
  split; [exact Hr|]. by apply Hsave.
Defined.

End ErrorHandling.

(** * Further properties *)

(** ** Spawning: what a successful call leaves behind *)

Section SpawnTheorems.
Import UGenActorUtils.

Lemma resolve_Some e T table path id :
  resolve e T table path = Some id →
  table !! path = Some id ∧ ∃ o, Objects e !! id = Some o ∧ IsA o T = true.
Proof.
  unfold resolve. intros H. destruct (cast_in_Some _ _ _ _ H) as (-> & o & Ho & HT). eauto.
Qed.

Ltac spawned_post :=
  unfold spawned; cbn; eexists _, _; exec;
  repeat match goal with
    | |- _ ∧ _ => split
    end;
  try reflexivity;
  try (intros p ? ?; by rewrite !lookup_insert_ne by done).

Lemma SpawnBasicShape_run ShapeName Location Rotation Scale ActorLabel h World w k Mesh :
  let e := TheEngine h in
  let Class := AStaticMeshActor_StaticClass (Native e) in
  let Actor := NextObject e in
  editor_world e = Some (World, w) → heap_fresh e →
  spawnable_class e Class k → bHasStaticMeshComponent k = true →
  resolve e TUStaticMesh (Names e) (BasicShapePath ShapeName) = Some Mesh →
  ∃ h',
    SpawnBasicShape ShapeName Location Rotation Scale ActorLabel h
    = Returned (Some Actor) h' ∧
    LogTemp h' = LogTemp h ∧
    Trace h' = Trace h ++
      CallSpawnActor World Class Actor :: CallSetStaticMesh Actor Mesh ::
      placing_calls Actor Scale ActorLabel ∧
    spawned World Class Actor k w Location Rotation Scale ActorLabel
      (Some {| StaticMesh := Some Mesh; OverrideMaterials := [] |}) h h'.
Proof.
  intros e Class Actor Hworld Hfresh (Hk & Hspawn & Hactor) Hcomp Hmesh.
  destruct h as [e0 l t]. cbn in e. subst e Class Actor.
  destruct (editor_world_Some _ _ _ Hworld) as [Hed HW].
  destruct (resolve_Some _ _ _ _ _ Hmesh) as (HN & o & Ho & HT).
  pose proof (fresh_lt _ _ _ Hfresh HW) as HWlt.
  pose proof (fresh_lt _ _ _ Hfresh Hk) as Hklt.
  pose proof (fresh_lt _ _ _ Hfresh Ho) as Holt.
  assert (World ≠ Mesh) as HWM by (intros ->; rewrite HW in Ho; by injection Ho as <-).
  assert (bool_decide (AActor_StaticClass (Native e0) ∈ StructBaseChain k) = true) as Hdec
    by (by apply bool_decide_eq_true_2).
  unfold SpawnBasicShape, placing_calls. fold (BasicShapePath ShapeName).
  unfold_host.
  destruct (FString.IsEmpty ActorLabel) eqn:Hl; destruct (bDefaultRootComponent k) eqn:Hroot;
    exec; (eexists; split; [reflexivity|]; cbn; split; [reflexivity|];
           split; [by rewrite <- ?app_assoc|]).
  all: spawned_post.
Qed.

Lemma SpawnStaticMeshActor_run MeshPath Location Rotation Scale ActorLabel h World w k Mesh :
  let e := TheEngine h in
  let Class := AStaticMeshActor_StaticClass (Native e) in
  let Actor := NextObject e in
  editor_world e = Some (World, w) → heap_fresh e →
  spawnable_class e Class k → bHasStaticMeshComponent k = true →
  resolve e TUStaticMesh (Names e) MeshPath = Some Mesh →
  ∃ h',
    SpawnStaticMeshActor MeshPath Location Rotation Scale ActorLabel h
    = Returned (Some Actor) h' ∧
    LogTemp h' = LogTemp h ++
      [line Log "Spawned StaticMeshActor with mesh %s labeled %s"
         [ArgText MeshPath; ArgText ActorLabel]] ∧
    Trace h' = Trace h ++
      CallSpawnActor World Class Actor :: CallSetStaticMesh Actor Mesh ::
      placing_calls Actor Scale ActorLabel ∧
    spawned World Class Actor k w Location Rotation Scale ActorLabel
      (Some {| StaticMesh := Some Mesh; OverrideMaterials := [] |}) h h'.
Proof.
  intros e Class Actor Hworld Hfresh (Hk & Hspawn & Hactor) Hcomp Hmesh.
  destruct h as [e0 l t]. cbn in e. subst e Class Actor.
  destruct (editor_world_Some _ _ _ Hworld) as [Hed HW].
  destruct (resolve_Some _ _ _ _ _ Hmesh) as (HN & o & Ho & HT).
  pose proof (fresh_lt _ _ _ Hfresh HW) as HWlt.
  pose proof (fresh_lt _ _ _ Hfresh Hk) as Hklt.
  pose proof (fresh_lt _ _ _ Hfresh Ho) as Holt.
  assert (bool_decide (AActor_StaticClass (Native e0) ∈ StructBaseChain k) = true) as Hdec
    by (by apply bool_decide_eq_true_2).
  unfold SpawnStaticMeshActor, placing_calls.
  unfold_host.
  destruct (FString.IsEmpty ActorLabel) eqn:Hl; destruct (bDefaultRootComponent k) eqn:Hroot;
    exec; (eexists; split; [reflexivity|]; cbn; split; [reflexivity|];
           split; [by rewrite <- ?app_assoc|]).
  all: spawned_post.
Qed.

Lemma SpawnActorFromClass_run ActorClassName Location Rotation Scale ActorLabel h
    World w Class k :
  let e := TheEngine h in
  let Actor := NextObject e in
  editor_world e = Some (World, w) → heap_fresh e →
  resolve e TUClass (Names e) ActorClassName = Some Class →
  spawnable_class e Class k →
  ∃ h',
    SpawnActorFromClass ActorClassName Location Rotation Scale ActorLabel h
    = Returned (Some Actor) h' ∧
    LogTemp h' = LogTemp h ∧
    Trace h' = Trace h ++
      CallSpawnActor World Class Actor :: placing_calls Actor Scale ActorLabel ∧
    spawned World Class Actor k w Location Rotation Scale ActorLabel
      (if bHasStaticMeshComponent k
       then Some {| StaticMesh := None; OverrideMaterials := [] |} else None) h h'.
Proof.
  intros e Actor Hworld Hfresh Hclass (Hk & Hspawn & Hactor).
  destruct h as [e0 l t]. cbn in e. subst e Actor.
  destruct (editor_world_Some _ _ _ Hworld) as [Hed HW].
  destruct (resolve_Some _ _ _ _ _ Hclass) as (HN & _).
  pose proof (fresh_lt _ _ _ Hfresh HW) as HWlt.
  pose proof (fresh_lt _ _ _ Hfresh Hk) as Hklt.
  assert (bool_decide (AActor_StaticClass (Native e0) ∈ StructBaseChain k) = true) as Hdec
    by (by apply bool_decide_eq_true_2).
  unfold SpawnActorFromClass, placing_calls.
  unfold_host.
  destruct (FString.StartsWith ActorClassName "/") eqn:Hs;
  destruct (FString.IsEmpty ActorLabel) eqn:Hl; destruct (bDefaultRootComponent k) eqn:Hroot;
    exec; (eexists; split; [reflexivity|]; cbn; split; [reflexivity|];
           split; [by rewrite <- ?app_assoc|]).
  all: spawned_post.
Qed.

(** X1.  With an editor world, a spawnable static mesh actor class whose
    instances carry a static mesh component, and a mesh that loads from
    [/Engine/BasicShapes/<ShapeName>.<ShapeName>], [SpawnBasicShape] returns
    the new actor and logs nothing.  It calls, in this order, [SpawnActor],
    [SetStaticMesh], [SetActorScale3D] and, only when the label is not empty,
    [SetActorLabel].  The actor is at the location and rotation given, shows
    the mesh, has the scale when it has a root component and the label when
    one was given (its default label otherwise), and is the last actor of the
    world; no other object changes. *)
Theorem SpawnBasicShape_spawns ShapeName Location Rotation Scale ActorLabel h World w k Mesh :
  let e := TheEngine h in
  let Class := AStaticMeshActor_StaticClass (Native e) in
  let Actor := NextObject e in
  editor_world e = Some (World, w) → heap_fresh e →
  spawnable_class e Class k → bHasStaticMeshComponent k = true →
  resolve e TUStaticMesh (Names e) (BasicShapePath ShapeName) = Some Mesh →
  ∃ h',
    SpawnBasicShape ShapeName Location Rotation Scale ActorLabel h
    = Returned (Some Actor) h' ∧
    LogTemp h' = LogTemp h ∧
    Trace h' = Trace h ++
      CallSpawnActor World Class Actor :: CallSetStaticMesh Actor Mesh ::
      placing_calls Actor Scale ActorLabel ∧
    spawned World Class Actor k w Location Rotation Scale ActorLabel
      (Some {| StaticMesh := Some Mesh; OverrideMaterials := [] |}) h h'.
Proof. apply SpawnBasicShape_run. Qed.

Lemma SpawnBasicShape_spawns_witness :
  ∃ h',
    SpawnBasicShape "Cube" Sample.origin Sample.upright OneVector "Box" Sample.host
    = Returned (Some 10) h' ∧
    LogTemp h' = [] ∧
    Trace h' = [CallSpawnActor 4 1 10; CallSetStaticMesh 10 5;
                CallSetActorScale3D 10 OneVector; CallSetActorLabel 10 "Box"].
Proof.
  destruct (SpawnBasicShape_spawns "Cube" Sample.origin Sample.upright OneVector "Box"
              Sample.host 4 Sample.level Scenes.static_mesh_actor 5)
    as (h' & Hrun & Hlog & Htrace & _).
  - reflexivity.
  - apply SampleFacts.heap_fresh_engine.
  - split; [reflexivity|]. split; [reflexivity|]. by vm_compute; right; left.
  - reflexivity.
  - reflexivity.
  - exists h'. split; [exact Hrun|]. split; [exact Hlog|exact Htrace].
Defined.

(** X2.  With a mesh that loads from [MeshPath], an editor world and a
    spawnable static mesh actor class with a static mesh component,
    [SpawnStaticMeshActor] returns the new actor, having called [SpawnActor],
    [SetStaticMesh], [SetActorScale3D] and, for a label that is not empty,
    [SetActorLabel]; it logs one line, naming the mesh path and the label as
    given (also when the label is empty and the actor keeps its default
    label). *)
Theorem SpawnStaticMeshActor_spawns MeshPath Location Rotation Scale ActorLabel h
    World w k Mesh :
  let e := TheEngine h in
  let Class := AStaticMeshActor_StaticClass (Native e) in
  let Actor := NextObject e in
  editor_world e = Some (World, w) → heap_fresh e →
  spawnable_class e Class k → bHasStaticMeshComponent k = true →
  resolve e TUStaticMesh (Names e) MeshPath = Some Mesh →
  ∃ h',
    SpawnStaticMeshActor MeshPath Location Rotation Scale ActorLabel h
    = Returned (Some Actor) h' ∧
    LogTemp h' = LogTemp h ++
      [line Log "Spawned StaticMeshActor with mesh %s labeled %s"
         [ArgText MeshPath; ArgText ActorLabel]] ∧
    Trace h' = Trace h ++
      CallSpawnActor World Class Actor :: CallSetStaticMesh Actor Mesh ::
      placing_calls Actor Scale ActorLabel ∧
    spawned World Class Actor k w Location Rotation Scale ActorLabel
      (Some {| StaticMesh := Some Mesh; OverrideMaterials := [] |}) h h'.
Proof. apply SpawnStaticMeshActor_run. Qed.

Lemma SpawnStaticMeshActor_spawns_witness :
  ∃ h',
    SpawnStaticMeshActor "/Engine/BasicShapes/Cube.Cube" Sample.origin Sample.upright
      OneVector "" Sample.host
    = Returned (Some 10) h' ∧
    LogTemp h' = [line Log "Spawned StaticMeshActor with mesh %s labeled %s"
                    [ArgText "/Engine/BasicShapes/Cube.Cube"; ArgText ""]] ∧
    Trace h' = [CallSpawnActor 4 1 10; CallSetStaticMesh 10 5;
                CallSetActorScale3D 10 OneVector].
Proof.
  destruct (SpawnStaticMeshActor_spawns "/Engine/BasicShapes/Cube.Cube" Sample.origin
              Sample.upright OneVector "" Sample.host 4 Sample.level
              Scenes.static_mesh_actor 5)
    as (h' & Hrun & Hlog & Htrace & _).
  - reflexivity.
  - apply SampleFacts.heap_fresh_engine.
  - split; [reflexivity|]. split; [reflexivity|]. by vm_compute; right; left.
  - reflexivity.
  - reflexivity.
  - exists h'. split; [exact Hrun|]. split; [exact Hlog|exact Htrace].
Defined.

(** X3.  When the class name resolves - as a path or as a bare name - to a
    spawnable actor class and the editor has a world, [SpawnActorFromClass]
    returns the new actor of that class and logs nothing: it calls
    [SpawnActor] with the class, then [SetActorScale3D], then, for a label
    that is not empty, [SetActorLabel].  The actor comes with the components
    of its class; no mesh is set. *)
Theorem SpawnActorFromClass_spawns ActorClassName Location Rotation Scale ActorLabel h
    World w Class k :
  let e := TheEngine h in
  let Actor := NextObject e in
  editor_world e = Some (World, w) → heap_fresh e →
  resolve e TUClass (Names e) ActorClassName = Some Class →
  spawnable_class e Class k →
  ∃ h',
    SpawnActorFromClass ActorClassName Location Rotation Scale ActorLabel h
    = Returned (Some Actor) h' ∧
    LogTemp h' = LogTemp h ∧
    Trace h' = Trace h ++
      CallSpawnActor World Class Actor :: placing_calls Actor Scale ActorLabel ∧
    spawned World Class Actor k w Location Rotation Scale ActorLabel
      (if bHasStaticMeshComponent k
       then Some {| StaticMesh := None; OverrideMaterials := [] |} else None) h h'.
Proof. apply SpawnActorFromClass_run. Qed.

Lemma SpawnActorFromClass_spawns_witness :
  ∃ h',
    SpawnActorFromClass "GameModeBase" Sample.origin Sample.upright OneVector "Rules"
      Sample.host
    = Returned (Some 10) h' ∧
    LogTemp h' = [] ∧
    Trace h' = [CallSpawnActor 4 2 10; CallSetActorScale3D 10 OneVector;
                CallSetActorLabel 10 "Rules"].
Proof.
  destruct (SpawnActorFromClass_spawns "GameModeBase" Sample.origin Sample.upright
              OneVector "Rules" Sample.host 4 Sample.level 2 Scenes.game_mode_base)
    as (h' & Hrun & Hlog & Htrace & _).
  - reflexivity.
  - apply SampleFacts.heap_fresh_engine.
  - reflexivity.
  - split; [reflexivity|]. split; [reflexivity|]. by vm_compute; right; left.
  - exists h'. split; [exact Hrun|]. split; [exact Hlog|exact Htrace].
Defined.

(** X4.  Where both succeed, [SpawnBasicShape] on a shape name is
    [SpawnStaticMeshActor] on the path of that shape: the two return the same
    actor, leave the same engine and issue the same calls; only
    [SpawnStaticMeshActor] logs the spawn. *)
Theorem SpawnBasicShape_as_SpawnStaticMeshActor
    ShapeName Location Rotation Scale ActorLabel h World w k Mesh :
  let e := TheEngine h in
  editor_world e = Some (World, w) → heap_fresh e →
  spawnable_class e (AStaticMeshActor_StaticClass (Native e)) k →
  bHasStaticMeshComponent k = true →
  resolve e TUStaticMesh (Names e) (BasicShapePath ShapeName) = Some Mesh →
  ∃ h1 h2,
    SpawnBasicShape ShapeName Location Rotation Scale ActorLabel h
    = Returned (Some (NextObject e)) h1 ∧
    SpawnStaticMeshActor (BasicShapePath ShapeName) Location Rotation Scale ActorLabel h
    = Returned (Some (NextObject e)) h2 ∧
    TheEngine h1 = TheEngine h2 ∧ Trace h1 = Trace h2 ∧
    LogTemp h1 = LogTemp h ∧
    LogTemp h2 = LogTemp h ++
      [line Log "Spawned StaticMeshActor with mesh %s labeled %s"
         [ArgText (BasicShapePath ShapeName); ArgText ActorLabel]].
Proof.
  intros e Hworld Hfresh (Hk & Hspawn & Hactor) Hcomp Hmesh.
  destruct h as [e0 l t]. cbn in e. subst e.
  destruct (editor_world_Some _ _ _ Hworld) as [Hed HW].
  destruct (resolve_Some _ _ _ _ _ Hmesh) as (HN & o & Ho & HT).
  pose proof (fresh_lt _ _ _ Hfresh HW) as HWlt.
  pose proof (fresh_lt _ _ _ Hfresh Hk) as Hklt.
  pose proof (fresh_lt _ _ _ Hfresh Ho) as Holt.
  assert (World ≠ Mesh) as HWM by (intros ->; rewrite HW in Ho; by injection Ho as <-).
  assert (bool_decide (AActor_StaticClass (Native e0) ∈ StructBaseChain k) = true) as Hdec
    by (by apply bool_decide_eq_true_2).
  unfold SpawnBasicShape, SpawnStaticMeshActor. fold (BasicShapePath ShapeName).
  unfold_host.
  destruct (FString.IsEmpty ActorLabel) eqn:Hl; destruct (bDefaultRootComponent k) eqn:Hroot;
    exec; eexists _, _; (split; [reflexivity|]); (split; [reflexivity|]); done.
Qed.

Lemma SpawnBasicShape_as_SpawnStaticMeshActor_witness :
  ∃ h1 h2,
    SpawnBasicShape "Cube" Sample.origin Sample.upright OneVector "Box" Sample.host
    = Returned (Some 10) h1 ∧
    SpawnStaticMeshActor "/Engine/BasicShapes/Cube.Cube" Sample.origin Sample.upright
      OneVector "Box" Sample.host
    = Returned (Some 10) h2 ∧
    TheEngine h1 = TheEngine h2 ∧ Trace h1 = Trace h2.
Proof.
  destruct (SpawnBasicShape_as_SpawnStaticMeshActor "Cube" Sample.origin Sample.upright
              OneVector "Box" Sample.host 4 Sample.level Scenes.static_mesh_actor 5)
    as (h1 & h2 & Hrun1 & Hrun2 & He & Ht & _).
  - reflexivity.
  - apply SampleFacts.heap_fresh_engine.
  - split; [reflexivity|]. split; [reflexivity|]. by vm_compute; right; left.
  - reflexivity.
  - reflexivity.
  - exists h1, h2. split; [exact Hrun1|]. split; [exact Hrun2|]. split; [exact He|exact Ht].
Defined.
End SpawnTheorems.

(** ** Spawning: failures before an actor exists *)

Section SpawnFailureTheorems.
Import UGenActorUtils.

Lemma SpawnActor_refused World w Class Location Rotation h :
  Objects (TheEngine h) !! World = Some (ObjWorld w) →
  (∀ k, ¬ spawnable_class (TheEngine h) Class k) →
  UWorld_SpawnActor World Class Location Rotation h = Returned None h.
Proof.
  intros HW Hno. unfold UWorld_SpawnActor, the_world, bind at 1 2, gets at 1. rewrite HW.
  cbv beta iota. unfold ret at 1. cbv beta iota.
  unfold bind at 1, gets at 1. unfold bind at 1, gets at 1.
  destruct (Objects (TheEngine h) !! Class) as [[| | | | | | |k|]|] eqn:Hk; try done.
  destruct (bSpawnable k) eqn:Hs; [|done].
  destruct (bool_decide (AActor_StaticClass (Native (TheEngine h)) ∈ StructBaseChain k)) eqn:Hd;
    [|done].
  destruct (Hno k). split; [done|]. split; [done|]. by apply bool_decide_eq_true in Hd.
Qed.

Lemma World_of_editor h ue :
  GEditor (TheEngine h) = Some ue →
  GEditor_GetEditorWorldContext_World h = Returned (EditorWorld ue) h.
Proof. intros Hed. unfold GEditor_GetEditorWorldContext_World, bind, gets. by rewrite Hed. Qed.

Lemma World_without_editor h :
  GEditor (TheEngine h) = None → GEditor_GetEditorWorldContext_World h = Crashed.
Proof. intros Hed. unfold GEditor_GetEditorWorldContext_World, bind, gets. by rewrite Hed. Qed.

(** [SpawnActorFromClass] up to the test of the class. *)
Lemma SpawnActorFromClass_class ActorClassName Location Rotation Scale ActorLabel h :
  let e := TheEngine h in
  SpawnActorFromClass ActorClassName Location Rotation Scale ActorLabel h =
  match actor_class e ActorClassName with
  | None =>
      Returned None
        (add_log Error
           (if FString.StartsWith ActorClassName "/"
            then "Could not load actor class from: %s"
            else "Could not find actor class: %s")
           [ArgText ActorClassName] h)
  | Some ActorClass =>
      (let* World := GEditor_GetEditorWorldContext_World in
       match World with
       | None =>
           UE_LOG Error "Failed to get editor world" [];;
           ret None
       | Some World =>
           let* Actor := UWorld_SpawnActor World ActorClass Location Rotation in
           match Actor with
           | None =>
               UE_LOG Error "Failed to spawn actor of class: %s" [ArgText ActorClassName];;
               ret None
           | Some Actor =>
               AActor_SetActorScale3D Actor Scale;;
               (if negb (FString.IsEmpty ActorLabel)
                then AActor_SetActorLabel Actor ActorLabel
                else ret tt);;
               ret (Some Actor)
           end
       end) h
  end.
Proof.
  intros e. unfold SpawnActorFromClass, actor_class, descends_from. fold e.
  destruct (FString.StartsWith ActorClassName "/") eqn:Hs.
  - unfold bind at 1, TryLoadClass_AActor, bind at 1, gets at 1. fold e.
    destruct (resolve e TUClass (Names e) ActorClassName) as [c|] eqn:Hc; [|done].
    destruct (resolve_Some _ _ _ _ _ Hc) as (_ & o & Ho & HT).
    destruct o as [| | | | | | |k|]; try done.
    unfold bind at 1, gets at 1. unfold bind at 1.
    rewrite (IsChildOf_eq _ _ _ _ Ho). unfold descends_from. fold e. rewrite Ho.
    unfold ret at 1.
    by destruct (bool_decide (AActor_StaticClass (Native e) ∈ StructBaseChain k)).
  - unfold bind at 1, FindObject_AnyPackage, gets at 1. fold e.
    by destruct (resolve e TUClass (Names e) ActorClassName).
Qed.

(** X5.  [SpawnStaticMeshActor] and [SpawnActorFromClass] look their asset
    up before they touch the editor: when the mesh does not load, or the class
    is not found, the call returns null on any host - with or without an
    editor - leaving engine and trace as they are and adding one error line.
    For a class, the line tells a path (a name starting with a slash, loaded
    as an actor class) from a bare name (found among all packages). *)
Theorem spawners_fail_on_lookup h :
  let e := TheEngine h in
  (∀ MeshPath Location Rotation Scale ActorLabel,
     resolve e TUStaticMesh (Names e) MeshPath = None →
     SpawnStaticMeshActor MeshPath Location Rotation Scale ActorLabel h
     = Returned None
         (add_log Error "Could not load static mesh from: %s" [ArgText MeshPath] h)) ∧
  (∀ ActorClassName Location Rotation Scale ActorLabel,
     actor_class e ActorClassName = None →
     SpawnActorFromClass ActorClassName Location Rotation Scale ActorLabel h
     = Returned None
         (add_log Error
            (if FString.StartsWith ActorClassName "/"
             then "Could not load actor class from: %s"
             else "Could not find actor class: %s")
            [ArgText ActorClassName] h)).
Proof.
  intros e. split.
  - intros MeshPath Location Rotation Scale ActorLabel Hmesh.
    unfold SpawnStaticMeshActor, LoadObject, bind at 1, gets at 1. fold e. by rewrite Hmesh.
  - intros ActorClassName Location Rotation Scale ActorLabel Hclass.
    rewrite SpawnActorFromClass_class. fold e. by rewrite Hclass.
Qed.

Lemma spawners_fail_on_lookup_witness :
  SpawnStaticMeshActor "/Game/Meshes/Barrel" Sample.origin Sample.upright OneVector ""
    Scenes.no_editor
  = Returned None
      (add_log Error "Could not load static mesh from: %s" [ArgText "/Game/Meshes/Barrel"]
         Scenes.no_editor) ∧
  SpawnActorFromClass "/Game/BP_Pawn" Sample.origin Sample.upright OneVector ""
    Scenes.no_editor
  = Returned None
      (add_log Error "Could not load actor class from: %s" [ArgText "/Game/BP_Pawn"]
         Scenes.no_editor) ∧
  SpawnActorFromClass "Barrel" Sample.origin Sample.upright OneVector "" Scenes.no_editor
  = Returned None
      (add_log Error "Could not find actor class: %s" [ArgText "Barrel"] Scenes.no_editor).
Proof.
  destruct (spawners_fail_on_lookup Scenes.no_editor) as [Hmesh Hclass].
  split; [|split].
  - apply (Hmesh "/Game/Meshes/Barrel"). reflexivity.
  - apply (Hclass "/Game/BP_Pawn"). reflexivity.
  - apply (Hclass "Barrel"). reflexivity.
Defined.

(** X6.  When the editor has no world, each of the three spawning functions
    returns null after the one error line "Failed to get editor world", and
    changes neither engine nor trace ([SpawnStaticMeshActor] and
    [SpawnActorFromClass] once their mesh or class was found). *)
Theorem spawners_fail_without_world h ue :
  let e := TheEngine h in
  GEditor e = Some ue → EditorWorld ue = None →
  let failed := Returned None (add_log Error "Failed to get editor world" [] h) in
  (∀ ShapeName Location Rotation Scale ActorLabel,
     SpawnBasicShape ShapeName Location Rotation Scale ActorLabel h = failed) ∧
  (∀ MeshPath Location Rotation Scale ActorLabel,
     is_Some (resolve e TUStaticMesh (Names e) MeshPath) →
     SpawnStaticMeshActor MeshPath Location Rotation Scale ActorLabel h = failed) ∧
  (∀ ActorClassName Location Rotation Scale ActorLabel,
     is_Some (actor_class e ActorClassName) →
     SpawnActorFromClass ActorClassName Location Rotation Scale ActorLabel h = failed).
Proof.
  intros e Hed Hworld failed. subst failed. split; [|split].
  - intros. unfold SpawnBasicShape, bind at 1. rewrite (World_of_editor _ _ Hed), Hworld. done.
  - intros MeshPath Location Rotation Scale ActorLabel [Mesh Hmesh].
    unfold SpawnStaticMeshActor, LoadObject, bind at 1, gets at 1. fold e. rewrite Hmesh.
    unfold bind at 1. rewrite (World_of_editor _ _ Hed), Hworld. done.
  - intros ActorClassName Location Rotation Scale ActorLabel [Class Hclass].
    rewrite SpawnActorFromClass_class. fold e. rewrite Hclass.
    unfold bind at 1. rewrite (World_of_editor _ _ Hed), Hworld. done.
Qed.

Lemma spawners_fail_without_world_witness :
  SpawnBasicShape "Cube" Sample.origin Sample.upright OneVector "Box" Scenes.no_world
  = Returned None (add_log Error "Failed to get editor world" [] Scenes.no_world) ∧
  SpawnActorFromClass "StaticMeshActor" Sample.origin Sample.upright OneVector "Box"
    Scenes.no_world
  = Returned None (add_log Error "Failed to get editor world" [] Scenes.no_world).
Proof.
  destruct (spawners_fail_without_world Scenes.no_world {| EditorWorld := None |}
              eq_refl eq_refl) as (Hshape & _ & Hclass).
  split.
  - apply Hshape.
  - apply Hclass. exists 1. reflexivity.
Defined.

(** X7.  When the world refuses to spawn - the class is no live, spawnable
    actor class - the spawning functions return null after one error line and
    change neither engine nor trace.  A class found by its bare name is not
    tested for being an actor class before the spawn: it fails here, with
    "Failed to spawn actor of class". *)
Theorem spawners_fail_when_refused h World w :
  let e := TheEngine h in
  editor_world e = Some (World, w) →
  (∀ ShapeName Location Rotation Scale ActorLabel,
     (∀ k, ¬ spawnable_class e (AStaticMeshActor_StaticClass (Native e)) k) →
     SpawnBasicShape ShapeName Location Rotation Scale ActorLabel h
     = Returned None (add_log Error "Failed to spawn StaticMeshActor" [] h)) ∧
  (∀ MeshPath Location Rotation Scale ActorLabel,
     is_Some (resolve e TUStaticMesh (Names e) MeshPath) →
     (∀ k, ¬ spawnable_class e (AStaticMeshActor_StaticClass (Native e)) k) →
     SpawnStaticMeshActor MeshPath Location Rotation Scale ActorLabel h
     = Returned None (add_log Error "Failed to spawn StaticMeshActor" [] h)) ∧
  (∀ ActorClassName Location Rotation Scale ActorLabel Class,
     actor_class e ActorClassName = Some Class →
     (∀ k, ¬ spawnable_class e Class k) →
     SpawnActorFromClass ActorClassName Location Rotation Scale ActorLabel h
     = Returned None
         (add_log Error "Failed to spawn actor of class: %s" [ArgText ActorClassName] h)).
Proof.
  intros e Hworld. destruct (editor_world_Some _ _ _ Hworld) as [Hed HW].
  split; [|split].
  - intros ShapeName Location Rotation Scale ActorLabel Hno.
    unfold SpawnBasicShape, bind at 1. rewrite (World_of_editor _ _ Hed). cbn [EditorWorld].
    unfold bind at 1, gets at 1. unfold bind at 1.
    by rewrite (SpawnActor_refused _ w).
  - intros MeshPath Location Rotation Scale ActorLabel [Mesh Hmesh] Hno.
    unfold SpawnStaticMeshActor, LoadObject, bind at 1, gets at 1. fold e. rewrite Hmesh.
    unfold bind at 1. rewrite (World_of_editor _ _ Hed). cbn [EditorWorld].
    unfold bind at 1, gets at 1. unfold bind at 1.
    by rewrite (SpawnActor_refused _ w).
  - intros ActorClassName Location Rotation Scale ActorLabel Class Hclass Hno.
    rewrite SpawnActorFromClass_class. fold e. rewrite Hclass.
    unfold bind at 1. rewrite (World_of_editor _ _ Hed). cbn [EditorWorld].
    unfold bind at 1.
    by rewrite (SpawnActor_refused _ w).
Qed.

Lemma spawners_fail_when_refused_witness :
  actor_class (TheEngine Scenes.with_material_class) "Material" = Some 10 ∧
  SpawnActorFromClass "Material" Sample.origin Sample.upright OneVector ""
    Scenes.with_material_class
  = Returned None
      (add_log Error "Failed to spawn actor of class: %s" [ArgText "Material"]
         Scenes.with_material_class).
Proof.
  split; [reflexivity|].
  destruct (spawners_fail_when_refused Scenes.with_material_class 4 Sample.level eq_refl)
    as (_ & _ & Hclass).
  apply (Hclass "Material" Sample.origin Sample.upright OneVector "" 10 eq_refl).
  intros k (Hk & Hs & _).
  assert (Some (ObjClass Scenes.material_class) = Some (ObjClass k)) as [= <-]
    by (rewrite <- Hk; reflexivity).
  discriminate Hs.
Defined.

(** X8.  [GEditor] is dereferenced without a test.  Without an editor,
    [SpawnBasicShape], [FindActorByName], the three transform setters and
    [SetActorMaterial] (given a material) do not return; nor do
    [SpawnStaticMeshActor] and [SpawnActorFromClass] once their mesh or class
    was found. *)
Theorem no_editor_no_return h :
  let e := TheEngine h in
  GEditor e = None →
  (∀ ShapeName Location Rotation Scale ActorLabel,
     SpawnBasicShape ShapeName Location Rotation Scale ActorLabel h = Crashed) ∧
  (∀ MeshPath Location Rotation Scale ActorLabel,
     is_Some (resolve e TUStaticMesh (Names e) MeshPath) →
     SpawnStaticMeshActor MeshPath Location Rotation Scale ActorLabel h = Crashed) ∧
  (∀ ActorClassName Location Rotation Scale ActorLabel,
     is_Some (actor_class e ActorClassName) →
     SpawnActorFromClass ActorClassName Location Rotation Scale ActorLabel h = Crashed) ∧
  (∀ ActorName, FindActorByName ActorName h = Crashed) ∧
  (∀ ActorName Material, SetActorMaterial ActorName (Some Material) h = Crashed) ∧
  (∀ ActorName Position, SetActorPosition ActorName Position h = Crashed) ∧
  (∀ ActorName Rotation, SetActorRotation ActorName Rotation h = Crashed) ∧
  (∀ ActorName Scale, SetActorScale ActorName Scale h = Crashed).
Proof.
  intros e Hed.
  assert (∀ ActorName, FindActorByName ActorName h = Crashed) as Hfind.
  { intros ActorName. rewrite FindActorByName_eq. fold e. by rewrite Hed. }
  repeat split.
  - intros. unfold SpawnBasicShape, bind at 1. by rewrite (World_without_editor _ Hed).
  - intros MeshPath Location Rotation Scale ActorLabel [Mesh Hmesh].
    unfold SpawnStaticMeshActor, LoadObject, bind at 1, gets at 1. fold e. rewrite Hmesh.
    unfold bind at 1. by rewrite (World_without_editor _ Hed).
  - intros ActorClassName Location Rotation Scale ActorLabel [Class Hclass].
    rewrite SpawnActorFromClass_class. fold e. rewrite Hclass.
    unfold bind at 1. by rewrite (World_without_editor _ Hed).
  - done.
  - intros. unfold SetActorMaterial, bind at 1. by rewrite Hfind.
  - intros. unfold SetActorPosition, bind at 1. by rewrite Hfind.
  - intros. unfold SetActorRotation, bind at 1. by rewrite Hfind.
  - intros. unfold SetActorScale, bind at 1. by rewrite Hfind.
Qed.

Lemma no_editor_no_return_witness :
  FindActorByName "Crate" Scenes.no_editor = Crashed ∧
  SetActorPosition "Crate" OneVector Scenes.no_editor = Crashed ∧
  SpawnStaticMeshActor "/Engine/BasicShapes/Cube.Cube" Sample.origin Sample.upright
    OneVector "" Scenes.no_editor = Crashed.
Proof.
  destruct (no_editor_no_return Scenes.no_editor eq_refl)
    as (_ & Hmesh & _ & Hfind & _ & Hposition & _).
  split; [apply Hfind|]. split; [apply Hposition|].
  apply Hmesh. exists 5. reflexivity.
Defined.
End SpawnFailureTheorems.

(** ** Finding: a query, first match first *)

Section FindTheorems.
Import UGenActorUtils.

Lemma find_by_label_app e ActorName l1 l2 :
  find_by_label e ActorName (l1 ++ l2) =
  match find_by_label e ActorName l1 with
  | Some Actor => Some Actor
  | None => find_by_label e ActorName l2
  end.
Proof.
  induction l1 as [|x l1 IH]; [done|]. cbn.
  destruct (Objects e !! x) as [[a| | | | | | | |]|]; try done.
  by destruct (FString.Equals (ActorLabel a) ActorName).
Qed.

Lemma find_by_label_here e ActorName Actor l :
  labelled e ActorName Actor → find_by_label e ActorName (Actor :: l) = Some Actor.
Proof. intros (a & Ha & Hl). cbn. by rewrite Ha, Hl. Qed.

(** After a spawn with a label no actor of the world carried, the label
    search stops at the new actor. *)
Lemma spawned_found World Class Actor k w Location Rotation Scale Label Component h h' :
  editor_world (TheEngine h) = Some (World, w) →
  FString.IsEmpty Label = false →
  (∀ x, x ∈ WorldActors w → ¬ labelled (TheEngine h) Label x) →
  spawned World Class Actor k w Location Rotation Scale Label Component h h' →
  FindActorByName Label h' = Returned (Some Actor) h'.
Proof.
  intros Hworld Hl Hnone (a & w' & Ha & _ & _ & _ & _ & _ & Hlab & _ & HW' & Hact & _ & Hed' & _ & Hothers).
  rewrite Hl in Hlab.
  destruct (editor_world_Some _ _ _ Hworld) as [Hed HW].
  assert (FString.Equals Label Label = true) as Hrefl.
  { unfold FString.Equals. apply String.eqb_refl. }
  assert (Actor ≠ World) as Hne.
  { intros ->. rewrite HW' in Ha. done. }
  assert (labelled (TheEngine h') Label Actor) as Hnew.
  { exists a. by rewrite Hlab. }
  rewrite FindActorByName_eq, Hed', Hed. cbn. rewrite HW', Hact.
  assert (∀ l, (∀ x, x ∈ l → ¬ labelled (TheEngine h) Label x) →
            find_by_label (TheEngine h') Label (l ++ [Actor]) = Some Actor) as Hind.
  { induction l as [|x l IH]; intros Hl0.
    - by apply find_by_label_here.
    - destruct (decide (x = Actor)) as [->|Hx]; [by apply find_by_label_here|].
      cbn [app find_by_label].
      assert (find_by_label (TheEngine h') Label (l ++ [Actor]) = Some Actor) as ->.
      { apply IH. intros y Hy. apply Hl0. by right. }
      destruct (decide (x = World)) as [->|HxW]; [by rewrite HW'|].
      rewrite (Hothers x Hx HxW).
      destruct (Objects (TheEngine h) !! x) as [[b| | | | | | | |]|] eqn:Hb; try done.
      destruct (FString.Equals (ActorLabel b) Label) eqn:Hlb; [|done].
      destruct (Hl0 x); [by left|by exists b]. }
  by rewrite (Hind _ Hnone).
Qed.

(** X9.  [FindActorByName] is a query.  On an editor whose world pointer is
    null or sound it returns, and it leaves the engine and the trace as they
    were.  It logs nothing when it finds an actor; when it returns null it
    has added exactly one line, an error or a warning. *)
Theorem FindActorByName_is_a_query ActorName h :
  let e := TheEngine h in
  editor_ok e →
  ∃ h', FindActorByName ActorName h = Returned (find_actor e ActorName) h' ∧
        TheEngine h' = e ∧ Trace h' = Trace h ∧
        match find_actor e ActorName with
        | Some _ => LogTemp h' = LogTemp h
        | None => ∃ l, LogTemp h' = LogTemp h ++ [l] ∧ Verbosity l ≠ Log
        end.
Proof.
  intros e. unfold editor_ok, find_actor, editor_world. rewrite FindActorByName_eq. fold e.
  destruct (GEditor e) as [[[World|]]|]; cbn; [| |done].
  - intros [w ->].
    destruct (find_by_label e ActorName (WorldActors w)); [by eexists|].
    destruct (resolve e TAActor (WorldNames w) ActorName); [by eexists|].
    eexists. split; [done|]. split; [done|]. split; [done|]. by eexists.
  - intros _. eexists. split; [done|]. split; [done|]. split; [done|]. by eexists.
Qed.

Lemma FindActorByName_is_a_query_witness :
  ∃ h', FindActorByName "Barrel" Sample.host = Returned None h' ∧
        TheEngine h' = TheEngine Sample.host ∧ Trace h' = [] ∧
        ∃ l, LogTemp h' = [l] ∧ Verbosity l ≠ Log.
Proof.
  destruct (FindActorByName_is_a_query "Barrel" Sample.host) as (h' & Hrun & He & Ht & Hl).
  - exists Sample.level. reflexivity.
  - exists h'. split; [exact Hrun|]. split; [exact He|]. split; [exact Ht|exact Hl].
Defined.

(** X10.  Labels need not be unique: among the actors of the world that
    carry the label, [FindActorByName] returns the one the actor iterator
    yields first, and the host is left as it was. *)
Theorem FindActorByName_first_in_order ActorName h World w before Actor after :
  let e := TheEngine h in
  editor_world e = Some (World, w) →
  WorldActors w = before ++ Actor :: after →
  labelled e ActorName Actor →
  (∀ x, x ∈ before → ¬ labelled e ActorName x) →
  FindActorByName ActorName h = Returned (Some Actor) h.
Proof.
  intros e Hworld Hlist Hlab Hbefore.
  destruct (editor_world_Some _ _ _ Hworld) as [Hed HW].
  rewrite FindActorByName_eq. fold e. rewrite Hed. cbn. rewrite HW, Hlist.
  rewrite find_by_label_app.
  rewrite (proj2 (find_by_label_None e ActorName before) Hbefore).
  by rewrite find_by_label_here.
Qed.

Lemma FindActorByName_first_in_order_witness :
  labelled (TheEngine Scenes.crowded) "Box" 11 ∧
  labelled (TheEngine Scenes.crowded) "Box" 12 ∧
  FindActorByName "Box" Scenes.crowded = Returned (Some 11) Scenes.crowded.
Proof.
  split; [|split].
  - exists (Scenes.placed "StaticMeshActor_11" "Box"). split; reflexivity.
  - exists (Scenes.placed "StaticMeshActor_12" "Box"). split; reflexivity.
  - apply (FindActorByName_first_in_order "Box" Scenes.crowded 4 Scenes.crowded_level
             [8; 10] 11 [12]).
    + reflexivity.
    + reflexivity.
    + exists (Scenes.placed "StaticMeshActor_11" "Box"). split; reflexivity.
    + intros x Hx (a & Ha & Hl).
      apply elem_of_cons in Hx as [->|Hx]; [|apply list_elem_of_singleton in Hx as ->].
      * assert (Some (ObjActor Sample.crate) = Some (ObjActor a)) as [= <-]
          by (rewrite <- Ha; reflexivity).
        discriminate Hl.
      * assert (Some (ObjActor (Scenes.placed "StaticMeshActor_10" "crate"))
                = Some (ObjActor a)) as [= <-]
          by (rewrite <- Ha; reflexivity).
        discriminate Hl.
Defined.

(** X11.  Spawning and finding compose: after any of the three spawning
    functions has succeeded with a label that is not empty and that no actor
    of the world carried - not even with other letter case, as the label
    search ignores case - [FindActorByName] on that label returns the actor
    just spawned. *)
Theorem spawned_actor_found_by_label op h World w :
  let e := TheEngine h in
  let Actor := NextObject e in
  editor_world e = Some (World, w) → heap_fresh e → can_spawn op e →
  FString.IsEmpty (label_of op) = false →
  (∀ x, x ∈ WorldActors w → ¬ labelled e (label_of op) x) →
  ∃ h', invoke op h = Returned (Pointer (Some Actor)) h' ∧
        FindActorByName (label_of op) h' = Returned (Some Actor) h'.
Proof.
  intros e Actor Hworld Hfresh Hcan Hlabel Hnone.
  destruct op as [ShapeName Location Rotation Scale ActorLabel
                 |MeshPath Location Rotation Scale ActorLabel
                 |ActorClassName Location Rotation Scale ActorLabel
                 | | | | | | | |]; try done; cbn [label_of can_spawn invoke] in *.
  - destruct Hcan as (k & Mesh & Hk & Hcomp & Hmesh).
    destruct (SpawnBasicShape_run ShapeName Location Rotation Scale ActorLabel h World w k
                Mesh Hworld Hfresh Hk Hcomp Hmesh) as (h' & Hrun & _ & _ & Hspawned).
    exists h'. unfold bind. rewrite Hrun. split; [done|].
    by eapply spawned_found.
  - destruct Hcan as (k & Mesh & Hk & Hcomp & Hmesh).
    destruct (SpawnStaticMeshActor_run MeshPath Location Rotation Scale ActorLabel h World w
                k Mesh Hworld Hfresh Hk Hcomp Hmesh) as (h' & Hrun & _ & _ & Hspawned).
    exists h'. unfold bind. rewrite Hrun. split; [done|].
    by eapply spawned_found.
  - destruct Hcan as (k & Class & Hclass & Hk).
    destruct (SpawnActorFromClass_run ActorClassName Location Rotation Scale ActorLabel h
                World w Class k Hworld Hfresh Hclass Hk) as (h' & Hrun & _ & _ & Hspawned).
    exists h'. unfold bind. rewrite Hrun. split; [done|].
    by eapply spawned_found.
Qed.

Lemma spawned_actor_found_by_label_witness :
  ∃ h',
    SpawnBasicShape "Cube" Sample.origin Sample.upright OneVector "Box" Sample.host
    = Returned (Some 10) h' ∧
    FindActorByName "Box" h' = Returned (Some 10) h'.
Proof.
  destruct (spawned_actor_found_by_label
              (OpSpawnBasicShape "Cube" Sample.origin Sample.upright OneVector "Box")
              Sample.host 4 Sample.level) as (h' & Hrun & Hfind).
  - reflexivity.
  - apply SampleFacts.heap_fresh_engine.
  - exists Scenes.static_mesh_actor, 5.
    split; [|split; reflexivity].
    split; [reflexivity|]. split; [reflexivity|]. by vm_compute; right; left.
  - reflexivity.
  - intros x Hx (a & Ha & Hl). apply list_elem_of_singleton in Hx as ->.
    assert (Some (ObjActor Sample.crate) = Some (ObjActor a)) as [= <-]
      by (rewrite <- Ha; reflexivity).
    discriminate Hl.
  - exists h'. split; [|exact Hfind].
    unfold invoke, bind in Hrun.
    destruct (SpawnBasicShape "Cube" Sample.origin Sample.upright OneVector "Box"
                Sample.host) as [r h1|]; [|discriminate Hrun].
    by injection Hrun as -> ->.
Defined.
End FindTheorems.

(** ** The transform setters: one call each, in any order *)

Section SetterTheorems.
Import UGenActorUtils.

(** A setter, by what [FindActorByName] returns. *)
Lemma setter_run op q h :
  part_of op = Some q →
  match FindActorByName (name_of op) h with
  | Crashed => invoke op h = Crashed
  | Returned None h1 => invoke op h = Returned (Flag false) h1
  | Returned (Some Actor) _ =>
      ∃ a, Objects (TheEngine h) !! Actor = Some (ObjActor a) ∧
           invoke op h = Returned (Flag true)
             {| TheEngine := after_setter op Actor a (TheEngine h);
                LogTemp := LogTemp h ++ setter_line op;
                Trace := Trace h ++ setter_call op Actor |}
  end.
Proof.
  intros Hq.
  destruct (FindActorByName (name_of op) h) as [[Actor|] h1|] eqn:Hf.
  - destruct (FindActorByName_Some _ _ _ _ Hf) as (-> & a & Ha).
    exists a. split; [done|].
    destruct op; try done; cbn [name_of] in Hf; cbn [invoke];
      unfold SetActorPosition, SetActorRotation, SetActorScale, bind at 1 2; rewrite Hf;
      unfold AActor_SetActorLocation, AActor_SetActorRotation, AActor_SetActorScale3D,
        the_actor, store, bind, gets, modify, record, UE_LOG, ret, after_setter; cbn;
      rewrite Ha; cbn; by destruct (bHasRootComponent a).
  - destruct op; try done; cbn [name_of] in Hf; cbn [invoke];
      unfold SetActorPosition, SetActorRotation, SetActorScale, bind at 1 2; by rewrite Hf.
  - destruct op; try done; cbn [name_of] in Hf; cbn [invoke];
      unfold SetActorPosition, SetActorRotation, SetActorScale, bind at 1 2; by rewrite Hf.
Qed.

Lemma FindActorByName_result ActorName h :
  FindActorByName ActorName h =
  match find_result (TheEngine h) ActorName with
  | AnActor Actor => Returned (Some Actor) h
  | NoActor l => Returned None (logged l h)
  | NoReturn => Crashed
  end.
Proof.
  rewrite FindActorByName_eq. unfold find_result.
  destruct (GEditor (TheEngine h)) as [[[World|]]|]; cbn; [|done|done].
  destruct (Objects (TheEngine h) !! World) as [[| | | | | | | |w]|]; try done.
  destruct (find_by_label (TheEngine h) ActorName (WorldActors w)); [done|].
  by destruct (resolve (TheEngine h) TAActor (WorldNames w) ActorName).
Qed.

Lemma find_result_actor e ActorName Actor :
  find_result e ActorName = AnActor Actor → ∃ a, Objects e !! Actor = Some (ObjActor a).
Proof.
  intros Hr.
  destruct (FindActorByName_Some ActorName (fresh_history e) Actor (fresh_history e))
    as (_ & a & Ha); [|by exists a].
  by rewrite FindActorByName_result; cbn; rewrite Hr.
Qed.

(** Replacing an actor by one with the same label changes no lookup. *)
Lemma find_by_label_store e Actor a a' ActorName It :
  Objects e !! Actor = Some (ObjActor a) → ActorLabel a' = ActorLabel a →
  find_by_label (with_Objects (insert Actor (ObjActor a')) e) ActorName It
  = find_by_label e ActorName It.
Proof.
  intros Ha Hl. induction It as [|x It IH]; [done|]. cbn.
  destruct (decide (x = Actor)) as [->|Hx].
  - rewrite lookup_insert_eq, Ha, Hl. cbn in IH. by rewrite IH.
  - rewrite lookup_insert_ne by done. cbn in IH. by rewrite IH.
Qed.

Lemma resolve_store e Actor a a' T table path :
  Objects e !! Actor = Some (ObjActor a) →
  resolve (with_Objects (insert Actor (ObjActor a')) e) T table path = resolve e T table path.
Proof.
  intros Ha. unfold resolve, cast_in. cbn.
  destruct (table !! path) as [x|]; [|done].
  destruct (decide (x = Actor)) as [->|Hx].
  - by rewrite lookup_insert_eq, Ha.
  - by rewrite lookup_insert_ne.
Qed.

Lemma find_result_store e Actor a a' ActorName :
  Objects e !! Actor = Some (ObjActor a) → ActorLabel a' = ActorLabel a →
  find_result (with_Objects (insert Actor (ObjActor a')) e) ActorName
  = find_result e ActorName.
Proof.
  intros Ha Hl. unfold find_result.
  cbn [GEditor with_Objects].
  destruct (GEditor e) as [[[World|]]|]; [|done|done]. cbn [EditorWorld].
  assert (∀ It, find_by_label (with_Objects (insert Actor (ObjActor a')) e) ActorName It
                = find_by_label e ActorName It) as Hsame
    by (intros; by apply (find_by_label_store e Actor a a')).
  cbn [Objects with_Objects].
  destruct (decide (World = Actor)) as [->|HW].
  - by rewrite lookup_insert_eq, Ha.
  - rewrite lookup_insert_ne by done.
    destruct (Objects e !! World) as [[| | | | | | | |w]|]; try done.
    by rewrite Hsame, (resolve_store e Actor a a').
Qed.

Lemma set_part_label op a : ActorLabel (set_part op a) = ActorLabel a.
Proof. by destruct op. Qed.

Lemma set_part_root op a : bHasRootComponent (set_part op a) = bHasRootComponent a.
Proof. by destruct op. Qed.

Lemma find_result_after_setter op Actor a e ActorName :
  Objects e !! Actor = Some (ObjActor a) →
  find_result (after_setter op Actor a e) ActorName = find_result e ActorName.
Proof.
  intros Ha. unfold after_setter. destruct (bHasRootComponent a); [|done].
  apply (find_result_store e Actor a); [done|apply set_part_label].
Qed.

(** A setter, by what the lookup comes to on the engine. *)
Lemma setter_result op q h :
  part_of op = Some q →
  invoke op h =
  match find_result (TheEngine h) (name_of op) with
  | AnActor Actor =>
      match Objects (TheEngine h) !! Actor with
      | Some (ObjActor a) =>
          Returned (Flag true)
            {| TheEngine := after_setter op Actor a (TheEngine h);
               LogTemp := LogTemp h ++ setter_line op;
               Trace := Trace h ++ setter_call op Actor |}
      | _ => Crashed
      end
  | NoActor l => Returned (Flag false) (logged l h)
  | NoReturn => Crashed
  end.
Proof.
  intros Hq. pose proof (setter_run op q h Hq) as Hrun.
  rewrite FindActorByName_result in Hrun.
  destruct (find_result (TheEngine h) (name_of op)) as [Actor|l|]; [|done|done].
  destruct Hrun as (a & Ha & ->). by rewrite Ha.
Qed.

Lemma set_part_comm op1 op2 q1 q2 a :
  part_of op1 = Some q1 → part_of op2 = Some q2 → q1 ≠ q2 →
  set_part op1 (set_part op2 a) = set_part op2 (set_part op1 a).
Proof. destruct op1, op2; cbn; try done; intros [= <-] [= <-] ?; done. Qed.

Lemma setters_commute_engine op1 op2 q1 q2 h :
  part_of op1 = Some q1 → part_of op2 = Some q2 → q1 ≠ q2 →
  engine_of ((invoke op1;; invoke op2) h) = engine_of ((invoke op2;; invoke op1) h).
Proof.
  intros H1 H2 Hne. destruct h as [e l t]. unfold bind.
  rewrite (setter_result op1 q1), (setter_result op2 q2) by done. cbn [TheEngine].
  destruct (find_result e (name_of op1)) as [A1|l1|] eqn:F1;
  destruct (find_result e (name_of op2)) as [A2|l2|] eqn:F2;
    try (destruct (find_result_actor _ _ _ F1) as [a1 Ha1]; rewrite Ha1);
    try (destruct (find_result_actor _ _ _ F2) as [a2 Ha2]; rewrite Ha2);
    rewrite ?(setter_result op1 q1), ?(setter_result op2 q2) by done;
    cbn [TheEngine logged];
    rewrite ?find_result_after_setter by done; rewrite ?F1, ?F2; try done.
  - (* both found *)
    destruct (decide (A1 = A2)) as [<-|HA].
    + assert (a2 = a1) as -> by congruence.
      unfold after_setter.
      destruct (bHasRootComponent a1) eqn:Hroot.
      * cbn. rewrite !lookup_insert_eq. cbn. rewrite !set_part_root, Hroot. cbn.
        unfold with_Objects. cbn. rewrite !insert_insert_eq.
        by rewrite (set_part_comm op1 op2 q1 q2).
      * rewrite Ha1. cbn. by rewrite Hroot.
    + unfold after_setter.
      destruct (bHasRootComponent a1) eqn:R1; destruct (bHasRootComponent a2) eqn:R2; cbn;
        rewrite ?lookup_insert_ne by done; rewrite ?Ha1, ?Ha2; cbn;
        rewrite ?R1, ?R2; cbn; try done.
      unfold with_Objects. cbn. by rewrite insert_insert_ne.
  - (* the first found, the second not *)
    by rewrite Ha1.
  - by rewrite Ha2.
Qed.

Lemma set_part_again op1 op2 q a :
  part_of op1 = Some q → part_of op2 = Some q →
  set_part op2 (set_part op1 a) = set_part op2 a.
Proof. destruct op1, op2; cbn; try done; intros [= <-] ?; done. Qed.

Lemma setters_last_wins_engine op1 op2 q h :
  part_of op1 = Some q → part_of op2 = Some q → name_of op1 = name_of op2 →
  engine_of ((invoke op1;; invoke op2) h) = engine_of (invoke op2 h).
Proof.
  intros H1 H2 Hname. destruct h as [e l t]. unfold bind.
  rewrite (setter_result op1 q), (setter_result op2 q) by done. cbn [TheEngine].
  rewrite Hname.
  destruct (find_result e (name_of op2)) as [A|l1|] eqn:F; [| |done].
  - destruct (find_result_actor _ _ _ F) as [a Ha]. rewrite Ha.
    rewrite (setter_result op2 q) by done. cbn [TheEngine].
    rewrite find_result_after_setter by done. rewrite F.
    unfold after_setter.
    destruct (bHasRootComponent a) eqn:Hroot.
    + cbn. rewrite lookup_insert_eq. cbn. rewrite set_part_root, Hroot. cbn.
      unfold with_Objects. cbn. rewrite insert_insert_eq.
      by rewrite (set_part_again op1 op2 q).
    + rewrite Ha. cbn. by rewrite Hroot.
  - rewrite (setter_result op2 q) by done. cbn [TheEngine logged]. rewrite F.
    done.
Qed.

(** X12.  A setter that finds its actor issues exactly one call into the
    engine - [SetActorLocation], [SetActorRotation] or [SetActorScale3D] on
    that actor, with the value given - adds exactly one line to the log, and
    returns true whatever that call did: also for an actor without a root
    component, on which the engine sets nothing and the engine state stays as
    it was. *)
Theorem setters_call_once_and_report_success op q h Actor a :
  let e := TheEngine h in
  part_of op = Some q →
  find_result e (name_of op) = AnActor Actor →
  Objects e !! Actor = Some (ObjActor a) →
  ∃ h', invoke op h = Returned (Flag true) h' ∧
        Trace h' = Trace h ++ setter_call op Actor ∧
        LogTemp h' = LogTemp h ++ setter_line op ∧
        (bHasRootComponent a = false → TheEngine h' = e).
Proof.
  intros e Hq Hfound Ha. rewrite (setter_result op q h Hq). fold e. rewrite Hfound, Ha.
  eexists. split; [reflexivity|]. split; [done|]. split; [done|].
  intros Hroot. cbn. unfold after_setter. by rewrite Hroot.
Qed.

Lemma setters_call_once_and_report_success_witness :
  ∃ h', SetActorPosition "Crate" OneVector Scenes.rootless = Returned true h' ∧
        Trace h' = [CallSetActorLocation 8 OneVector] ∧
        TheEngine h' = TheEngine Scenes.rootless.
Proof.
  destruct (setters_call_once_and_report_success (OpSetActorPosition "Crate" OneVector)
              PartLocation Scenes.rootless 8 Scenes.rootless_crate eq_refl eq_refl eq_refl)
    as (h' & Hrun & Htrace & _ & Hsame).
  exists h'. split; [|split; [exact Htrace|by apply Hsame]].
  unfold invoke, bind in Hrun.
  destruct (SetActorPosition "Crate" OneVector Scenes.rootless) as [b h1|];
    [|discriminate Hrun].
  by injection Hrun as -> ->.
Defined.

(** X13.  Setter calls on different parts of the transform commute: run in
    either order, on the same or on different actor names, two such calls
    leave the same engine (or both fail to return).  Two calls on the same
    part of the same name do not: the later one wins. *)
Theorem setters_commute op1 op2 q1 q2 h :
  part_of op1 = Some q1 → part_of op2 = Some q2 →
  (q1 ≠ q2 →
   engine_of ((invoke op1;; invoke op2) h) = engine_of ((invoke op2;; invoke op1) h)) ∧
  (q1 = q2 → name_of op1 = name_of op2 →
   engine_of ((invoke op1;; invoke op2) h) = engine_of (invoke op2 h)).
Proof.
  intros H1 H2. split; [by apply setters_commute_engine|].
  intros <- Hname. by apply (setters_last_wins_engine op1 op2 q1).
Qed.

Lemma setters_commute_witness :
  engine_of ((invoke (OpSetActorPosition "Crate" OneVector);;
              invoke (OpSetActorRotation "Crate" Sample.upright)) Sample.host)
  = engine_of ((invoke (OpSetActorRotation "Crate" Sample.upright);;
                invoke (OpSetActorPosition "Crate" OneVector)) Sample.host).
Proof.
  apply (setters_commute (OpSetActorPosition "Crate" OneVector)
           (OpSetActorRotation "Crate" Sample.upright) PartLocation PartRotation
           Sample.host eq_refl eq_refl).
  discriminate.
Defined.
End SetterTheorems.

(** ** Assigning a material: what changes, and assigning again *)

Section MaterialTheorems.
Import UGenActorUtils.

Lemma set_override_next Material (pre l : list (option ObjectId)) :
  set_override (length pre) Material (pre ++ l) = (pre ++ [Some Material]) ++ drop 1 l.
Proof.
  unfold set_override. rewrite length_app. destruct l as [|x l]; cbn.
  - rewrite Nat.add_0_r. replace (S (length pre) - length pre) with 1 by lia. cbn.
    rewrite !app_nil_r.
    rewrite <- (Nat.add_0_r (length pre)) at 1. by rewrite insert_app_r.
  - replace (S (length pre) - (length pre + S (length l))) with 0 by lia. cbn.
    rewrite app_nil_r, drop_0.
    rewrite <- (Nat.add_0_r (length pre)) at 1. rewrite insert_app_r. cbn.
    by rewrite <- app_assoc.
Qed.

Lemma set_overrides_from_closed Material : ∀ count (pre l : list (option ObjectId)),
  set_overrides_from (length pre) count Material (pre ++ l)
  = pre ++ replicate count (Some Material) ++ drop count l.
Proof.
  induction count as [|n IH]; intros pre l; cbn [set_overrides_from].
  - by rewrite drop_0.
  - rewrite set_override_next.
    replace (S (length pre)) with (length (pre ++ [Some Material]))
      by (rewrite length_app; cbn; lia).
    rewrite IH, drop_drop. cbn. by rewrite <- app_assoc.
Qed.

Lemma set_overrides_overridden count Material l :
  set_overrides_from 0 count Material l = overridden count Material l.
Proof. apply (set_overrides_from_closed Material count [] l). Qed.

Lemma overridden_overridden count M1 M2 l :
  overridden count M2 (overridden count M1 l) = overridden count M2 l.
Proof.
  unfold overridden. f_equal.
  by rewrite drop_app_length' by (by rewrite length_replicate).
Qed.

Lemma actor_replaced_engine Actor a' h h' :
  actor_replaced Actor a' h h' →
  TheEngine h' = with_Objects (insert Actor (ObjActor a')) (TheEngine h).
Proof.
  intros (Ha & Ho & Hg & Hn & Hx & Hv & Hc).
  destruct h as [[g o n x v c] l t], h' as [[g' o' n' x' v' c'] l' t']. cbn in *.
  subst. unfold with_Objects. cbn. f_equal.
  apply map_eq. intros p. destruct (decide (p = Actor)) as [->|Hp].
  - by rewrite lookup_insert_eq.
  - rewrite lookup_insert_ne by done. by apply Ho.
Qed.

(** [SetActorMaterial] with a material, by what the lookup comes to. *)
Lemma SetActorMaterial_result ActorName Material h :
  let e := TheEngine h in
  SetActorMaterial ActorName (Some Material) h =
  match find_result e ActorName with
  | AnActor Actor =>
      match Objects e !! Actor with
      | Some (ObjActor a) =>
          match StaticMeshComponent a with
          | Some c =>
              (for_range 0 (length (mesh_slots e c))
                 (fun i => UStaticMeshComponent_SetMaterial Actor i Material);;
               UE_LOG Log "Set material for actor '%s'" [ArgText ActorName];;
               ret true) h
          | None =>
              Returned false
                (add_log Error "No static mesh component found on actor '%s'"
                   [ArgText ActorName] h)
          end
      | _ => Crashed
      end
  | NoActor l => Returned false (logged l h)
  | NoReturn => Crashed
  end.
Proof.
  intros e. unfold SetActorMaterial, bind at 1. rewrite FindActorByName_result. fold e.
  destruct (find_result e ActorName) as [Actor|l|] eqn:Hr; [|done|done].
  destruct (find_result_actor _ _ _ Hr) as [a Ha]. rewrite Ha.
  unfold AActor_FindComponentByClass_UStaticMeshComponent,
    AActor_GetStaticMeshComponent, the_actor, bind at 1 2 3, gets, ret.
  fold e. rewrite Ha. destruct (StaticMeshComponent a) as [c|] eqn:Hc; [|done].
  unfold UStaticMeshComponent_GetNumMaterials, the_component, the_actor,
    bind at 1 2 3 4, gets, ret.
  fold e. by rewrite Ha, Hc.
Qed.

Lemma SetActorMaterial_found ActorName Material h Actor a c :
  let e := TheEngine h in
  find_result e ActorName = AnActor Actor →
  Objects e !! Actor = Some (ObjActor a) →
  StaticMeshComponent a = Some c →
  SetActorMaterial ActorName (Some Material) h =
  Returned true
    {| TheEngine := with_Objects (insert Actor (ObjActor (with_material e Material a c))) e;
       LogTemp := LogTemp h ++ [line Log "Set material for actor '%s'" [ArgText ActorName]];
       Trace := Trace h ++ map (fun i => CallSetMaterial Actor i Material)
                               (seq 0 (length (mesh_slots e c))) |}.
Proof.
  intros e Hr Ha Hc. rewrite SetActorMaterial_result. fold e. rewrite Hr, Ha, Hc.
  destruct (SetMaterial_loop Actor Material (length (mesh_slots e c)) 0 a c h Ha Hc)
    as (h' & Hrun & Hlog & Htrace & Hrep).
  unfold bind at 1. rewrite Hrun. cbn.
  rewrite set_overrides_overridden in Hrep.
  apply actor_replaced_engine in Hrep. fold e in Hrep.
  destruct h' as [e' l' t']. cbn in *. unfold with_material. by subst.
Qed.

Lemma mesh_slots_store e Actor a a' c :
  Objects e !! Actor = Some (ObjActor a) →
  mesh_slots (with_Objects (insert Actor (ObjActor a')) e) c = mesh_slots e c.
Proof.
  intros Ha. unfold mesh_slots. destruct (StaticMesh c) as [mesh|]; [|done]. cbn.
  destruct (decide (mesh = Actor)) as [->|Hm].
  - by rewrite lookup_insert_eq, Ha.
  - by rewrite lookup_insert_ne.
Qed.

(** X14.  When [SetActorMaterial] finds the actor and its static mesh
    component, the engine it leaves differs from the one it found in the
    override materials of that component alone: they are the material, once
    for each slot of the mesh, followed by the overrides the component had
    beyond those slots.  The mesh, the rest of the actor and every other
    object stay as they were; one line is logged. *)
Theorem SetActorMaterial_overrides ActorName Material h Actor a c :
  let e := TheEngine h in
  find_result e ActorName = AnActor Actor →
  Objects e !! Actor = Some (ObjActor a) →
  StaticMeshComponent a = Some c →
  ∃ h',
    SetActorMaterial ActorName (Some Material) h = Returned true h' ∧
    TheEngine h' = with_Objects (insert Actor (ObjActor (with_material e Material a c))) e ∧
    LogTemp h' = LogTemp h ++ [line Log "Set material for actor '%s'" [ArgText ActorName]].
Proof.
  intros e Hfound Ha Hc.
  rewrite (SetActorMaterial_found ActorName Material h Actor a c Hfound Ha Hc).
  by eexists.
Qed.

Lemma SetActorMaterial_overrides_witness :
  ∃ h',
    SetActorMaterial "Crate" (Some 6) Sample.host = Returned true h' ∧
    Objects (TheEngine h') !! 8
    = Some (ObjActor
        (with_StaticMeshComponent
           (Some {| StaticMesh := Some 5; OverrideMaterials := [Some 6; Some 6] |})
           Sample.crate)).
Proof.
  destruct (SetActorMaterial_overrides "Crate" 6 Sample.host 8 Sample.crate
              {| StaticMesh := Some 5; OverrideMaterials := [] |} eq_refl eq_refl eq_refl)
    as (h' & Hrun & He & _).
  exists h'. split; [exact Hrun|]. rewrite He. reflexivity.
Defined.

(** X15.  Assigning twice is assigning the later material: two calls of
    [SetActorMaterial] on the same actor name leave the engine the second
    call alone would leave.  With the same material twice, the second call
    changes nothing. *)
Theorem SetActorMaterial_last_wins ActorName Material1 Material2 h :
  engine_of ((SetActorMaterial ActorName (Some Material1);;
              SetActorMaterial ActorName (Some Material2)) h)
  = engine_of (SetActorMaterial ActorName (Some Material2) h).
Proof.
  unfold bind at 1.
  destruct (find_result (TheEngine h) ActorName) as [Actor|l|] eqn:Hr.
  - destruct (find_result_actor _ _ _ Hr) as [a Ha].
    destruct (StaticMeshComponent a) as [c|] eqn:Hc.
    + rewrite !(SetActorMaterial_found ActorName _ h Actor a c) by done.
      set (e := TheEngine h).
      set (c1 := {| StaticMesh := StaticMesh c;
                    OverrideMaterials :=
                      overridden (length (mesh_slots e c)) Material1 (OverrideMaterials c) |}).
      set (a1 := with_material e Material1 a c).
      set (e1 := with_Objects (insert Actor (ObjActor a1)) e).
      assert (with_material e1 Material2 a1 c1 = with_material e Material2 a c) as Hsame.
      { unfold with_material, e1. rewrite (mesh_slots_store e Actor a) by done.
        change (mesh_slots e c1) with (mesh_slots e c). unfold c1. cbn.
        by rewrite overridden_overridden. }
      rewrite (SetActorMaterial_found ActorName Material2 _ Actor a1 c1); cbn [TheEngine].
      * fold e1. rewrite Hsame. cbn. unfold e1, with_Objects. cbn.
        by rewrite insert_insert_eq.
      * unfold e1. rewrite (find_result_store e Actor a); done.
      * apply lookup_insert_eq.
      * done.
    + rewrite !SetActorMaterial_result, Hr, Ha, Hc. cbv beta iota.
      rewrite SetActorMaterial_result. cbn [TheEngine add_log]. by rewrite Hr, Ha, Hc.
  - rewrite !SetActorMaterial_result, Hr. cbv beta iota.
    rewrite SetActorMaterial_result. cbn [TheEngine logged]. by rewrite Hr.
  - by rewrite !SetActorMaterial_result, Hr.
Qed.
End MaterialTheorems.

(** ** Creating a material: the steps, and using what was created *)

Section MaterialStepTheorems.
Import UGenActorUtils.

Ltac steps_post :=
  cbn; unfold CreateMaterial_calls, created_material, colour_expression; exec;
  repeat match goal with
    | |- _ ∧ _ => split
    | |- _ → _ => intros ?
    | |- ∃ _, _ => eexists
    end;
  exec; try done; try (by rewrite <- ?app_assoc).

Lemma CreateMaterial_create_steps MaterialName Color h :
  let e := TheEngine h in
  let existing := resolve e TUPackage (Names e) (MaterialPackagePath MaterialName) in
  let Package := default (NextObject e) existing in
  let Material := match existing with Some _ => NextObject e | None => S (NextObject e) end in
  let Expression := S Material in
  heap_fresh e → package_at_hand e MaterialName → canCreateObject (Conduct e) = true →
  ∃ h',
    CreateMaterial_create MaterialName Color h = Returned (Some Material) h' ∧
    Trace h' = Trace h ++
      CreateMaterial_calls e MaterialName (bool_decide (is_Some existing))
        Package Material Expression ∧
    Objects (TheEngine h') !! Material
    = Some (ObjMaterial (created_material e Package Expression)) ∧
    (canCreateExpression (Conduct e) = true →
     Objects (TheEngine h') !! Expression
     = Some (ObjExpression (colour_expression Material Color))) ∧
    (∃ k, Objects (TheEngine h') !! Package = Some (ObjPackage k) ∧
          bDirty k = negb (canSavePackage (Conduct e)) ∧
          (canSavePackage (Conduct e) = true →
           SavedTo k = Some (MaterialPackagePath MaterialName +:+ ".uasset"))) ∧
    ∀ q, q < NextObject e → q ≠ Package → Objects (TheEngine h') !! q = Objects e !! q.
Proof.
  intros e existing Package Material Expression Hfresh Hpkg H2.
  destruct h as [e0 l t]. cbn in e. subst e existing Package Material Expression.
  unfold CreateMaterial_create. fold (MaterialPackagePath MaterialName).
  destruct (resolve e0 TUPackage (Names e0) (MaterialPackagePath MaterialName))
    as [p|] eqn:Hp.
  - destruct (cast_in_Some _ _ _ _ Hp) as (HN & o & Ho & HT).
    destruct o as [| | | | |k| | |]; try done.
    pose proof (fresh_lt _ _ _ Hfresh Ho) as Hlt.
    unfold_host. unfold resolve in Hp.
    destruct (canCreateExpression (Conduct e0)) eqn:H3;
    destruct (canConnectProperty (Conduct e0)) eqn:H4;
    destruct (canSavePackage (Conduct e0)) eqn:H5;
    exec; (eexists; split; [reflexivity|]). all: steps_post.
  - assert (canCreatePackage (Conduct e0) = true) as H1.
    { destruct Hpkg as [[? Hx]|?]; [|done]. cbn in Hx. congruence. }
    unfold_host. unfold resolve in Hp.
    destruct (canCreateExpression (Conduct e0)) eqn:H3;
    destruct (canConnectProperty (Conduct e0)) eqn:H4;
    destruct (canSavePackage (Conduct e0)) eqn:H5;
    exec; (eexists; split; [reflexivity|]). all: steps_post.
Qed.

Lemma resolve_material_interface e table path Material :
  resolve e TUMaterial table path = Some Material →
  resolve e TUMaterialInterface table path = Some Material.
Proof.
  intros Hm. destruct (resolve_Some _ _ _ _ _ Hm) as (Ht & o & Ho & HT).
  unfold resolve, cast_in. rewrite Ht, Ho. by destruct o.
Qed.

(** What [CreateMaterial] has returned loads from the object path of the
    material. *)
Lemma CreateMaterial_loads MaterialName Color h Material h1 :
  let e := TheEngine h in
  heap_fresh e → packages_filed e →
  CreateMaterial MaterialName Color h = Returned (Some Material) h1 →
  resolve (TheEngine h1) TUMaterial (Names (TheEngine h1)) (MaterialObjectPath MaterialName)
  = Some Material.
Proof.
  intros e Hfresh Hfiled Hrun. rewrite CreateMaterial_eq in Hrun. fold e in Hrun.
  assert (∀ h0, TheEngine h0 = e →
            CreateMaterial_create MaterialName Color h0 = Returned (Some Material) h1 →
            resolve (TheEngine h1) TUMaterial (Names (TheEngine h1))
              (MaterialObjectPath MaterialName) = Some Material) as Hcreate.
  { intros h0 He Hrun0.
    destruct (CreateMaterial_create_run MaterialName Color h0) as (r & h' & Hrun' & Hpost).
    { by rewrite He. }
    rewrite Hrun0 in Hrun'. injection Hrun' as <- <-.
    unfold created in Hpost. rewrite He in Hpost.
    destruct Hpost as (_ & _ & Hres & _). by destruct (Hres Hfiled). }
  destruct (resolve e TUPackage (Names e) (MaterialPackagePath MaterialName)) eqn:Hp.
  - destruct (resolve e TUMaterial (Names e) (MaterialObjectPath MaterialName)) eqn:Hm.
    + by injection Hrun as <- <-.
    + eapply Hcreate; [|exact Hrun]. done.
  - eapply Hcreate; [|exact Hrun]. done.
Qed.

(** X16.  When no material of the name loads, a package is there or can be
    created, and the material object can be created, [CreateMaterial] returns
    the new material after these calls, in this order: [CreatePackage] (unless
    the package was there), [NewObject], the writes of the two properties, the
    colour expression with its constant and its connection to the base colour
    (when the expression can be created), [PreEditChange], [PostEditChange],
    [RecompileMaterial], [MarkPackageDirty], [SavePackage] to the package path
    with the asset extension, and [AssetCreated] only when the save succeeded.
    The material is opaque, without emissive lighting, recompiled once; the
    expression holds the colour given; the package is dirty exactly when the
    save failed; and no other object that existed is changed. *)
Theorem CreateMaterial_steps MaterialName Color h :
  let e := TheEngine h in
  let existing := resolve e TUPackage (Names e) (MaterialPackagePath MaterialName) in
  let Package := default (NextObject e) existing in
  let Material := match existing with Some _ => NextObject e | None => S (NextObject e) end in
  let Expression := S Material in
  heap_fresh e → existing_material e MaterialName = None →
  package_at_hand e MaterialName → canCreateObject (Conduct e) = true →
  ∃ h',
    CreateMaterial MaterialName Color h = Returned (Some Material) h' ∧
    Trace h' = Trace h ++
      CreateMaterial_calls e MaterialName (bool_decide (is_Some existing))
        Package Material Expression ∧
    Objects (TheEngine h') !! Material
    = Some (ObjMaterial (created_material e Package Expression)) ∧
    (canCreateExpression (Conduct e) = true →
     Objects (TheEngine h') !! Expression
     = Some (ObjExpression (colour_expression Material Color))) ∧
    (∃ k, Objects (TheEngine h') !! Package = Some (ObjPackage k) ∧
          bDirty k = negb (canSavePackage (Conduct e)) ∧
          (canSavePackage (Conduct e) = true →
           SavedTo k = Some (MaterialPackagePath MaterialName +:+ ".uasset"))) ∧
    ∀ q, q < NextObject e → q ≠ Package → Objects (TheEngine h') !! q = Objects e !! q.
Proof.
  intros e existing Package Material Expression Hfresh Hnone Hpkg Hobj.
  subst existing Package Material Expression.
  unfold existing_material in Hnone. fold e in Hnone.
  pose proof (CreateMaterial_eq MaterialName Color h) as Heq. cbv zeta in Heq. fold e in Heq.
  pose proof (CreateMaterial_create_steps MaterialName Color h) as Hs.
  pose proof (CreateMaterial_create_steps MaterialName Color
                (add_log Warning "Material '%s' already exists, trying to load it"
                   [ArgText MaterialName] h)) as Hw.
  cbv zeta in Hs, Hw. cbn [TheEngine Trace add_log] in Hw. fold e in Hs, Hw.
  rewrite Heq.
  destruct (resolve e TUPackage (Names e) (MaterialPackagePath MaterialName)) as [p|] eqn:Hp.
  - rewrite Hnone. exact (Hw Hfresh Hpkg Hobj).
  - exact (Hs Hfresh Hpkg Hobj).
Qed.

Lemma CreateMaterial_steps_witness :
  ∃ h',
    CreateMaterial "Red" Sample.red Sample.host = Returned (Some 11) h' ∧
    Trace h' =
      [CallCreatePackage "/Game/Materials/Red" 10; CallNewMaterial 10 "Red" 11;
       CallWrite 11 "bUseEmissiveForDynamicAreaLighting"; CallWrite 11 "BlendMode";
       CallCreateMaterialExpression 11 12; CallWrite 12 "Constant";
       CallConnectMaterialProperty 12 MP_BaseColor true;
       CallPreEditChange 11; CallPostEditChange 11; CallRecompileMaterial 11;
       CallMarkPackageDirty 10;
       CallSavePackage 10 "/Game/Materials/Red.uasset" true; CallAssetCreated 11].
Proof.
  destruct (CreateMaterial_steps "Red" Sample.red Sample.host
              (SampleFacts.heap_fresh_engine _) eq_refl) as (h' & Hrun & Htrace & _).
  - right. reflexivity.
  - reflexivity.
  - exists h'. split; [exact Hrun|exact Htrace].
Defined.

(** X17.  Creating and assigning compose: on a well formed host, the
    material [CreateMaterial] has returned - new or found - loads from the
    object path [/Game/Materials/<Name>.<Name>], so that
    [SetActorMaterialByPath] with that path is [SetActorMaterial] with that
    material. *)
Theorem created_material_assignable MaterialName Color h Material h1 ActorName :
  let e := TheEngine h in
  heap_fresh e → packages_filed e →
  CreateMaterial MaterialName Color h = Returned (Some Material) h1 →
  SetActorMaterialByPath ActorName (MaterialObjectPath MaterialName) h1
  = SetActorMaterial ActorName (Some Material) h1.
Proof.
  intros e Hfresh Hfiled Hrun. rewrite SetActorMaterialByPath_eq.
  by rewrite (resolve_material_interface _ _ _ _
                (CreateMaterial_loads MaterialName Color h Material h1 Hfresh Hfiled Hrun)).
Qed.

Lemma created_material_assignable_witness :
  ∃ h1,
    CreateMaterial "Red" Sample.red Sample.host = Returned (Some 11) h1 ∧
    SetActorMaterialByPath "Crate" "/Game/Materials/Red.Red" h1
    = SetActorMaterial "Crate" (Some 11) h1.
Proof.
  assert (∃ h1, CreateMaterial "Red" Sample.red Sample.host = Returned (Some 11) h1)
    as [h1 Hrun] by (eexists; by vm_compute).
  exists h1. split; [exact Hrun|].
  apply (created_material_assignable "Red" Sample.red Sample.host 11 h1 "Crate"
           (SampleFacts.heap_fresh_engine _) (SampleFacts.packages_filed_engine _) Hrun).
Defined.
End MaterialStepTheorems.

(** ** Creating a game mode: answers, failures past the guards, repetition *)

Section GameModeTheorems.
Import UGenActorUtils.

Lemma substring_all (s : string) : String.substring 0 (String.length s) s = s.
Proof. induction s as [|a s IH]; [done|]. cbn. by rewrite IH. Qed.

Lemma append_String a (x y : string) : String a x +:+ y = String a (x +:+ y).
Proof. reflexivity. Qed.

Lemma split_at_last (c : ascii) : ∀ (s : string) i,
  FString.FindLastChar c s = Some i →
  FString.Left i s +:+ String c (FString.Mid (S i) s) = s.
Proof.
  unfold FString.Left, FString.Mid.
  induction s as [|a s IH]; intros i; cbn [FString.FindLastChar]; [done|].
  destruct (FString.FindLastChar c s) as [j|] eqn:Hj.
  - intros [= <-]. simpl. rewrite append_String. f_equal. by apply IH.
  - destruct (Ascii.eqb a c) eqn:Hac; [|done]. intros [= <-].
    apply Ascii.eqb_eq in Hac as ->. simpl. by rewrite Nat.sub_0_r, substring_all.
Qed.

(** A path with a slash is the package path, a slash, and the short name. *)
Lemma AssetPath_eq GameModePath :
  is_Some (FString.FindLastChar FPackageName.Slash GameModePath) →
  AssetPath GameModePath = GameModePath.
Proof.
  intros [i Hi]. unfold AssetPath, FPackageName.GetLongPackagePath, FPackageName.GetShortName.
  rewrite Hi. apply (split_at_last FPackageName.Slash _ _ Hi).
Qed.

Lemma CreateGameModeWithPawn_create_refused g p BaseClass PawnClass h :
  onCreateAsset (Conduct (TheEngine h)) = AssetRefused →
  CreateGameModeWithPawn_create g p BaseClass PawnClass h
  = Returned (ErrorJson "Failed to create game mode")
      (add_log Error "Failed to create game mode blueprint at %s" [ArgText g] h).
Proof.
  intros Hans. unfold CreateGameModeWithPawn_create. unfold_host. by rewrite Hans.
Qed.

Lemma CreateGameModeWithPawn_create_classless g p BaseClass PawnClass h :
  let e := TheEngine h in
  let bp := NextObject e in
  onCreateAsset (Conduct e) = BlueprintWithoutClass →
  ∃ h',
    CreateGameModeWithPawn_create g p BaseClass PawnClass h
    = Returned (ErrorJson "No generated class") h' ∧
    LogTemp h' = LogTemp h ++ [line Error "Generated class not found for %s" [ArgText g]] ∧
    Trace h' = Trace h ++
      [CallCreateAsset (FPackageName.GetShortName g) (FPackageName.GetLongPackagePath g) bp] ∧
    Names (TheEngine h') = <[AssetPath g := bp]> (Names e) ∧
    Objects (TheEngine h')
    = <[bp := ObjBlueprint {| ParentClass := BaseClass; GeneratedClass := None;
                              bStructurallyModified := false |}]> (Objects e).
Proof.
  intros e bp Hans. destruct h as [e0 l t]. cbn in e. subst e bp.
  unfold CreateGameModeWithPawn_create, AssetPath. unfold_host. exec.
  eexists. split; [reflexivity|]. done.
Qed.

(** The creation, on a host that hands out a blueprint with a class. *)
Lemma CreateGameModeWithPawn_create_done g p BaseClass PawnClass B h :
  let e := TheEngine h in
  let cls := NextObject e in
  let bp := S (NextObject e) in
  onCreateAsset (Conduct e) = BlueprintReady ∨
  onCreateAsset (Conduct e) = BlueprintWithoutCDO →
  Objects e !! BaseClass = Some (ObjClass B) →
  AGameModeBase_StaticClass (Native e) ∈ StructBaseChain B →
  heap_fresh e → world_ok e →
  ∃ h',
    CreateGameModeWithPawn_create g p (Some BaseClass) PawnClass h
    = Returned (SuccessJson g p) h' ∧
    LogTemp h' = LogTemp h ++ level_log e g ++
      [line Log "Created game mode %s with pawn %s and set as scene default"
         [ArgText g; ArgText p]] ∧
    Trace h' = Trace h ++
      [CallCreateAsset (FPackageName.GetShortName g) (FPackageName.GetLongPackagePath g) bp] ++
      match onCreateAsset (Conduct e) with
      | BlueprintReady => [CallWrite cls "DefaultPawnClass"]
      | _ => []
      end ++ level_calls e ++
      [CallModify bp; CallMarkBlueprintAsStructurallyModified bp] ∧
    Names (TheEngine h') !! AssetPath g = Some bp ∧
    ∃ b, Objects (TheEngine h') !! bp = Some (ObjBlueprint b).
Proof.
  intros e cls bp Hans HB Hgm Hfresh Hworld.
  destruct h as [e0 l t]. cbn in e. subst e cls bp.
  assert (bool_decide (AGameModeBase_StaticClass (Native e0)
                       ∈ NextObject e0 :: StructBaseChain B) = true) as Hdec.
  { apply bool_decide_eq_true_2. by right. }
  unfold CreateGameModeWithPawn_create, world_ok, level_calls, level_log, editor_world,
    AssetPath in *.
  unfold_host.
  destruct Hans as [Hans|Hans];
  (destruct (GEditor e0) as [[[W|]]|] eqn:Hed;
   [ destruct Hworld as [w Hw];
     pose proof (fresh_lt _ _ _ Hfresh Hw) as HW;
     destruct (CurrentLevel w) as [lv|] eqn:Hlv | | ]);
  exec; (eexists; split; [reflexivity|]); cbn;
  (split; [by rewrite <- ?app_assoc|]); (split; [by rewrite <- ?app_assoc|]);
  exec; (split; [done|]); eexists; reflexivity.
Qed.

Lemma returns_in_ret {A} (a : A) (P : A → Prop) : P a → returns_in (ret a) P.
Proof. intros Ha h b h' [= <- <-]. done. Qed.

Lemma returns_in_bind {A B} (m : M A) (k : A → M B) (P : B → Prop) :
  (∀ a, returns_in (k a) P) → returns_in (bind m k) P.
Proof.
  intros Hk h b h'. unfold bind. destruct (m h) as [a h1|]; [|done]. apply Hk.
Qed.

Ltac answers :=
  repeat first
    [ apply returns_in_ret;
      first [ by left
            | right; eexists; split; [|reflexivity]; unfold error_messages;
              repeat first [by left | right] ]
    | apply returns_in_bind; intros ?
    | match goal with
      | |- returns_in (match ?x with _ => _ end) _ => destruct x
      | |- returns_in (if ?b then _ else _) _ => destruct b
      end ].

Lemma CreateGameModeWithPawn_answers g p b :
  returns_in (CreateGameModeWithPawn g p b)
    (fun s => s = SuccessJson g p ∨ ∃ m, m ∈ error_messages ∧ s = ErrorJson m).
Proof.
  unfold CreateGameModeWithPawn, CreateGameModeWithPawn_create. answers.
Qed.

Lemma SuccessJson_not_error g p m : SuccessJson g p ≠ ErrorJson m.
Proof. unfold SuccessJson, ErrorJson, FString.Quoted, FString.Quote. cbv. congruence. Qed.

Lemma guards_passed g p b h BaseClass PawnClass :
  guards_pass (TheEngine h) g p b BaseClass PawnClass →
  CreateGameModeWithPawn g p b h
  = CreateGameModeWithPawn_create g p (Some BaseClass) (Some PawnClass) h.
Proof.
  intros (Hempty & Hnew & Hbase & Hpawn).
  rewrite CreateGameModeWithPawn_eq. cbv zeta. by rewrite Hempty, Hnew, Hbase, Hpawn.
Qed.

Lemma already_exists_at g p b h bp B :
  FString.IsEmpty g = false → FString.IsEmpty p = false →
  Names (TheEngine h) !! g = Some bp →
  Objects (TheEngine h) !! bp = Some (ObjBlueprint B) →
  CreateGameModeWithPawn g p b h
  = Returned (ErrorJson "Game mode already exists")
      (add_log Warning "Game mode already exists at %s" [ArgText g] h).
Proof.
  intros Hg Hp HN HB. rewrite CreateGameModeWithPawn_eq. cbv zeta. rewrite Hg, Hp. cbn.
  unfold resolve, cast_in. by rewrite HN, HB.
Qed.

(** X18.  Whatever the host, a call of [CreateGameModeWithPawn] that returns
    hands back one of seven texts: the success JSON for its two paths, or the
    error JSON with one of six messages.  The success JSON is none of the
    error JSONs, so a caller can tell them apart. *)
Theorem CreateGameModeWithPawn_answers_known g p b h s h' :
  CreateGameModeWithPawn g p b h = Returned s h' →
  (s = SuccessJson g p ∨ ∃ m, m ∈ error_messages ∧ s = ErrorJson m) ∧
  ∀ m, SuccessJson g p ≠ ErrorJson m.
Proof.
  intros Hrun. split; [|intros m; apply SuccessJson_not_error].
  exact (CreateGameModeWithPawn_answers g p b h s h' Hrun).
Qed.

Lemma CreateGameModeWithPawn_answers_known_witness :
  ErrorJson "Invalid pawn blueprint" = SuccessJson "/Game/Modes/Duel" "/Game/Modes/Arena" ∨
  ∃ m, m ∈ error_messages ∧ ErrorJson "Invalid pawn blueprint" = ErrorJson m.
Proof.
  assert (∃ h', CreateGameModeWithPawn "/Game/Modes/Duel" "/Game/Modes/Arena" "" Sample.host
                = Returned (ErrorJson "Invalid pawn blueprint") h') as [h' Hrun]
    by (eexists; by vm_compute).
  exact (proj1 (CreateGameModeWithPawn_answers_known _ _ _ _ _ _ Hrun)).
Defined.

(** X19.  Past the guards, two failures remain.  When the asset tools hand
    out nothing, the call returns "Failed to create game mode" and the engine
    and the trace are as they were.  When they hand out a blueprint without a
    generated class, the call returns "No generated class" after the asset was
    created: the blueprint stays in the engine, filed under its path - nothing
    is undone. *)
Theorem CreateGameModeWithPawn_creation_failures g p b h BaseClass PawnClass :
  let e := TheEngine h in
  let bp := NextObject e in
  guards_pass e g p b BaseClass PawnClass →
  (onCreateAsset (Conduct e) = AssetRefused →
   CreateGameModeWithPawn g p b h
   = Returned (ErrorJson "Failed to create game mode")
       (add_log Error "Failed to create game mode blueprint at %s" [ArgText g] h)) ∧
  (onCreateAsset (Conduct e) = BlueprintWithoutClass →
   ∃ h',
     CreateGameModeWithPawn g p b h = Returned (ErrorJson "No generated class") h' ∧
     LogTemp h' = LogTemp h ++ [line Error "Generated class not found for %s" [ArgText g]] ∧
     Trace h' = Trace h ++
       [CallCreateAsset (FPackageName.GetShortName g) (FPackageName.GetLongPackagePath g)
          bp] ∧
     Names (TheEngine h') = <[AssetPath g := bp]> (Names e) ∧
     Objects (TheEngine h')
     = <[bp := ObjBlueprint {| ParentClass := Some BaseClass; GeneratedClass := None;
                               bStructurallyModified := false |}]> (Objects e)).
Proof.
  intros e bp Hguards. rewrite (guards_passed _ _ _ _ _ _ Hguards). split.
  - apply CreateGameModeWithPawn_create_refused.
  - apply CreateGameModeWithPawn_create_classless.
Qed.

Lemma CreateGameModeWithPawn_creation_failures_witness :
  ∃ h',
    CreateGameModeWithPawn "/Game/Modes/Duel" "/Game/BP_Pawn" ""
      (Scenes.asset_tools BlueprintWithoutClass)
    = Returned (ErrorJson "No generated class") h' ∧
    Trace h' = [CallCreateAsset "Duel" "/Game/Modes" 10] ∧
    Names (TheEngine h') !! "/Game/Modes/Duel" = Some 10.
Proof.
  destruct (CreateGameModeWithPawn_creation_failures "/Game/Modes/Duel" "/Game/BP_Pawn" ""
              (Scenes.asset_tools BlueprintWithoutClass) 2 7) as [_ Hclassless].
  - repeat split; reflexivity.
  - destruct (Hclassless eq_refl) as (h' & Hrun & _ & Htrace & Hnames & _).
    exists h'. split; [exact Hrun|]. split; [exact Htrace|].
    rewrite Hnames. reflexivity.
Defined.

(** X20.  A game mode is not created twice.  Once the asset tools have
    handed out a blueprint for a game mode path that contains a slash -
    whether the call then succeeded or stopped at "No generated class" - every
    later call with that path and a pawn path that is not empty is refused
    with "Game mode already exists", and changes neither engine nor trace. *)
Theorem CreateGameModeWithPawn_not_twice g p b h BaseClass PawnClass :
  let e := TheEngine h in
  guards_pass e g p b BaseClass PawnClass →
  is_Some (FString.FindLastChar FPackageName.Slash g) →
  onCreateAsset (Conduct e) ≠ AssetRefused →
  heap_fresh e → world_ok e →
  ∃ s h',
    CreateGameModeWithPawn g p b h = Returned s h' ∧
    ∀ p' b', FString.IsEmpty p' = false →
      CreateGameModeWithPawn g p' b' h'
      = Returned (ErrorJson "Game mode already exists")
          (add_log Warning "Game mode already exists at %s" [ArgText g] h').
Proof.
  intros e Hguards Hslash Hans Hfresh Hworld.
  rewrite (guards_passed _ _ _ _ _ _ Hguards).
  destruct Hguards as (Hempty & _ & Hbase & _).
  assert (FString.IsEmpty g = false) as Hg by (by destruct (FString.IsEmpty g)).
  destruct (game_mode_base_Some e b BaseClass Hbase) as (B & HB & Hgm).
  pose proof (AssetPath_eq g Hslash) as Hpath.
  destruct (onCreateAsset (Conduct e)) eqn:Hanswer; [done| | |].
  - destruct (CreateGameModeWithPawn_create_classless g p (Some BaseClass) (Some PawnClass)
                h Hanswer) as (h' & Hrun & _ & _ & Hnames & Hobjects).
    exists (ErrorJson "No generated class"), h'. split; [exact Hrun|]. intros p' b' Hp'.
    eapply already_exists_at; [done|done| |].
    + rewrite Hnames, Hpath. apply lookup_insert_eq.
    + rewrite Hobjects. apply lookup_insert_eq.
  - destruct (CreateGameModeWithPawn_create_done g p BaseClass (Some PawnClass) B h)
      as (h' & Hrun & _ & _ & Hnames & b0 & Hobject); try done; [by right|].
    exists (SuccessJson g p), h'. split; [exact Hrun|]. intros p' b' Hp'.
    eapply already_exists_at; [done|done| |exact Hobject].
    by rewrite <- Hpath.
  - destruct (CreateGameModeWithPawn_create_done g p BaseClass (Some PawnClass) B h)
      as (h' & Hrun & _ & _ & Hnames & b0 & Hobject); try done; [by left|].
    exists (SuccessJson g p), h'. split; [exact Hrun|]. intros p' b' Hp'.
    eapply already_exists_at; [done|done| |exact Hobject].
    by rewrite <- Hpath.
Qed.

Lemma CreateGameModeWithPawn_not_twice_witness :
  ∃ s h',
    CreateGameModeWithPawn "/Game/Modes/Duel" "/Game/BP_Pawn" "" Sample.host
    = Returned s h' ∧
    CreateGameModeWithPawn "/Game/Modes/Duel" "/Game/BP_Pawn" "" h'
    = Returned (ErrorJson "Game mode already exists")
        (add_log Warning "Game mode already exists at %s" [ArgText "/Game/Modes/Duel"] h').
Proof.
  destruct (CreateGameModeWithPawn_not_twice "/Game/Modes/Duel" "/Game/BP_Pawn" ""
              Sample.host 2 7) as (s & h' & Hrun & Hagain).
  - repeat split; reflexivity.
  - exists 11. reflexivity.
  - discriminate.
  - apply SampleFacts.heap_fresh_engine.
  - exists Sample.level. reflexivity.
  - exists s, h'. split; [exact Hrun|]. by apply Hagain.
Defined.

(** X21.  Past the guards, with a blueprint that has a generated class, the
    call returns the success JSON - "... and set as scene default" - whether
    or not anything was set.  [GEditor] is tested here: without an editor the
    level is skipped and nothing is logged about it; without a world, or a
    current level, only a warning is logged.  And when the generated class
    has no default object, no default pawn class is written, without a word
    in the log. *)
Theorem CreateGameModeWithPawn_reports_success_regardless g p b h BaseClass PawnClass :
  let e := TheEngine h in
  let cls := NextObject e in
  let bp := S (NextObject e) in
  guards_pass e g p b BaseClass PawnClass →
  onCreateAsset (Conduct e) = BlueprintReady ∨
  onCreateAsset (Conduct e) = BlueprintWithoutCDO →
  heap_fresh e → world_ok e →
  ∃ h',
    CreateGameModeWithPawn g p b h = Returned (SuccessJson g p) h' ∧
    LogTemp h' = LogTemp h ++ level_log e g ++
      [line Log "Created game mode %s with pawn %s and set as scene default"
         [ArgText g; ArgText p]] ∧
    Trace h' = Trace h ++
      [CallCreateAsset (FPackageName.GetShortName g) (FPackageName.GetLongPackagePath g) bp] ++
      match onCreateAsset (Conduct e) with
      | BlueprintReady => [CallWrite cls "DefaultPawnClass"]
      | _ => []
      end ++ level_calls e ++
      [CallModify bp; CallMarkBlueprintAsStructurallyModified bp].
Proof.
  intros e cls bp Hguards Hans Hfresh Hworld.
  rewrite (guards_passed _ _ _ _ _ _ Hguards).
  destruct Hguards as (_ & _ & Hbase & _).
  destruct (game_mode_base_Some e b BaseClass Hbase) as (B & HB & Hgm).
  destruct (CreateGameModeWithPawn_create_done g p BaseClass (Some PawnClass) B h
              Hans HB Hgm Hfresh Hworld) as (h' & Hrun & Hlog & Htrace & _).
  by exists h'.
Qed.

Lemma CreateGameModeWithPawn_reports_success_regardless_witness :
  (∃ h',
     CreateGameModeWithPawn "/Game/Modes/Duel" "/Game/BP_Pawn" "" Scenes.no_editor
     = Returned (SuccessJson "/Game/Modes/Duel" "/Game/BP_Pawn") h' ∧
     LogTemp h' =
       [line Log "Created game mode %s with pawn %s and set as scene default"
          [ArgText "/Game/Modes/Duel"; ArgText "/Game/BP_Pawn"]] ∧
     Trace h' =
       [CallCreateAsset "Duel" "/Game/Modes" 11; CallWrite 10 "DefaultPawnClass";
        CallModify 11; CallMarkBlueprintAsStructurallyModified 11]) ∧
  (∃ h',
     CreateGameModeWithPawn "/Game/Modes/Duel" "/Game/BP_Pawn" ""
       (Scenes.asset_tools BlueprintWithoutCDO)
     = Returned (SuccessJson "/Game/Modes/Duel" "/Game/BP_Pawn") h' ∧
     Trace h' =
       [CallCreateAsset "Duel" "/Game/Modes" 11;
        CallWrite 4 "DefaultGameMode"; CallMarkWorldSettingsDirty 4;
        CallModify 11; CallMarkBlueprintAsStructurallyModified 11]).
Proof.
  split.
  - destruct (CreateGameModeWithPawn_reports_success_regardless
                "/Game/Modes/Duel" "/Game/BP_Pawn" "" Scenes.no_editor 2 7)
      as (h' & Hrun & Hlog & Htrace).
    + repeat split; reflexivity.
    + left. reflexivity.
    + apply SampleFacts.heap_fresh_engine.
    + exact I.
    + exists h'. split; [exact Hrun|]. split; [exact Hlog|exact Htrace].
  - destruct (CreateGameModeWithPawn_reports_success_regardless
                "/Game/Modes/Duel" "/Game/BP_Pawn" ""
                (Scenes.asset_tools BlueprintWithoutCDO) 2 7)
      as (h' & Hrun & _ & Htrace).
    + repeat split; reflexivity.
    + right. reflexivity.
    + apply SampleFacts.heap_fresh_engine.
    + exists Sample.level. reflexivity.
    + exists h'. split; [exact Hrun|exact Htrace].
Defined.
End GameModeTheorems.

(** ** Across the module: the calls of each function, and no silent failure *)

Section ModuleTheorems.
Import UGenActorUtils.

Lemma Built_allowed op : Built (fun c => allowed op c = true) (invoke op).
Proof. destruct op; built ltac:(reflexivity). Qed.

(** A program put together from the primitives only adds lines to the log. *)
Lemma Built_log_grown P : ∀ A (m : M A),
  Built P m → ∀ h a h', m h = Returned a h' → log_grown h h'.
Proof.
  induction 1 as [A a|A B m k _ IHm _ IHk|A|A f|f|c Hc|v fmt args]; intros h r h' Hrun.
  - injection Hrun as <- <-. exists []. by rewrite app_nil_r.
  - unfold bind in Hrun. destruct (m h) as [a h1|] eqn:Hm; [|done].
    destruct (IHm _ _ _ Hm) as (l1 & E1). destruct (IHk _ _ _ _ Hrun) as (l2 & E2).
    exists (l1 ++ l2). by rewrite E2, E1, app_assoc.
  - done.
  - injection Hrun as <- <-. exists []. by rewrite app_nil_r.
  - injection Hrun as <- <-. exists []. by rewrite app_nil_r.
  - injection Hrun as <- <-. exists []. by rewrite app_nil_r.
  - injection Hrun as <- <-. by eexists.
Qed.

Lemma log_grown_trans h1 h2 h3 : log_grown h1 h2 → log_grown h2 h3 → log_grown h1 h3.
Proof. intros [l1 E1] [l2 E2]. exists (l1 ++ l2). by rewrite E2, E1, app_assoc. Qed.

Lemma heard_then h1 h2 h3 : heard h1 h2 → log_grown h2 h3 → heard h1 h3.
Proof.
  intros (b & l & a & E1 & Hl) [l2 E2]. exists b, l, (a ++ l2). split; [|done].
  rewrite E2, E1. by rewrite <- !app_assoc.
Qed.

Lemma then_heard h1 h2 h3 : log_grown h1 h2 → heard h2 h3 → heard h1 h3.
Proof.
  intros [l1 E1] (b & l & a & E2 & Hl). exists (l1 ++ b), l, a. split; [|done].
  rewrite E2, E1. by rewrite <- !app_assoc.
Qed.

Lemma loud_ret {A} (bad : A → Prop) (a : A) : ¬ bad a → loud bad (ret a).
Proof.
  intros Hgood h b h' [= <- <-]. split; [|done]. exists []. by rewrite app_nil_r.
Qed.

Lemma loud_bind {A B} P (bad : B → Prop) (m : M A) (k : A → M B) :
  Built P m → (∀ a, loud bad (k a)) → loud bad (bind m k).
Proof.
  intros Hm Hk h b h' Hrun. unfold bind in Hrun.
  destruct (m h) as [a h1|] eqn:Hmh; [|done].
  pose proof (Built_log_grown P _ m Hm _ _ _ Hmh) as Hg.
  destruct (Hk a _ _ _ Hrun) as [Hg' Hbad]. split.
  - by eapply log_grown_trans.
  - intros Hb. eapply then_heard; [done|by apply Hbad].
Qed.

Lemma loud_log {B} P (bad : B → Prop) v fmt args (k : M B) :
  v ≠ Log → Built P k → loud bad (UE_LOG v fmt args;; k).
Proof.
  intros Hv Hk h b h' Hrun. unfold bind, UE_LOG in Hrun.
  pose proof (Built_log_grown P _ k Hk _ _ _ Hrun) as Hg.
  assert (heard h {| TheEngine := TheEngine h;
                     LogTemp := LogTemp h ++ [{| Verbosity := v; Format := fmt; Args := args |}];
                     Trace := Trace h |}) as Hh.
  { exists [], {| Verbosity := v; Format := fmt; Args := args |}, []. by split. }
  split.
  - eapply log_grown_trans; [|exact Hg]. by eexists.
  - intros _. by eapply heard_then.
Qed.

(** After a step that is heard whenever it returns null, only the
    continuation on a pointer that is not null is left to check. *)
Lemma loud_after {B} P (bad : B → Prop) (m : M (option ObjectId)) (k : option ObjectId → M B) :
  loud (fun r => r = None) m → Built P (k None) →
  (∀ Actor, loud bad (k (Some Actor))) → loud bad (bind m k).
Proof.
  intros Hm HkN HkS h b h' Hrun. unfold bind in Hrun.
  destruct (m h) as [[Actor|] h1|] eqn:Hmh; [| |done].
  - destruct (Hm _ _ _ Hmh) as [Hg _]. destruct (HkS Actor _ _ _ Hrun) as [Hg' Hbad].
    split; [by eapply log_grown_trans|].
    intros Hb. eapply then_heard; [done|by apply Hbad].
  - destruct (Hm _ _ _ Hmh) as [Hg Hheard].
    pose proof (Built_log_grown P _ _ HkN _ _ _ Hrun) as Hg'.
    split; [by eapply log_grown_trans|].
    intros _. eapply heard_then; [by apply Hheard|done].
Qed.

Lemma loud_answer {A} (bad : A → Prop) (f : A → Answer) (m : M A) :
  (∀ a, is_sentinel (f a) → bad a) → loud bad m →
  loud is_sentinel (let* a := m in ret (f a)).
Proof.
  intros Hf Hm h b h' Hrun. unfold bind in Hrun.
  destruct (m h) as [a h1|] eqn:Hmh; [|done]. injection Hrun as <- <-.
  destruct (Hm _ _ _ Hmh) as [Hg Hbad]. split; [done|]. intros Hs. by apply Hbad, Hf.
Qed.

Lemma find_result_line e ActorName l :
  find_result e ActorName = NoActor l → Verbosity l ≠ Log.
Proof.
  unfold find_result.
  destruct (GEditor e) as [[[World|]]|]; cbn; [| by intros [= <-] |done].
  destruct (Objects e !! World) as [[| | | | | | | |w]|]; try done.
  destruct (find_by_label e ActorName (WorldActors w)); [done|].
  destruct (resolve e TAActor (WorldNames w) ActorName); [done|]. by intros [= <-].
Qed.

Lemma FindActorByName_loud ActorName :
  loud (fun r => r = None) (FindActorByName ActorName).
Proof.
  intros h r h'. rewrite FindActorByName_result.
  destruct (find_result (TheEngine h) ActorName) as [Actor|l|] eqn:Hr; [| |done].
  - intros [= <- <-]. split; [|done]. exists []. by rewrite app_nil_r.
  - intros [= <- <-]. split; [by eexists|]. intros _.
    exists [], l, []. split; [done|]. by eapply find_result_line.
Qed.

Lemma SuccessJson_good g p : ¬ ∃ m, SuccessJson g p = ErrorJson m.
Proof. intros [m Hm]. by apply SuccessJson_not_error in Hm. Qed.

Ltac loud_step :=
  first
    [ apply loud_ret; first [done | apply SuccessJson_good]
    | eapply (loud_log (fun _ => True)); [done | built ltac:(exact I)]
    | eapply (loud_after (fun _ => True));
      [apply FindActorByName_loud | built ltac:(exact I) | intros ?]
    | eapply (loud_bind (fun _ => True)); [built ltac:(exact I) | intros ?]
    | match goal with
      | |- loud _ (match ?x with _ => _ end) => destruct x
      | |- loud _ (if ?b then _ else _) => destruct b
      end
    | progress cbv beta zeta
    | progress unfold SpawnBasicShape, SpawnStaticMeshActor, SpawnActorFromClass,
        CreateMaterial, CreateMaterial_create, CreateGameModeWithPawn_create,
        SetActorMaterial, SetActorMaterialByPath,
        SetActorPosition, SetActorRotation, SetActorScale, CreateGameModeWithPawn ].

Lemma invoke_loud op : loud is_sentinel (invoke op).
Proof.
  destruct op; cbn [invoke];
    first [ apply (loud_answer (fun p => p = None)); [by intros ?|]
          | apply (loud_answer (fun b => b = false)); [by intros ?|]
          | apply (loud_answer (fun s => ∃ m, s = ErrorJson m)); [by intros ?|] ];
    try apply FindActorByName_loud;
    repeat loud_step.
Qed.

(** X22.  Each function keeps to the calls of its own job, on every host
    and along every path.  [FindActorByName] calls nothing that changes the
    engine; a transform setter issues its one kind of call; the material
    setters only [SetMaterial]; [SpawnActorFromClass] spawns, scales and
    labels (the two static mesh spawners also set the mesh and may destroy);
    [CreateMaterial] keeps to packages and materials, [CreateGameModeWithPawn]
    to the asset tools, blueprints, property writes and the world settings. *)
Theorem functions_keep_to_their_calls op h a h' :
  invoke op h = Returned a h' →
  ∃ calls, Trace h' = Trace h ++ calls ∧ Forall (fun c => allowed op c = true) calls.
Proof. apply Built_emits, Built_allowed. Qed.

Lemma functions_keep_to_their_calls_witness :
  ∃ a h' calls,
    invoke (OpCreateMaterial "Red" Sample.red) Sample.failing_host = Returned a h' ∧
    Trace h' = Trace Sample.failing_host ++ calls ∧
    Forall (fun c => allowed (OpCreateMaterial "Red" Sample.red) c = true) calls.
Proof.
  assert (∃ a h', invoke (OpCreateMaterial "Red" Sample.red) Sample.failing_host
                  = Returned a h') as (a & h' & Hrun)
    by (eexists _, _; by vm_compute).
  destruct (functions_keep_to_their_calls _ _ _ _ Hrun) as (calls & Htrace & Hall).
  exists a, h', calls. split; [exact Hrun|]. split; [exact Htrace|exact Hall].
Defined.

(** X23.  No failure is silent.  Whenever a function of the module returns
    its failure sentinel - null, false, or an error JSON - on whatever host
    and for whatever reason, an error or a warning is among the lines the call
    has added to the log. *)
Theorem no_failure_is_silent op h a h' :
  invoke op h = Returned a h' → is_sentinel a → heard h h'.
Proof. intros Hrun Hbad. by apply (invoke_loud op h a h' Hrun). Qed.

Lemma no_failure_is_silent_witness :
  ∃ h', invoke (OpSetActorPosition "Barrel" OneVector) Sample.host
        = Returned (Flag false) h' ∧
        heard Sample.host h'.
Proof.
  assert (∃ h', invoke (OpSetActorPosition "Barrel" OneVector) Sample.host
                = Returned (Flag false) h') as [h' Hrun]
    by (eexists; by vm_compute).
  exists h'. split; [exact Hrun|].
  apply (no_failure_is_silent _ _ _ _ Hrun). reflexivity.
Defined.
End ModuleTheorems.
